(** * Availability dashboard: a shallow embedding of the front-end logic

    The development follows three source files:
    - [src/utils/apiClient.ts]: the shared axios client and its request
      interceptor (module [ApiClient]);
    - [src/pages/OVHAvailabilityPage.tsx]: the catalog availability page
      (module [OVHAvailabilityPage]);
    - [src/pages/ServerControlPage.tsx], component [ServersPage]: per-plan
      availability check, purchase queue and monitor handlers (module
      [ServersPage]).

    The batch operation behind [/monitor/subscriptions/batch-add-all] belongs
    to the subscription registry, which is not among the sources; module
    [SubscriptionRegistry] models it from the specification.

    Conventions of the embedding.
    - A JavaScript string is a [string] (a sequence of bytes, UTF-8 for the
      message literals). [toLowerCase] is the ASCII lower-casing, which is
      what the JavaScript method does on the ASCII datacenter and option
      codes the handlers receive.
    - A JavaScript object used as a dictionary and typed [Record<string, T>]
      is the finite map of its own properties: a [gmap] where only lookups
      matter, an association list in insertion order where
      [Object.entries] is taken (the keys are datacenter codes and category
      names, none of them an array index).
    - Values have the TypeScript types the code declares for them: an
      availability record is an [AvailabilityItem], a status is a string.
      The body of the availabilities response, which the code does not
      check, is an array of records, [null], or a value of another shape.
    - Numbers that the code prints or compares are integers ([Z] or [nat]);
      [Math.ceil] of a quotient of a length by a page size is the integer
      ceiling.
    - An [async] handler is a function from its inputs and from the outcome
      of the HTTP calls it awaits to the sequence of effects it performs, in
      program order ([console] calls are left out). *)

From Stdlib Require Import ZArith String Ascii List Bool DecimalString Lia.
From Stdlib Require Import Sorted.
From stdpp Require Import gmap strings list.

Open Scope string_scope.

(** ** JavaScript built-ins used by the handlers *)

Module JS.

(** Truthiness of a string: only the empty string is falsy. *)
Definition truthy (s : string) : bool := negb (String.eqb s "").

(** [a || b] where [a] is a string or [undefined]/[null]. *)
Definition orElse (a : option string) (b : string) : string :=
  match a with
  | Some s => if truthy s then s else b
  | None => b
  end.

(** [a || b] where [a] is an array or [undefined] (every array is truthy). *)
Definition orElseArray {A : Type} (a : option (list A)) (b : list A) : list A :=
  match a with
  | Some l => l
  | None => b
  end.

Definition ascii_toLowerCase (c : ascii) : ascii :=
  let n := N_of_ascii c in
  if (65 <=? n)%N && (n <=? 90)%N then ascii_of_N (n + 32) else c.

(** [String.prototype.toLowerCase] *)
Fixpoint toLowerCase (s : string) : string :=
  match s with
  | EmptyString => EmptyString
  | String c s' => String (ascii_toLowerCase c) (toLowerCase s')
  end.

(** [String.prototype.includes]: [sub] occurs in [s]. *)
Fixpoint includes (s sub : string) : bool :=
  String.prefix sub s ||
  match s with
  | EmptyString => false
  | String _ s' => includes s' sub
  end.

(** [opt?.includes(sub)], falsy when [opt] is [undefined]. *)
Definition optIncludes (opt : option string) (sub : string) : bool :=
  match opt with
  | Some s => includes s sub
  | None => false
  end.

(** [Array.prototype.join] on an array of strings. *)
Definition join (sep : string) (l : list string) : string := String.concat sep l.

(** [Number.prototype.toString] and template interpolation of an integer. *)
Definition Number_toString (z : Z) : string := NilZero.string_of_int (Z.to_int z).

(** Request bodies are flat JSON objects: a field holds a boolean, a string
    or an array of strings. *)
Inductive jsonField : Type :=
| JBool (b : bool)
| JStr (s : string)
| JStrings (l : list string).

Definition json : Type := list (string * jsonField).

(** An object [Record<string, V>] with its properties in insertion order. *)
Definition obj (V : Type) : Type := list (string * V).

Definition obj_get {V : Type} (o : obj V) (k : string) : option V :=
  match find (fun kv => String.eqb (fst kv) k) o with
  | Some kv => Some (snd kv)
  | None => None
  end.

(** [o[k] = v]: an existing property keeps its place, a new one goes last. *)
Fixpoint obj_set {V : Type} (o : obj V) (k : string) (v : V) : obj V :=
  match o with
  | [] => [(k, v)]
  | (k', v') :: o' =>
      if String.eqb k' k then (k, v) :: o' else (k', v') :: obj_set o' k v
  end.

(** [Array.prototype.slice(start, end)], negative indices counting from the
    end of the array. *)
Definition slice {A : Type} (l : list A) (start stop : Z) : list A :=
  let len := Z.of_nat (length l) in
  let k := if (start <? 0)%Z then Z.max (len + start) 0 else Z.min start len in
  let final := if (stop <? 0)%Z then Z.max (len + stop) 0 else Z.min stop len in
  firstn (Z.to_nat (Z.max (final - k) 0)) (skipn (Z.to_nat k) l).

(** [Math.ceil(a / b)] for a non-negative length [a] and a positive [b]. *)
Definition ceilDiv (a b : Z) : Z := ((a + b - 1) / b)%Z.

End JS.

(** ** Toasts and HTTP outcomes shared by the pages *)

Inductive toastKind : Type := ToastInfo | ToastSuccess | ToastError.

Record toast : Type := mkToast { toastLevel : toastKind; toastText : string }.

(** The part of an error response the handlers read. *)
Record ErrorResponse : Type := mkErrorResponse {
  status : Z;
  dataError : option string;      (* response.data.error *)
  dataMessage : option string;    (* response.data.message *)
  notAvailable : bool             (* response.data.notAvailable *)
}.

(** The part of an [AxiosError] (or of any thrown value) the handlers read. *)
Record AxiosError : Type := mkAxiosError {
  code : option string;
  message : option string;
  response : option ErrorResponse;
  request : bool                  (* the request was sent, no response came *)
}.

(** Outcome of an awaited promise. *)
Inductive outcome (A : Type) : Type :=
| Resolved (data : A)
| Rejected (error : AxiosError).
Arguments Resolved {A} data.
Arguments Rejected {A} error.

Inductive httpMethod : Type := GET | POST | PUT | DELETE | PATCH.

(** ** src/utils/apiClient.ts *)

Module ApiClient.

Definition API_SECRET_KEY_STORAGE : string := "api_secret_key".

(** [localStorage]: [getItem] answers [null] for a key that is absent. *)
Definition getApiSecretKey (localStorage : gmap string string) : string :=
  JS.orElse (localStorage !! API_SECRET_KEY_STORAGE) "".

Definition setApiSecretKey (key : string) (localStorage : gmap string string)
  : gmap string string :=
  <[API_SECRET_KEY_STORAGE := key]> localStorage.

Definition clearApiSecretKey (localStorage : gmap string string)
  : gmap string string :=
  delete API_SECRET_KEY_STORAGE localStorage.

(** The optional [AxiosRequestConfig] a caller hands to [api.get] and the
    like. *)
Record AxiosRequestConfig : Type := mkConfig {
  params : list (string * string);
  timeout : option Z;
  headers : gmap string string
}.

Definition noConfig : AxiosRequestConfig :=
  {| params := []; timeout := None; headers := ∅ |}.

(** The configuration of one request, as the interceptor sees it. *)
Record InternalAxiosRequestConfig : Type := mkInternalConfig {
  reqMethod : httpMethod;
  reqBaseURL : string;
  reqUrl : string;
  reqParams : list (string * string);
  reqData : option JS.json;
  reqTimeout : Z;
  reqHeaders : gmap string string
}.

(** The request interceptor: attaches the stored key when there is one, and
    the time stamp always. [now] is what [Date.now()] returns. *)
Definition requestInterceptor (localStorage : gmap string string) (now : Z)
    (config : InternalAxiosRequestConfig) : InternalAxiosRequestConfig :=
  let apiKey := getApiSecretKey localStorage in
  let headers1 :=
    if JS.truthy apiKey
    then <["X-API-Key" := apiKey]> (reqHeaders config)
    else reqHeaders config in
  let headers2 := <["X-Request-Time" := JS.Number_toString now]> headers1 in
  {| reqMethod := reqMethod config;
     reqBaseURL := reqBaseURL config;
     reqUrl := reqUrl config;
     reqParams := reqParams config;
     reqData := reqData config;
     reqTimeout := reqTimeout config;
     reqHeaders := headers2 |}.

(** The response interceptor on a rejected request: the toasts it raises
    before it rejects again with the same error. *)
Definition responseInterceptorToasts (error : AxiosError) : list toast :=
  match response error with
  | Some r =>
      if (status r =? 403)%Z then [mkToast ToastError "访问被拒绝：权限不足"]
      else if (status r =? 500)%Z then [mkToast ToastError "服务器错误"]
      else []
  | None =>
      if request error then [mkToast ToastError "网络连接失败，请检查网络"]
      else []
  end.

Section Instance.

(** [API_URL] and [API_TIMEOUT] come from [@/config/constants]. *)
Variable API_URL : string.
Variable API_TIMEOUT : Z.

(** The instance defaults of [axios.create]. *)
Definition defaultHeaders : gmap string string :=
  {[ "Content-Type" := "application/json" ]}.

(** A call on the instance: the caller's configuration is laid over the
    defaults, then the request interceptor runs. *)
Definition sendRequest (localStorage : gmap string string) (now : Z)
    (m : httpMethod) (url : string) (data : option JS.json)
    (config : AxiosRequestConfig) : InternalAxiosRequestConfig :=
  requestInterceptor localStorage now
    {| reqMethod := m;
       reqBaseURL := API_URL;
       reqUrl := url;
       reqParams := params config;
       reqData := data;
       reqTimeout := default API_TIMEOUT (timeout config);
       reqHeaders := headers config ∪ defaultHeaders |}.

End Instance.

End ApiClient.

(** ** src/pages/OVHAvailabilityPage.tsx *)

Module OVHAvailabilityPage.

Record DatacenterInfo : Type := mkDatacenterInfo {
  datacenter : string;
  availability : string
}.

Record AvailabilityItem : Type := mkAvailabilityItem {
  fqn : string;
  memory : string;
  planCode : string;
  server : string;
  storage : string;
  systemStorage : option string;
  datacenters : list DatacenterInfo
}.

Definition getApiBaseUrl (endpoint : string) : string :=
  if String.eqb endpoint "ovh-us" then "https://api.us.ovhcloud.com"
  else if String.eqb endpoint "ovh-ca" then "https://ca.api.ovh.com"
  else "https://eu.api.ovh.com".

(** *** The snapshot held by the page and its fetch *)

(** [response.data] of the availabilities request. The handler passes it on
    as it is and reads its [length]: a JSON array of records; JSON [null],
    whose [length] cannot be read; or a value of another shape (an object, a
    string), of which only the text that the template literal prints for its
    [length] matters ([undefined], or a number). *)
Inductive ResponseData : Type :=
| Items (data : list AvailabilityItem)
| Null
| OtherData (lengthText : string).

(** The two pieces of component state [fetchAvailabilities] writes. The
    state [availabilities] holds whatever [setAvailabilities] was given. *)
Record State : Type := mkState {
  availabilities : ResponseData;
  isLoading : bool
}.

Inductive effect : Type :=
| SetIsLoading (b : bool)
| SetAvailabilities (data : ResponseData)
| Toast (t : toast)
| AxiosGet (url : string) (timeoutMs : Z).

(** The message of the [catch] branch of [fetchAvailabilities]. *)
Definition fetchErrorMessage (error : AxiosError) : string :=
  if match code error with Some c => String.eqb c "ECONNABORTED" | None => false end
     || JS.optIncludes (message error) "timeout"
  then "请求超时，请重试"
  else match message error with
       | Some m => if JS.truthy m then "获取数据失败: " +:+ m else "获取数据失败"
       | None => "获取数据失败"
       end.

Section FetchAvailabilities.

(** The message of the [TypeError] that reading [length] of [null] throws;
    its wording is the JavaScript engine's. *)
Variable nullLengthMessage : string.

Definition nullLengthError : AxiosError :=
  {| code := None; message := Some nullLengthMessage; response := None; request := false |}.

(** [fetchAvailabilities] (source lines 85-117): [net] is the outcome of the
    one [axios.get]. The call goes to the provider's public API directly, not
    through the shared client. Line 101 hands the body to [setAvailabilities]
    before line 102 reads its [length]: on a [null] body the write has been
    made when the read throws into the [catch]. *)
Definition fetchAvailabilities (apiBaseUrl : string)
    (net : outcome ResponseData) : list effect :=
  if negb (JS.truthy apiBaseUrl) then []
  else
    let apiUrl := apiBaseUrl +:+ "/v1/dedicated/server/datacenter/availabilities" in
    [ SetIsLoading true;
      Toast (mkToast ToastInfo "正在从 OVH 公开 API 获取数据...");
      AxiosGet apiUrl 30000 ]
    ++ match net with
       | Resolved (Items data) =>
           [ SetAvailabilities (Items data);
             Toast (mkToast ToastSuccess
                      ("成功获取 " +:+ JS.Number_toString (Z.of_nat (List.length data))
                       +:+ " 条可用性记录")) ]
       | Resolved Null =>
           [ SetAvailabilities Null;
             Toast (mkToast ToastError (fetchErrorMessage nullLengthError)) ]
       | Resolved (OtherData lengthText) =>
           [ SetAvailabilities (OtherData lengthText);
             Toast (mkToast ToastSuccess
                      ("成功获取 " +:+ lengthText +:+ " 条可用性记录")) ]
       | Rejected error =>
           [ Toast (mkToast ToastError (fetchErrorMessage error)) ]
       end
    ++ [ SetIsLoading false ].

End FetchAvailabilities.

(** What one effect does to the component state. *)
Definition step (st : State) (e : effect) : State :=
  match e with
  | SetIsLoading b => {| availabilities := availabilities st; isLoading := b |}
  | SetAvailabilities data => {| availabilities := data; isLoading := isLoading st |}
  | Toast _ => st
  | AxiosGet _ _ => st
  end.

Definition run (st : State) (es : list effect) : State := fold_left step es st.

(** Every state a reader can see while the effects are carried out: the
    state before, and the state after each effect. *)
Fixpoint visibleStates (st : State) (es : list effect) : list State :=
  match es with
  | [] => [st]
  | e :: es' => st :: visibleStates (step st e) es'
  end.

Definition toastsOf (es : list effect) : list toast :=
  flat_map (fun e => match e with Toast t => [t] | _ => [] end) es.

Definition snapshotWrites (es : list effect) : list ResponseData :=
  flat_map (fun e => match e with SetAvailabilities d => [d] | _ => [] end) es.

(** *** Availability classes of a datacenter entry *)

(** [dc.availability !== 'unavailable' && dc.availability !== 'unknown'] *)
Definition dcIsAvailable (dc : DatacenterInfo) : bool :=
  negb (String.eqb (availability dc) "unavailable")
  && negb (String.eqb (availability dc) "unknown").

(** [dc.availability === 'unavailable' || dc.availability === 'unknown'] *)
Definition dcIsUnavailable (dc : DatacenterInfo) : bool :=
  String.eqb (availability dc) "unavailable"
  || String.eqb (availability dc) "unknown".

(** [dc.availability === '1H-low' || dc.availability === '1H-high'] *)
Definition dcIsOneHour (dc : DatacenterInfo) : bool :=
  String.eqb (availability dc) "1H-low"
  || String.eqb (availability dc) "1H-high".

(** The availability stage of [filteredData] (source lines 175-192). The
    other stages (search, datacenter, memory, sort) do not read the
    classification; the statements below hold for any list that reaches or
    leaves them. *)
Definition filterByAvailability (filterAvailability : string)
    (filtered : list AvailabilityItem) : list AvailabilityItem :=
  if negb (String.eqb filterAvailability "all") then
    List.filter
      (fun item =>
         if String.eqb filterAvailability "available" then
           existsb dcIsAvailable (datacenters item)
         else if String.eqb filterAvailability "unavailable" then
           forallb dcIsUnavailable (datacenters item)
         else if String.eqb filterAvailability "1h" then
           existsb dcIsOneHour (datacenters item)
         else true)
      filtered
  else filtered.

(** The sort key of [sortBy === 'availability']. *)
Definition availableCount (item : AvailabilityItem) : nat :=
  List.length (List.filter dcIsAvailable (datacenters item)).

Record Stats : Type := mkStats {
  total : nat;
  available : nat;
  oneHour : nat
}.

Definition stats (filteredData : list AvailabilityItem) : Stats :=
  {| total := List.length filteredData;
     available :=
       List.length
         (List.filter (fun item => existsb dcIsAvailable (datacenters item))
            filteredData);
     oneHour :=
       List.length
         (List.filter (fun item => existsb dcIsOneHour (datacenters item))
            filteredData) |}.

(** *** Pagination *)

Definition itemsPerPage (isMobile : bool) : Z := if isMobile then 20%Z else 50%Z.

Definition paginatedData (filteredData : list AvailabilityItem)
    (currentPage itemsPerPage : Z) : list AvailabilityItem :=
  let startIndex := ((currentPage - 1) * itemsPerPage)%Z in
  let endIndex := (startIndex + itemsPerPage)%Z in
  JS.slice filteredData startIndex endIndex.

Definition totalPages (filteredData : list AvailabilityItem) (itemsPerPage : Z) : Z :=
  JS.ceilDiv (Z.of_nat (List.length filteredData)) itemsPerPage.

(** The pages [1 .. totalPages], in order. *)
Definition allPages (filteredData : list AvailabilityItem) (itemsPerPage : Z)
  : list (list AvailabilityItem) :=
  map (fun i => paginatedData filteredData (Z.of_nat i + 1) itemsPerPage)
      (seq 0 (Z.to_nat (totalPages filteredData itemsPerPage))).

End OVHAvailabilityPage.

(** ** src/pages/ServerControlPage.tsx, component ServersPage *)

Module ServersPage.

Record ServerOption : Type := mkServerOption {
  label : string;
  value : string;
  family : option string;
  isDefault : option bool
}.

(** Of a [ServerPlan], the fields the handlers below read. *)
Record ServerPlan : Type := mkServerPlan {
  planCode : string;
  name : string;
  defaultOptions : list ServerOption;
  availableOptions : list ServerOption
}.

(** The summary [POST /monitor/subscriptions/batch-add-all] answers with, as
    the handler reads it; [errors] may be missing. *)
Record BatchResult : Type := mkBatchResult {
  added : Z;
  skipped : Z;
  errors : option (list string)
}.

Inductive effect : Type :=
| Toast (t : toast)
| ApiRequest (m : httpMethod) (url : string) (data : option JS.json)
    (config : ApiClient.AxiosRequestConfig)
| SetIsCheckingAvailability (b : bool)
| SetSelectedServer (planCode : option string)
| SetAvailability (planCode : string) (normalizedData : JS.obj string)
| SetServerPriceLoading (planCode datacenter : string)
| SetServerPriceError (planCode datacenter error : string)
| SetShowBatchMonitorDialog (b : bool)
| SetSubscribedServers (planCodes : list string)
| LocalStorageSetItem (key : string) (jsonArray : list string)
| SetServersCopy.

Definition requestsOf (es : list effect)
  : list (httpMethod * string * option JS.json * ApiClient.AxiosRequestConfig) :=
  flat_map (fun e => match e with
                     | ApiRequest m url data config => [(m, url, data, config)]
                     | _ => []
                     end) es.

Definition toastsOf (es : list effect) : list toast :=
  flat_map (fun e => match e with Toast t => [t] | _ => [] end) es.

Definition isGet (r : httpMethod * string * option JS.json * ApiClient.AxiosRequestConfig)
  : bool :=
  match r with
  | (GET, _, _, _) => true
  | _ => false
  end.

Definition LF : string := String "010"%char EmptyString.

(** *** Datacenter codes *)

Definition dcMap : gmap string string := {[ "mum" := "ynm" ]}.

(** Display code to provider API code (source lines 6584-6590). *)
Definition convertDisplayDcToApiDc (displayDc : string) : string :=
  JS.orElse (dcMap !! JS.toLowerCase displayDc) (JS.toLowerCase displayDc).

(** Provider API code back to display code, as [checkAvailability] does for
    each key of the response: [dc === 'ynm' ? 'mum' : dc]. *)
Definition normalizeDc (dc : string) : string :=
  if String.eqb dc "ynm" then "mum" else dc.

Definition normalizeData (data : JS.obj string) : JS.obj string :=
  fold_left (fun normalizedData kv => JS.obj_set normalizedData (normalizeDc (fst kv)) (snd kv))
            data [].

(** [status && status !== 'unavailable' && status !== 'unknown'] *)
Definition statusIsAvailable (status : string) : bool :=
  JS.truthy status
  && negb (String.eqb status "unavailable")
  && negb (String.eqb status "unknown").

Definition availableDatacenters (normalizedData : JS.obj string) : list string :=
  map fst (List.filter (fun kv => statusIsAvailable (snd kv)) normalizedData).

(** *** Messages *)

Definition checkAvailabilityErrorMessage (planCode : string) (error : AxiosError)
  : string :=
  if match code error with Some c => String.eqb c "ECONNABORTED" | None => false end
     || JS.optIncludes (message error) "timeout"
  then planCode +:+ " 可用性检测超时，OVH响应较慢，请稍后重试"
  else if match response error with Some r => (status r =? 404)%Z | None => false end
  then planCode +:+ " 不存在或已下架"
  else match message error with
       | Some m =>
           if JS.truthy m then "获取 " +:+ planCode +:+ " 可用性失败: " +:+ m
           else "获取 " +:+ planCode +:+ " 可用性失败"
       | None => "获取 " +:+ planCode +:+ " 可用性失败"
       end.

(** The success message of [confirmBatchAddAllServersToMonitor]. *)
Definition batchMessage (result : BatchResult) : string :=
  let message0 := "✅ 批量添加完成！" +:+ LF in
  let message1 :=
    message0 +:+ ("• 已添加: " +:+ JS.Number_toString (added result) +:+ " 个服务器" +:+ LF) in
  let message2 :=
    if (0 <? skipped result)%Z
    then message1 +:+ ("• 跳过: " +:+ JS.Number_toString (skipped result)
                       +:+ " 个已订阅服务器" +:+ LF)
    else message1 in
  let message3 :=
    match errors result with
    | Some errs =>
        if (0 <? List.length errs)%nat
        then message2 +:+ ("• 失败: " +:+ JS.Number_toString (Z.of_nat (List.length errs))
                           +:+ " 个" +:+ LF)
        else message2
    | None => message2
    end in
  message3 +:+ (LF +:+ "所有服务器将监控全机房，系统会自动发送可用性通知。").

(** The category [addToQueue] files an option under. *)
Definition optionCategory (option : ServerOption) : string :=
  let value := JS.toLowerCase (value option) in
  let label := JS.toLowerCase (label option) in
  if JS.includes value "ram-" || JS.includes label "内存" || JS.includes label "memory"
  then "内存"
  else if JS.includes value "softraid" || JS.includes value "raid"
          || JS.includes label "存储" || JS.includes label "storage"
          || JS.includes label "ssd" || JS.includes label "hdd"
          || JS.includes label "nvme"
  then "存储"
  else if JS.includes value "bandwidth" || JS.includes value "traffic"
          || JS.includes label "带宽" || JS.includes label "bandwidth"
  then "网络"
  else "其他".

(** [categorizeOption] on the accumulated [formattedOptions]. *)
Definition categorizeOption (server : ServerPlan)
    (formattedOptions : JS.obj (list string)) (optionValue : string)
  : JS.obj (list string) :=
  match find (fun opt => String.eqb (value opt) optionValue) (availableOptions server) with
  | None => formattedOptions
  | Some option =>
      let category := optionCategory option in
      JS.obj_set formattedOptions category
        (JS.orElseArray (JS.obj_get formattedOptions category) [] ++ [label option])%list
  end.

Definition queueSuccessMessage (server : ServerPlan) (datacenters : list string)
    (userSelectedOptions : list string) : string :=
  let formattedOptions := fold_left (categorizeOption server) userSelectedOptions [] in
  let successMessage :=
    "已将 " +:+ planCode server +:+ " 添加到 "
    +:+ JS.Number_toString (Z.of_nat (List.length datacenters))
    +:+ " 个数据中心的抢购队列" in
  if (0 <? List.length userSelectedOptions)%nat
     && existsb (fun opt =>
                   negb (existsb (String.eqb opt) (map value (defaultOptions server))))
                userSelectedOptions
  then
    fold_left
      (fun msg kv => msg +:+ (fst kv +:+ "(" +:+ JS.join ", " (snd kv) +:+ ") "))
      formattedOptions
      (successMessage +:+ (LF +:+ "已选配置: "))
  else successMessage.

(** [new Set(array)]: the distinct elements, in order of first occurrence. *)
Definition newSet (l : list string) : list string :=
  rev (nodup string_dec (rev l)).

(** *** Handlers *)

Section Component.

(** What the handlers close over. *)
Variable isAuthenticated : bool.
Variable selectedOptions : gmap string (list string).
Variable servers : list ServerPlan.

(** [fetchServerPrice] up to its request. What it does once the price has
    come back (a state update and a toast, no further request) happens after
    its caller has moved on and is not part of the caller's effects. *)
Definition fetchServerPrice (planCode : string) (options : list string)
    (datacenter : string) : list effect :=
  if negb isAuthenticated then
    [ SetServerPriceError planCode datacenter "未配置API密钥" ]
  else
    let apiDc := convertDisplayDcToApiDc datacenter in
    [ SetServerPriceLoading planCode datacenter;
      ApiRequest POST ("/servers/" +:+ planCode +:+ "/price")
        (Some [("datacenter", JS.JStr apiDc); ("options", JS.JStrings options)])
        ApiClient.noConfig ].

(** [checkAvailability] (source lines 6429-6511): [net] is the outcome of
    the availability request, the response body being an object from
    datacenter code to status. *)
Definition checkAvailability (planCode : string) (net : outcome (JS.obj string))
  : list effect :=
  if negb isAuthenticated then
    [ Toast (mkToast ToastError "请先配置 API 设置") ]
  else
    let selectedOpts := JS.orElseArray (selectedOptions !! planCode) [] in
    let params :=
      if (0 <? List.length selectedOpts)%nat
      then [("options", JS.join "," selectedOpts)]
      else [] in
    [ SetIsCheckingAvailability true;
      SetSelectedServer (Some planCode);
      Toast (mkToast ToastInfo ("正在检测 " +:+ planCode +:+ " 的可用性..."));
      ApiRequest GET ("/availability/" +:+ planCode) None
        {| ApiClient.params := params;
           ApiClient.timeout := Some 120000%Z;
           ApiClient.headers := ∅ |} ]
    ++ match net with
       | Resolved data =>
           let normalizedData := normalizeData data in
           [ SetAvailability planCode normalizedData ]
           ++ match availableDatacenters normalizedData with
              | firstAvailableDC :: _ =>
                  if isAuthenticated then
                    let server := find (fun s => String.eqb (ServersPage.planCode s) planCode) servers in
                    let finalOptions :=
                      if (0 <? List.length selectedOpts)%nat then selectedOpts
                      else match server with
                           | Some s => map value (defaultOptions s)
                           | None => []
                           end in
                    fetchServerPrice planCode finalOptions firstAvailableDC
                  else []
              | [] => []
              end
           ++ [ Toast (mkToast ToastSuccess ("已更新 " +:+ planCode +:+ " 可用性信息")) ]
       | Rejected error =>
           map Toast (ApiClient.responseInterceptorToasts error)
           ++ [ Toast (mkToast ToastError (checkAvailabilityErrorMessage planCode error)) ]
       end
    ++ [ SetIsCheckingAvailability false; SetSelectedServer None ].

(** The options [addToQueue] submits: the operator's selection when it is not
    empty, the plan's defaults otherwise. *)
Definition userSelectedOptions (server : ServerPlan) : list string :=
  match selectedOptions !! planCode server with
  | Some (o :: opts) => o :: opts
  | _ => map value (defaultOptions server)
  end.

Definition queueRequest (server : ServerPlan) (datacenter : string) : effect :=
  ApiRequest POST "/queue"
    (Some [ ("planCode", JS.JStr (planCode server));
            ("datacenter", JS.JStr (convertDisplayDcToApiDc datacenter));
            ("options", JS.JStrings (userSelectedOptions server)) ])
    ApiClient.noConfig.

Definition isRejected {A : Type} (o : outcome A) : bool :=
  match o with
  | Resolved _ => false
  | Rejected _ => true
  end.

Definition rejectionToasts {A : Type} (o : outcome A) : list effect :=
  match o with
  | Resolved _ => []
  | Rejected error => map Toast (ApiClient.responseInterceptorToasts error)
  end.

(** What follows the requests of [addToQueue], for the outcomes [net] in the
    order in which the responses come. [Promise.all] settles with the first
    rejection: the response interceptor raises its toasts for that response,
    the [catch] of the handler raises its own right after, and the responses
    that come later only have the toasts of the interceptor. When no request
    is rejected the handler goes on after the last response. *)
Fixpoint afterPromiseAll (onFulfilled : list effect) (net : list (outcome unit))
  : list effect :=
  match net with
  | [] => onFulfilled
  | Resolved _ :: later => afterPromiseAll onFulfilled later
  | Rejected error :: later =>
      map Toast (ApiClient.responseInterceptorToasts error)
      ++ [ Toast (mkToast ToastError "添加到抢购队列失败") ]
      ++ flat_map rejectionToasts later
  end.

(** [addToQueue] (source lines 6778-6858): [net] lists the outcomes of the
    requests, one per selected datacenter, in the order in which the
    responses come. All requests are issued before any outcome is awaited. *)
Definition addToQueue (server : ServerPlan) (datacenters : list string)
    (net : list (outcome unit)) : list effect :=
  if negb isAuthenticated then
    [ Toast (mkToast ToastError "请先配置 API 设置") ]
  else if (List.length datacenters =? 0)%nat then
    [ Toast (mkToast ToastError "请至少选择一个数据中心") ]
  else
    map (queueRequest server) datacenters
    ++ afterPromiseAll
         [ Toast (mkToast ToastSuccess
                    (queueSuccessMessage server datacenters (userSelectedOptions server))) ]
         net.

(** [loadSubscribedServers]: [net] is the outcome of the subscription
    listing, reduced to the plan code of each subscription. *)
Definition loadSubscribedServers (net : outcome (list string)) : list effect :=
  if negb isAuthenticated then []
  else
    [ ApiRequest GET "/monitor/subscriptions" None ApiClient.noConfig ]
    ++ match net with
       | Resolved subscriptions =>
           let planCodes := newSet subscriptions in
           [ SetSubscribedServers planCodes;
             LocalStorageSetItem "ovh_subscribed_servers" planCodes ]
       | Rejected error => map Toast (ApiClient.responseInterceptorToasts error)
       end.

(** [confirmBatchAddAllServersToMonitor] (source lines 6921-6954) *)
Definition confirmBatchAddAllServersToMonitor (net : outcome BatchResult)
    (netSubscriptions : outcome (list string)) : list effect :=
  [ SetShowBatchMonitorDialog false;
    ApiRequest POST "/monitor/subscriptions/batch-add-all"
      (Some [("notifyAvailable", JS.JBool true); ("notifyUnavailable", JS.JBool true)])
      ApiClient.noConfig ]
  ++ match net with
     | Resolved result =>
         loadSubscribedServers netSubscriptions
         ++ [ SetServersCopy; Toast (mkToast ToastSuccess (batchMessage result)) ]
     | Rejected error =>
         map Toast (ApiClient.responseInterceptorToasts error)
         ++ [ Toast (mkToast ToastError
                       (JS.orElse
                          match response error with
                          | Some r => dataMessage r
                          | None => None
                          end
                          "批量添加监控失败")) ]
     end.

End Component.

End ServersPage.

(** ** More JavaScript built-ins *)

Module JSArray.

(** [Array.prototype.sort(compare)]. The sort is stable, and for a comparator
    that is a total preorder (as every comparator of the pages is) the stable
    sorted arrangement is unique; insertion from the right computes it: an
    element goes before the first element it does not compare greater than. *)
Fixpoint insert {A : Type} (compare : A -> A -> Z) (x : A) (sorted : list A) : list A :=
  match sorted with
  | [] => [x]
  | y :: rest =>
      if (compare x y <=? 0)%Z then x :: y :: rest
      else y :: insert compare x rest
  end.

Definition sort {A : Type} (compare : A -> A -> Z) (l : list A) : list A :=
  fold_right (insert compare) [] l.

(** [const i = a.indexOf(v); if (i >= 0) a.splice(i, 1)]: the first
    occurrence of [v] goes, if there is one. *)
Fixpoint removeFirst (v : string) (a : list string) : list string :=
  match a with
  | [] => []
  | x :: rest => if String.eqb x v then rest else x :: removeFirst v rest
  end.

(** [a.includes(v)] on an array of strings, [set.has(v)] on a set of strings. *)
Definition arrayIncludes (a : list string) (v : string) : bool :=
  existsb (String.eqb v) a.

Definition isDigit (c : ascii) : bool :=
  let n := N_of_ascii c in (48 <=? n)%N && (n <=? 57)%N.

(** The longest run of digits a string starts with, and what follows it. *)
Fixpoint takeDigits (s : string) : string * string :=
  match s with
  | EmptyString => (EmptyString, EmptyString)
  | String c s' =>
      if isDigit c then
        let (digits, rest) := takeDigits s' in (String c digits, rest)
      else (EmptyString, s)
  end.

(** [s.match(/(\d+)g/i)]: the first capture group of the leftmost match,
    that is the first run of digits that a [g] or [G] follows. *)
Fixpoint matchDigitsG (s : string) : option string :=
  match s with
  | EmptyString => None
  | String c s' =>
      if isDigit c then
        match takeDigits s with
        | (digits, String g _) =>
            if Ascii.eqb g "g" || Ascii.eqb g "G" then Some digits
            else matchDigitsG s'
        | (_, EmptyString) => matchDigitsG s'
        end
      else matchDigitsG s'
  end.

(** [parseInt] of a string of decimal digits, as the integer the digits
    denote. JavaScript's result is this integer as long as it is below
    [2^53]; above, it is the nearest double. *)
Definition parseInt (digits : string) : Z :=
  fold_left (fun acc c => (10 * acc + Z.of_N (N_of_ascii c - 48))%Z)
            (list_ascii_of_string digits) 0%Z.

End JSArray.

(** ** src/pages/OVHAvailabilityPage.tsx: the list shown *)

Module AvailabilityView.

Import OVHAvailabilityPage.

Inductive SortBy : Type := ByPlanCode | ByMemory | ByAvailability.

Inductive SortOrder : Type := Asc | Desc.

(** The search stage of [filteredData] (source lines 156-165). *)
Definition searchStage (debouncedSearch : string) (filtered : list AvailabilityItem)
  : list AvailabilityItem :=
  if JS.truthy debouncedSearch then
    let term := JS.toLowerCase debouncedSearch in
    List.filter
      (fun item =>
         JS.includes (JS.toLowerCase (planCode item)) term
         || JS.includes (JS.toLowerCase (server item)) term
         || JS.includes (JS.toLowerCase (fqn item)) term
         || JS.includes (JS.toLowerCase (memory item)) term
         || JS.includes (JS.toLowerCase (storage item)) term)
      filtered
  else filtered.

(** The datacenter stage (source lines 168-172). *)
Definition datacenterStage (filterDatacenter : string) (filtered : list AvailabilityItem)
  : list AvailabilityItem :=
  if negb (String.eqb filterDatacenter "all") then
    List.filter
      (fun item =>
         existsb (fun dc => String.eqb (JS.toLowerCase (datacenter dc))
                                       (JS.toLowerCase filterDatacenter))
                 (datacenters item))
      filtered
  else filtered.

(** The memory stage (source lines 195-210). *)
Definition memoryBucket (filterMemory : string) (memSize : Z) : bool :=
  if String.eqb filterMemory "<=128" then (memSize <=? 128)%Z
  else if String.eqb filterMemory "256" then (128 <=? memSize)%Z && (memSize <=? 256)%Z
  else if String.eqb filterMemory "512" then (256 <=? memSize)%Z && (memSize <=? 512)%Z
  else if String.eqb filterMemory ">=1024" then (1024 <=? memSize)%Z
  else true.

Definition memoryStage (filterMemory : string) (filtered : list AvailabilityItem)
  : list AvailabilityItem :=
  if negb (String.eqb filterMemory "all") then
    List.filter
      (fun item =>
         match JSArray.matchDigitsG (memory item) with
         | Some digits => memoryBucket filterMemory (JSArray.parseInt digits)
         | None => true
         end)
      filtered
  else filtered.

(** The memory sort key: [aMemMatch ? parseInt(aMemMatch[1]) : 0]. *)
Definition memorySortKey (item : AvailabilityItem) : Z :=
  match JSArray.matchDigitsG (memory item) with
  | Some digits => JSArray.parseInt digits
  | None => 0%Z
  end.

Section FilteredData.

(** [String.prototype.localeCompare], which depends on the browser's
    collation. *)
Variable localeCompare : string -> string -> Z.

(** The comparator of the sort stage (source lines 213-239). *)
Definition compareItems (sortBy : SortBy) (sortOrder : SortOrder)
    (a b : AvailabilityItem) : Z :=
  let compareValue :=
    match sortBy with
    | ByPlanCode => localeCompare (planCode a) (planCode b)
    | ByMemory => (memorySortKey a - memorySortKey b)%Z
    | ByAvailability => (Z.of_nat (availableCount a) - Z.of_nat (availableCount b))%Z
    end in
  match sortOrder with
  | Asc => compareValue
  | Desc => (- compareValue)%Z
  end.

(** [filteredData] (source lines 152-242): a copy of the snapshot goes
    through the four filters, then is sorted. *)
Definition filteredData (availabilities : list AvailabilityItem)
    (debouncedSearch filterDatacenter filterAvailability filterMemory : string)
    (sortBy : SortBy) (sortOrder : SortOrder) : list AvailabilityItem :=
  let filtered := availabilities in
  let filtered := searchStage debouncedSearch filtered in
  let filtered := datacenterStage filterDatacenter filtered in
  let filtered := filterByAvailability filterAvailability filtered in
  let filtered := memoryStage filterMemory filtered in
  JSArray.sort (compareItems sortBy sortOrder) filtered.

End FilteredData.

(** *** Sort buttons and page controls *)

(** A click on a sort button (source lines 486-530): the active key flips
    the order; another key becomes active, in ascending order for the plan
    code and the memory buttons and in descending order for the availability
    button. *)
Definition clickSort (key : SortBy) (current : SortBy * SortOrder) : SortBy * SortOrder :=
  let (sortBy, sortOrder) := current in
  if match sortBy, key with
     | ByPlanCode, ByPlanCode | ByMemory, ByMemory | ByAvailability, ByAvailability => true
     | _, _ => false
     end
  then (sortBy, match sortOrder with Asc => Desc | Desc => Asc end)
  else match key with
       | ByPlanCode => (ByPlanCode, Asc)
       | ByMemory => (ByMemory, Asc)
       | ByAvailability => (ByAvailability, Desc)
       end.

(** The four page buttons (source lines 636-675), as updates of
    [currentPage]. *)
Definition firstPage (currentPage : Z) : Z := 1%Z.

Definition previousPage (currentPage : Z) : Z := Z.max 1 (currentPage - 1).

Definition nextPage (totalPages currentPage : Z) : Z := Z.min totalPages (currentPage + 1).

Definition lastPage (totalPages currentPage : Z) : Z := totalPages.

(** The range the desktop layout announces (source line 629):
    [(currentPage - 1) * itemsPerPage + 1] to
    [Math.min(currentPage * itemsPerPage, filteredData.length)]. *)
Definition shownFrom (currentPage itemsPerPage : Z) : Z :=
  ((currentPage - 1) * itemsPerPage + 1)%Z.

Definition shownTo (filteredData : list AvailabilityItem) (currentPage itemsPerPage : Z) : Z :=
  Z.min (currentPage * itemsPerPage) (Z.of_nat (List.length filteredData)).

(** *** The endpoint configuration *)

Record ConfigState : Type := mkConfigState {
  endpoint : string;
  apiBaseUrl : string;
  isConfigLoading : bool
}.

Inductive configEffect : Type :=
| SetIsConfigLoading (b : bool)
| SetEndpoint (endpoint : string)
| SetApiBaseUrl (baseUrl : string)
| ConfigToast (t : toast)
| ApiClientGet (url : string).

(** [fetchEndpointConfig] (source lines 120-137): [net] is the outcome of the
    request through the shared client, reduced to [response.data.endpoint]. *)
Definition fetchEndpointConfig (net : outcome (option string)) : list configEffect :=
  [ SetIsConfigLoading true; ApiClientGet "/endpoint-config" ]
  ++ match net with
     | Resolved dataEndpoint =>
         let configEndpoint := JS.orElse dataEndpoint "ovh-eu" in
         [ SetEndpoint configEndpoint; SetApiBaseUrl (getApiBaseUrl configEndpoint) ]
     | Rejected error =>
         map ConfigToast (ApiClient.responseInterceptorToasts error)
         ++ [ SetEndpoint "ovh-eu";
              SetApiBaseUrl "https://eu.api.ovh.com";
              ConfigToast (mkToast ToastError "获取区域配置失败，使用默认欧洲区域") ]
     end
  ++ [ SetIsConfigLoading false ].

Definition configStep (st : ConfigState) (e : configEffect) : ConfigState :=
  match e with
  | SetIsConfigLoading b =>
      {| endpoint := endpoint st; apiBaseUrl := apiBaseUrl st; isConfigLoading := b |}
  | SetEndpoint ep =>
      {| endpoint := ep; apiBaseUrl := apiBaseUrl st; isConfigLoading := isConfigLoading st |}
  | SetApiBaseUrl url =>
      {| endpoint := endpoint st; apiBaseUrl := url; isConfigLoading := isConfigLoading st |}
  | ConfigToast _ => st
  | ApiClientGet _ => st
  end.

Definition runConfig (st : ConfigState) (es : list configEffect) : ConfigState :=
  fold_left configStep es st.

End AvailabilityView.

(** ** src/pages/ServerControlPage.tsx, component ServersPage: selections,
       monitor and list order *)

Module ServersView.

Import ServersPage.

(** *** Datacenter selection *)

(** [selectedDatacenters]: for each plan, an object from datacenter code to
    the tick of its tile. *)

(** The state update of [toggleDatacenterSelection] (source lines 6550-6556):
    [{...prev, [plan]: {...prev[plan], [dc]: !prev[plan]?.[dc]}}]. *)
Definition toggleDatacenterSelection (serverPlanCode datacenter : string)
    (prev : gmap string (JS.obj bool)) : gmap string (JS.obj bool) :=
  let current := default [] (prev !! serverPlanCode) in
  let ticked := default false (JS.obj_get current datacenter) in
  <[ serverPlanCode := JS.obj_set current datacenter (negb ticked) ]> prev.

(** The state update of [toggleAllDatacenters] (source lines 6561-6571). *)
Definition toggleAllDatacenters (serverPlanCode : string) (selected : bool)
    (prev : gmap string (JS.obj bool)) : gmap string (JS.obj bool) :=
  match prev !! serverPlanCode with
  | Some current =>
      <[ serverPlanCode := map (fun kv => (fst kv, selected)) current ]> prev
  | None => prev
  end.

(** [getSelectedDatacentersList] (source lines 6574-6580). *)
Definition getSelectedDatacentersList (selectedDatacenters : gmap string (JS.obj bool))
    (serverPlanCode : string) : list string :=
  match selectedDatacenters !! serverPlanCode with
  | None => []
  | Some current =>
      map (fun kv => JS.toLowerCase (fst kv)) (List.filter (fun kv => snd kv) current)
  end.

(** The selection [fetchServers] starts from (source lines 6083-6092): for
    each plan, every datacenter code of [OVH_DATACENTERS] (a constant of
    [@/config/ovhConstants]), in upper case, unticked. *)
Definition toUpperCase (s : string) : string :=
  string_of_list_ascii
    (map (fun c => let n := N_of_ascii c in
                   if (97 <=? n)%N && (n <=? 122)%N then ascii_of_N (n - 32) else c)
         (list_ascii_of_string s)).

Definition initialSelections (OVH_DATACENTERS : list string) (planCodes : list string)
  : gmap string (JS.obj bool) :=
  fold_left
    (fun dcSelections planCode =>
       <[ planCode := fold_left (fun o code => JS.obj_set o (toUpperCase code) false)
                                OVH_DATACENTERS [] ]> dcSelections)
    planCodes ∅.

(** *** The status shown on a datacenter tile (source lines 7876-7889) *)

Inductive tileColor : Type := Yellow | Red | Green.

Definition tileStatus (availability : gmap string (JS.obj string))
    (planCode dcCode : string) : string * tileColor :=
  let availStatus :=
    JS.orElse
      match availability !! planCode with
      | Some statuses => JS.obj_get statuses (JS.toLowerCase dcCode)
      | None => None
      end
      "unknown" in
  if String.eqb availStatus "unavailable" then ("不可用", Red)
  else if JS.truthy availStatus && negb (String.eqb availStatus "unknown") then
    (if JS.includes availStatus "H" then availStatus else "可用", Green)
  else ("查询中", Yellow).

(** *** Option selection *)

(** Whether an option belongs to the group a selector is for (source lines
    6701-6723). *)
Definition isInSameGroup (groupName : string) (option : ServerOption) : bool :=
  let optionFamily :=
    JS.orElse match family option with
              | Some f => Some (JS.toLowerCase f)
              | None => None
              end "" in
  let optionLabel := JS.toLowerCase (label option) in
  if String.eqb groupName "CPU/处理器"
     && (JS.includes optionFamily "cpu" || JS.includes optionFamily "processor"
         || JS.includes optionLabel "cpu" || JS.includes optionLabel "processor")
  then true
  else if String.eqb groupName "内存"
          && (JS.includes optionFamily "memory" || JS.includes optionFamily "ram"
              || JS.includes optionLabel "ram" || JS.includes optionLabel "memory")
  then true
  else if String.eqb groupName "存储"
          && (JS.includes optionFamily "storage" || JS.includes optionFamily "disk"
              || JS.includes optionLabel "ssd" || JS.includes optionLabel "hdd")
  then true
  else if String.eqb groupName "带宽/网络"
          && (JS.includes optionFamily "bandwidth" || JS.includes optionFamily "traffic"
              || JS.includes optionLabel "bandwidth" || JS.includes optionLabel "network")
  then true
  else if String.eqb groupName "vRack内网"
          && (JS.includes (JS.toLowerCase (value option)) "vrack"
              || JS.includes optionLabel "vrack" || JS.includes optionLabel "内网")
  then true
  else false.

(** The options of a plan after a click on [optionValue] (source lines
    6682-6736): a selected option is dropped; an option that was not selected
    is added last, after the other options of its group, if a group is named,
    have been dropped. *)
Definition toggledOptions (servers : list ServerPlan) (currentOptions : list string)
    (serverPlanCode optionValue : string) (groupName : option string) : list string :=
  if JSArray.arrayIncludes currentOptions optionValue then
    JSArray.removeFirst optionValue currentOptions
  else
    let cleared :=
      match groupName with
      | Some group =>
          if JS.truthy group then
            let serverOptions :=
              match find (fun s => String.eqb (planCode s) serverPlanCode) servers with
              | Some s => availableOptions s
              | None => []
              end in
            fold_left
              (fun current option =>
                 if isInSameGroup group option && negb (String.eqb (value option) optionValue)
                 then JSArray.removeFirst (value option) current
                 else current)
              serverOptions currentOptions
          else currentOptions
      | None => currentOptions
      end in
    (cleared ++ [optionValue])%list.

(** The state update of [toggleOption] (source lines 6680-6769), with the
    price lookup it schedules, if any: plan, options and datacenter. *)
Definition toggleOption (servers : list ServerPlan)
    (availability : gmap string (JS.obj string))
    (serverPlanCode optionValue : string) (groupName : option string)
    (prev : gmap string (list string))
  : gmap string (list string) * option (string * list string * string) :=
  let currentOptions :=
    toggledOptions servers (JS.orElseArray (prev !! serverPlanCode) [])
      serverPlanCode optionValue groupName in
  let newOptions := <[ serverPlanCode := currentOptions ]> prev in
  let scheduled :=
    match find (fun s => String.eqb (planCode s) serverPlanCode) servers with
    | Some server =>
        let finalOptions :=
          if (0 <? List.length currentOptions)%nat then currentOptions
          else map value (defaultOptions server) in
        match availability !! serverPlanCode with
        | Some availabilityData =>
            match availableDatacenters availabilityData with
            | datacenter :: _ => Some (serverPlanCode, finalOptions, datacenter)
            | [] => None
            end
        | None => None
        end
    | None => None
    end in
  (newOptions, scheduled).

(** [isOptionSelected] (source lines 6773-6775). *)
Definition isOptionSelected (selectedOptions : gmap string (list string))
    (serverPlanCode optionValue : string) : bool :=
  match selectedOptions !! serverPlanCode with
  | Some options => JSArray.arrayIncludes options optionValue
  | None => false
  end.

(** *** Monitor *)

Section Handlers.

Variable isAuthenticated : bool.

(** The message of the success toast of [addToMonitor]. *)
Definition monitorSuccessMessage (server : ServerPlan) (datacenters : list string) : string :=
  let dcText :=
    if (0 <? List.length datacenters)%nat
    then "监控数据中心: " +:+ JS.join ", " datacenters
    else "监控所有数据中心" in
  "已添加 " +:+ planCode server +:+ " 到监控" +:+ LF +:+ dcText +:+ LF
  +:+ "✅ 有货提醒 + 无货提醒".

(** [addToMonitor] (source lines 6861-6902): [subscribed] is the set held by
    [subscribedServersRef], [net] the outcome of the request. *)
Definition addToMonitor (subscribed : list string) (server : ServerPlan)
    (datacenters : list string) (net : outcome unit) : list effect :=
  if negb isAuthenticated then
    [ Toast (mkToast ToastError "请先配置 API 设置") ]
  else
    let apiDatacenters := map convertDisplayDcToApiDc datacenters in
    [ ApiRequest POST "/monitor/subscriptions"
        (Some [ ("planCode", JS.JStr (planCode server));
                ("datacenters", JS.JStrings apiDatacenters);
                ("notifyAvailable", JS.JBool true);
                ("notifyUnavailable", JS.JBool true) ])
        ApiClient.noConfig ]
    ++ match net with
       | Resolved _ =>
           let newSet := newSet (subscribed ++ [planCode server]) in
           [ Toast (mkToast ToastSuccess (monitorSuccessMessage server datacenters));
             SetSubscribedServers newSet;
             LocalStorageSetItem "ovh_subscribed_servers" newSet;
             SetServersCopy ]
       | Rejected error =>
           map Toast (ApiClient.responseInterceptorToasts error)
           ++ [ Toast (mkToast ToastError
                         (JS.orElse
                            match response error with
                            | Some r => dataMessage r
                            | None => None
                            end
                            "添加到监控失败")) ]
       end.

(** [batchAddAllServersToMonitor] (source lines 6905-6918). *)
Definition batchAddAllServersToMonitor (servers : list ServerPlan) : list effect :=
  if negb isAuthenticated then
    [ Toast (mkToast ToastError "请先配置 API 设置") ]
  else if (List.length servers =? 0)%nat then
    [ Toast (mkToast ToastError "服务器列表为空，请先刷新服务器列表") ]
  else [ SetShowBatchMonitorDialog true ].

(** The click on the queue button of a plan (source lines 7811-7818). *)
Definition onQueueClick (selectedOptions : gmap string (list string))
    (selectedDatacenters : gmap string (JS.obj bool)) (server : ServerPlan)
    (net : list (outcome unit)) : list effect :=
  let selectedDcs := getSelectedDatacentersList selectedDatacenters (planCode server) in
  if (0 <? List.length selectedDcs)%nat
  then addToQueue isAuthenticated selectedOptions server selectedDcs net
  else [ Toast (mkToast ToastError "请至少选择一个数据中心") ].

(** The click on the monitor button of a plan (source lines 7798-7801). *)
Definition onMonitorClick (selectedDatacenters : gmap string (JS.obj bool))
    (subscribed : list string) (server : ServerPlan) (net : outcome unit) : list effect :=
  addToMonitor subscribed server
    (getSelectedDatacentersList selectedDatacenters (planCode server)) net.

End Handlers.

(** What the effects of a handler leave in [subscribedServers]. *)
Definition subscribedAfter (subscribed : list string) (es : list effect) : list string :=
  fold_left (fun current e => match e with
                              | SetSubscribedServers planCodes => planCodes
                              | _ => current
                              end) es subscribed.

(** What they leave in the availability of each plan. *)
Definition availabilityAfter (availability : gmap string (JS.obj string))
    (es : list effect) : gmap string (JS.obj string) :=
  fold_left (fun current e => match e with
                              | SetAvailability planCode normalizedData =>
                                  <[ planCode := normalizedData ]> current
                              | _ => current
                              end) es availability.

(** *** The order of the server list *)

Section ServerList.

(** [cpu] and [memory], two string fields of a plan that the search reads. *)
Variable cpu : ServerPlan -> string.
Variable memory : ServerPlan -> string.

(** The comparator of the list (source lines 7070-7077): subscribed plans
    first. *)
Definition compareSubscribed (currentSubscribed : list string) (a b : ServerPlan) : Z :=
  let aSubscribed := JSArray.arrayIncludes currentSubscribed (planCode a) in
  let bSubscribed := JSArray.arrayIncludes currentSubscribed (planCode b) in
  if aSubscribed && negb bSubscribed then (-1)%Z
  else if negb aSubscribed && bSubscribed then 1%Z
  else 0%Z.

Definition searchServers (searchTerm : string) (filtered : list ServerPlan)
  : list ServerPlan :=
  if JS.truthy searchTerm then
    let term := JS.toLowerCase searchTerm in
    List.filter
      (fun server =>
         JS.includes (JS.toLowerCase (planCode server)) term
         || JS.includes (JS.toLowerCase (name server)) term
         || JS.includes (JS.toLowerCase (cpu server)) term
         || JS.includes (JS.toLowerCase (memory server)) term)
      filtered
  else filtered.

(** The effect that fills [filteredServers] (source lines 7039-7083): the
    list written, or [None] when the effect returns early. *)
Definition filterServers (servers : list ServerPlan) (searchTerm : string)
    (currentSubscribed : list string) : option (list ServerPlan) :=
  if (List.length servers =? 0)%nat then None
  else Some (JSArray.sort (compareSubscribed currentSubscribed)
                          (searchServers searchTerm servers)).

End ServerList.

End ServersView.

(** ** The settings page (SettingsPage) *)

Module SettingsPage.

Record FormValues : Type := mkFormValues {
  apiSecretKey : string;
  appKey : string;
  appSecret : string;
  consumerKey : string;
  endpoint : string;
  tgToken : string;
  tgChatId : string;
  iam : string;
  zone : string
}.

Inductive noticeLevel : Type := NoticeSuccess | NoticeWarning | NoticeError.

Inductive effect : Type :=
| Notice (level : noticeLevel) (text : string)
| SetIsSaving (b : bool)
| StoreApiSecretKey (key : string)      (* setApiSecretKey of the API client *)
| Wait (ms : Z)
| SetAPIKeys (values : FormValues)      (* of the API context *)
| CheckAuthentication                   (* of the API context *)
| ReloadAfter (ms : Z).

(** [handleSubmit]: [netKeys] and [netCheck] are the outcomes of
    [setAPIKeys] and [checkAuthentication], two calls of the API context. *)
Definition handleSubmit (formValues : FormValues) (netKeys : outcome unit)
    (netCheck : outcome bool) : list effect :=
  if negb (JS.truthy (apiSecretKey formValues)) then
    [ Notice NoticeError "请设置网站安全密钥" ]
  else
    [ SetIsSaving true; StoreApiSecretKey (apiSecretKey formValues); Wait 100 ]
    ++ (if JS.truthy (appKey formValues) && JS.truthy (appSecret formValues)
           && JS.truthy (consumerKey formValues)
        then
          [ SetAPIKeys formValues ]
          ++ match netKeys with
             | Resolved _ =>
                 [ CheckAuthentication ]
                 ++ match netCheck with
                    | Resolved true =>
                        [ Notice NoticeSuccess "所有设置已保存并验证通过"; ReloadAfter 500 ]
                    | Resolved false =>
                        [ Notice NoticeWarning
                            "OVH API 配置已保存，但验证失败，请检查密钥是否正确";
                          SetIsSaving false ]
                    | Rejected _ =>
                        [ Notice NoticeError "保存设置失败"; SetIsSaving false ]
                    end
             | Rejected _ => [ Notice NoticeError "保存设置失败"; SetIsSaving false ]
             end
        else [ Notice NoticeSuccess "网站安全密钥已保存，页面将刷新"; ReloadAfter 800 ]).

(** What the effects leave in [localStorage]. *)
Definition storageAfter (localStorage : gmap string string) (es : list effect)
  : gmap string string :=
  fold_left (fun storage e => match e with
                              | StoreApiSecretKey key => ApiClient.setApiSecretKey key storage
                              | _ => storage
                              end) es localStorage.

(** The form's own update when the zone changes: [iam] follows the zone. *)
Definition iamForZone (zone : string) : string := "go-ovh-" +:+ JS.toLowerCase zone.

End SettingsPage.

(** ** The subscription registry behind [/monitor/subscriptions/batch-add-all] *)

Module SubscriptionRegistry.

Import ServersPage.

(** Modelled from the spec: the subscription record of the registry, which
    is not among the sources: "{id, skuCode, facilityCodes: set (empty =
    all), notifyOnAvailable: bool, notifyOnUnavailable: bool, createdAt}".
    The identifier and the creation time play no part in the batch
    operation and are left out. *)
Record Subscription : Type := mkSubscription {
  skuCode : string;
  facilityCodes : list string;
  notifyOnAvailable : bool;
  notifyOnUnavailable : bool
}.

(** Modelled from the spec: whether the registry, which is not among the
    sources, holds a subscription for a SKU ("if none exists for that SKU
    yet"). *)
Definition subscribedTo (registry : list Subscription) (sku : string) : bool :=
  existsb (fun s => String.eqb (skuCode s) sku) registry.

(** Modelled from the spec: the state of a batch-add-all of the registry,
    which is not among the sources, while it goes through the known SKUs: the
    registry and the "counts of added/skipped/failed", the failures as the
    list of their errors. *)
Record Progress : Type := mkProgress {
  registry : list Subscription;
  nAdded : Z;
  nSkipped : Z;
  failures : list string
}.

Section BatchAddAll.

(** What makes the creation of a subscription fail is not said in the spec:
    [createError sku] is the error of a creation that fails, [None] for one
    that succeeds. *)
Variable createError : string -> option string.

(** The two flags of the request body. *)
Variable notifyAvailable notifyUnavailable : bool.

(** Modelled from the spec: one SKU of the batch-add-all of the registry,
    which is not among the sources: "create a subscription if none exists for
    that SKU yet (idempotent — skips SKUs already subscribed, reports counts
    of added/skipped/failed)". A creation that fails is recorded and the
    batch goes on. *)
Definition batchStep (p : Progress) (sku : string) : Progress :=
  if subscribedTo (registry p) sku then
    {| registry := registry p; nAdded := nAdded p;
       nSkipped := (nSkipped p + 1)%Z; failures := failures p |}
  else
    match createError sku with
    | None =>
        {| registry := registry p
                       ++ [ mkSubscription sku [] notifyAvailable notifyUnavailable ];
           nAdded := (nAdded p + 1)%Z; nSkipped := nSkipped p; failures := failures p |}
    | Some e =>
        {| registry := registry p; nAdded := nAdded p; nSkipped := nSkipped p;
           failures := failures p ++ [e] |}
    end.

(** Modelled from the spec: the batch-add-all of the registry, which is not
    among the sources: "for every known SKU, create a subscription if none
    exists for that SKU yet"; "batch operations return structured {added,
    skipped, errors} summaries rather than failing atomically". It answers
    the registry it leaves and the summary that the handler reads. *)
Definition batchAddAll (knownSkus : list string) (current : list Subscription)
  : list Subscription * BatchResult :=
  let p := fold_left batchStep knownSkus
             {| registry := current; nAdded := 0; nSkipped := 0; failures := [] |} in
  (registry p,
   {| added := nAdded p; skipped := nSkipped p; errors := Some (failures p) |}).

End BatchAddAll.

End SubscriptionRegistry.

(** ** Vocabulary of the statements *)

(** [sub] occurs in [s]. *)
Definition occurs (sub s : string) : Prop :=
  exists pre post, s = pre +:+ sub +:+ post.

Fixpoint allChars (P : ascii -> bool) (s : string) : bool :=
  match s with
  | EmptyString => true
  | String c s' => P c && allChars P s'
  end.

(** The characters of a printed integer: a digit or the minus sign. *)
Definition isNumeric (c : ascii) : bool :=
  let n := N_of_ascii c in
  ((48 <=? n)%N && (n <=? 57)%N) || (n =? 45)%N.

Definition notNumeric (c : ascii) : bool := negb (isNumeric c).

(** * Properties *)

(** ** Strings *)

Lemma truthy_true (s : string) : JS.truthy s = true <-> s <> "".
Proof.
  unfold JS.truthy. destruct (String.eqb_spec s ""); simpl; split; congruence.
Qed.

Lemma eqb_false_iff (s t : string) : negb (String.eqb s t) = true <-> s <> t.
Proof.
  destruct (String.eqb_spec s t); simpl; split; congruence.
Qed.

(** ** Concrete runs *)

Section ConcreteRuns.

Let ks1 : OVHAvailabilityPage.AvailabilityItem :=
  OVHAvailabilityPage.mkAvailabilityItem "24ska01.ram-64g" "ram-64g" "24ska01" "24ska01"
    "softraid-2x480ssd" None
    [ OVHAvailabilityPage.mkDatacenterInfo "gra" "unavailable";
      OVHAvailabilityPage.mkDatacenterInfo "rbx" "1H-low" ].

Let ks2 : OVHAvailabilityPage.AvailabilityItem :=
  OVHAvailabilityPage.mkAvailabilityItem "24sk20.ram-32g" "ram-32g" "24sk20" "24sk20"
    "softraid-2x450nvme" None
    [ OVHAvailabilityPage.mkDatacenterInfo "bhs" "72H" ].

Let ks3 : OVHAvailabilityPage.AvailabilityItem :=
  OVHAvailabilityPage.mkAvailabilityItem "24sk30.ram-32g" "ram-32g" "24sk30" "24sk30"
    "softraid-2x2000sa" None
    [ OVHAvailabilityPage.mkDatacenterInfo "gra" "unavailable";
      OVHAvailabilityPage.mkDatacenterInfo "sgp" "unknown" ].

Example stats_run :
  OVHAvailabilityPage.stats [ks1; ks2; ks3]
  = OVHAvailabilityPage.mkStats 3 2 1.
Proof. reflexivity. Qed.

Example filter_available_run :
  OVHAvailabilityPage.filterByAvailability "available" [ks1; ks2; ks3] = [ks1; ks2].
Proof. reflexivity. Qed.

Example filter_unavailable_run :
  OVHAvailabilityPage.filterByAvailability "unavailable" [ks1; ks2; ks3] = [ks3].
Proof. reflexivity. Qed.

Example pages_run :
  OVHAvailabilityPage.allPages [ks1; ks2; ks3; ks1; ks2] 2
  = [ [ks1; ks2]; [ks3; ks1]; [ks2] ].
Proof. reflexivity. Qed.

Example page_out_of_range_run :
  OVHAvailabilityPage.paginatedData [ks1; ks2; ks3] 3 2 = [].
Proof. reflexivity. Qed.

Example normalizeData_run :
  ServersPage.normalizeData [("gra", "1H-high"); ("ynm", "72H"); ("rbx", "unavailable")]
  = [("gra", "1H-high"); ("mum", "72H"); ("rbx", "unavailable")].
Proof. reflexivity. Qed.

Example availableDatacenters_run :
  ServersPage.availableDatacenters
    [("gra", "unavailable"); ("mum", "72H"); ("rbx", ""); ("bhs", "comingSoon")]
  = ["mum"; "bhs"].
Proof. reflexivity. Qed.

Example batchMessage_run :
  ServersPage.batchMessage (ServersPage.mkBatchResult 12 3 (Some ["24sk60"]))
  = "✅ 批量添加完成！" +:+ ServersPage.LF
    +:+ "• 已添加: 12 个服务器" +:+ ServersPage.LF
    +:+ "• 跳过: 3 个已订阅服务器" +:+ ServersPage.LF
    +:+ "• 失败: 1 个" +:+ ServersPage.LF
    +:+ ServersPage.LF +:+ "所有服务器将监控全机房，系统会自动发送可用性通知。".
Proof. reflexivity. Qed.

Example checkAvailability_run :
  ServersPage.checkAvailability true ∅
    [ ServersPage.mkServerPlan "24ska01" "KS-A"
        [ ServersPage.mkServerOption "64GB" "ram-64g-noecc-2133" None None ] [] ]
    "24ska01" (Resolved [("ynm", "1H-high"); ("gra", "unavailable")])
  = [ ServersPage.SetIsCheckingAvailability true;
      ServersPage.SetSelectedServer (Some "24ska01");
      ServersPage.Toast (mkToast ToastInfo "正在检测 24ska01 的可用性...");
      ServersPage.ApiRequest GET "/availability/24ska01" None
        (ApiClient.mkConfig [] (Some 120000%Z) ∅);
      ServersPage.SetAvailability "24ska01" [("mum", "1H-high"); ("gra", "unavailable")];
      ServersPage.SetServerPriceLoading "24ska01" "mum";
      ServersPage.ApiRequest POST "/servers/24ska01/price"
        (Some [ ("datacenter", JS.JStr "ynm");
                ("options", JS.JStrings ["ram-64g-noecc-2133"]) ])
        ApiClient.noConfig;
      ServersPage.Toast (mkToast ToastSuccess "已更新 24ska01 可用性信息");
      ServersPage.SetIsCheckingAvailability false;
      ServersPage.SetSelectedServer None ].
Proof. reflexivity. Qed.

Example addToQueue_run :
  ServersPage.toastsOf
    (ServersPage.addToQueue true {[ "24ska01" := ["ram-128g"; "softraid-2x960ssd"] ]}
       (ServersPage.mkServerPlan "24ska01" "KS-A"
          [ ServersPage.mkServerOption "64GB" "ram-64g" None None ]
          [ ServersPage.mkServerOption "128GB Memory" "ram-128g" None None;
            ServersPage.mkServerOption "2x960 SSD" "softraid-2x960ssd" None None ])
       ["gra"; "mum"] [Resolved tt; Resolved tt])
  = [ mkToast ToastSuccess
        ("已将 24ska01 添加到 2 个数据中心的抢购队列" +:+ ServersPage.LF
         +:+ "已选配置: 内存(128GB Memory) 存储(2x960 SSD) ") ].
Proof. reflexivity. Qed.

End ConcreteRuns.

(** ** The shared API client *)

Section ApiClientProperties.

Variable API_URL : string.
Variable API_TIMEOUT : Z.

Lemma getApiSecretKey_stored (localStorage : gmap string string) (key : string) :
  localStorage !! "api_secret_key" = Some key -> key <> "" ->
  ApiClient.getApiSecretKey localStorage = key.
Proof.
  intros Hget Hne. unfold ApiClient.getApiSecretKey, ApiClient.API_SECRET_KEY_STORAGE.
  rewrite Hget. simpl. apply truthy_true in Hne. now rewrite Hne.
Qed.

Lemma getApiSecretKey_none (localStorage : gmap string string) :
  localStorage !! "api_secret_key" = None \/ localStorage !! "api_secret_key" = Some "" ->
  ApiClient.getApiSecretKey localStorage = "".
Proof.
  unfold ApiClient.getApiSecretKey, ApiClient.API_SECRET_KEY_STORAGE.
  intros [-> | ->]; reflexivity.
Qed.

(** C8 (amended). A request sent through the shared client carries
    [X-API-Key] equal to the key stored under [api_secret_key] whenever that
    key is not empty; when the stored key is empty or absent the interceptor
    adds no such header and removes none: the request carries the
    [X-API-Key] of the caller's own configuration, and omits the header when
    the caller supplied none; and [X-Request-Time] is always set, to the
    current time. *)
Theorem request_headers (localStorage : gmap string string) (now : Z)
    (m : httpMethod) (url : string) (data : option JS.json)
    (config : ApiClient.AxiosRequestConfig) :
  let sent := ApiClient.sendRequest API_URL API_TIMEOUT localStorage now m url data config in
  (forall key, localStorage !! "api_secret_key" = Some key -> key <> "" ->
     ApiClient.reqHeaders sent !! "X-API-Key" = Some key)
  /\ (localStorage !! "api_secret_key" = None
      \/ localStorage !! "api_secret_key" = Some "" ->
      ApiClient.reqHeaders sent !! "X-API-Key" = ApiClient.headers config !! "X-API-Key"
      /\ (ApiClient.headers config = ∅ ->
          ApiClient.reqHeaders sent !! "X-API-Key" = None))
  /\ ApiClient.reqHeaders sent !! "X-Request-Time" = Some (JS.Number_toString now).
Proof.
  cbn zeta. unfold ApiClient.sendRequest, ApiClient.requestInterceptor. cbn [ApiClient.reqHeaders].
  split; [| split].
  - intros key Hget Hne.
    rewrite (getApiSecretKey_stored _ _ Hget Hne).
    apply truthy_true in Hne. rewrite Hne.
    rewrite lookup_insert_ne by discriminate.
    apply lookup_insert_eq.
  - intros Hnone. rewrite (getApiSecretKey_none _ Hnone). cbn.
    rewrite lookup_insert_ne by discriminate.
    assert (Hcfg : (ApiClient.headers config ∪ ApiClient.defaultHeaders) !! "X-API-Key"
                   = ApiClient.headers config !! "X-API-Key").
    { rewrite lookup_union. unfold ApiClient.defaultHeaders.
      rewrite lookup_singleton_ne by discriminate.
      now destruct (ApiClient.headers config !! "X-API-Key"). }
    split; [exact Hcfg |].
    intros Hempty. rewrite Hcfg, Hempty. apply lookup_empty.
  - apply lookup_insert_eq.
Qed.

End ApiClientProperties.

(** C8, as stated, fails for a request whose caller supplies the header:
    with no key stored, the request still carries the caller's [X-API-Key]. *)
Lemma caller_key_header_is_sent :
  ApiClient.getApiSecretKey ∅ = ""
  /\ ApiClient.reqHeaders
       (ApiClient.sendRequest "/api" 30000 ∅ 1700000000000
          GET "/servers" None
          (ApiClient.mkConfig [] None {[ "X-API-Key" := "stale" ]})) !! "X-API-Key"
     = Some "stale"
  /\ ApiClient.reqHeaders
       (ApiClient.sendRequest "/api" 30000 ∅ 1700000000000
          GET "/servers" None
          (ApiClient.mkConfig [] None {[ "X-API-Key" := "stale" ]})) !! "X-API-Key"
     <> None.
Proof.
  assert (Hsent : ApiClient.reqHeaders
                    (ApiClient.sendRequest "/api" 30000 ∅ 1700000000000
                       GET "/servers" None
                       (ApiClient.mkConfig [] None {[ "X-API-Key" := "stale" ]}))
                  !! "X-API-Key" = Some "stale").
  { unfold ApiClient.sendRequest, ApiClient.requestInterceptor.
    cbn [ApiClient.reqHeaders ApiClient.headers].
    rewrite (getApiSecretKey_none ∅) by (left; apply lookup_empty). cbn.
    rewrite lookup_insert_ne by discriminate.
    rewrite lookup_union, lookup_singleton_eq. reflexivity. }
  split; [reflexivity |]. split; [exact Hsent |]. rewrite Hsent. discriminate.
Qed.

Lemma request_headers_witness :
  let sent :=
    ApiClient.sendRequest "/api" 30000 {[ "api_secret_key" := "s3cret" ]} 1700000000000
      GET "/availability/24ska01" None ApiClient.noConfig in
  ApiClient.reqHeaders sent !! "X-API-Key" = Some "s3cret"
  /\ ApiClient.reqHeaders
       (ApiClient.sendRequest "/api" 30000 ∅ 1700000000000
          GET "/availability/24ska01" None ApiClient.noConfig) !! "X-API-Key" = None.
Proof.
  split.
  - apply (proj1 (request_headers "/api" 30000 {[ "api_secret_key" := "s3cret" ]}
                    1700000000000 GET "/availability/24ska01" None ApiClient.noConfig)).
    + reflexivity.
    + discriminate.
  - apply (proj1 (proj2 (request_headers "/api" 30000 ∅
                    1700000000000 GET "/availability/24ska01" None ApiClient.noConfig))).
    + left. reflexivity.
    + reflexivity.
Defined.

(** ** Datacenter codes *)

Lemma convert_unfold (d : string) :
  ServersPage.convertDisplayDcToApiDc d
  = if String.eqb (JS.toLowerCase d) "mum" then "ynm" else JS.toLowerCase d.
Proof.
  unfold ServersPage.convertDisplayDcToApiDc, ServersPage.dcMap.
  destruct (String.eqb_spec (JS.toLowerCase d) "mum") as [-> | Hne].
  - reflexivity.
  - rewrite lookup_singleton_ne by congruence. reflexivity.
Qed.

Example convert_MUM : ServersPage.convertDisplayDcToApiDc "MUM" = "ynm".
Proof. reflexivity. Qed.

Example convert_Mum : ServersPage.convertDisplayDcToApiDc "Mum" = "ynm".
Proof. reflexivity. Qed.

Example convert_GRA : ServersPage.convertDisplayDcToApiDc "GRA" = "gra".
Proof. reflexivity. Qed.

(** C9. The conversion sends a code whose lower-case form is [mum] to [ynm]
    and any other code to its lower-case form; the normalization sends [ynm]
    to [mum] and leaves any other code as it is; and normalizing a converted
    display code gives back the lower-case form of the code. The display
    codes are the codes of the tiles and the keys of the normalized
    availability: [ynm] is the provider's code for what the front end shows as
    [mum] (source lines 6459-6463 and 6582-6586) and is not among them, so the
    round trip is stated for every code whose lower-case form is not [ynm];
    the provider's code itself is normalized to [mum]. *)
Theorem dc_code_conversion :
  (forall d, JS.toLowerCase d = "mum" -> ServersPage.convertDisplayDcToApiDc d = "ynm")
  /\ (forall d, JS.toLowerCase d <> "mum" ->
        ServersPage.convertDisplayDcToApiDc d = JS.toLowerCase d)
  /\ ServersPage.normalizeDc "ynm" = "mum"
  /\ (forall dc, dc <> "ynm" -> ServersPage.normalizeDc dc = dc)
  /\ (forall d, JS.toLowerCase d <> "ynm" ->
        ServersPage.normalizeDc (ServersPage.convertDisplayDcToApiDc d) = JS.toLowerCase d)
  /\ (forall d, JS.toLowerCase d = "ynm" ->
        ServersPage.normalizeDc (ServersPage.convertDisplayDcToApiDc d) = "mum").
Proof.
  repeat split.
  - intros d Hd. rewrite convert_unfold, Hd. reflexivity.
  - intros d Hd. rewrite convert_unfold.
    destruct (String.eqb_spec (JS.toLowerCase d) "mum"); congruence.
  - intros dc Hdc. unfold ServersPage.normalizeDc.
    destruct (String.eqb_spec dc "ynm"); congruence.
  - intros d Hd. rewrite convert_unfold.
    destruct (String.eqb_spec (JS.toLowerCase d) "mum") as [Hm | Hm].
    + rewrite Hm. reflexivity.
    + unfold ServersPage.normalizeDc.
      destruct (String.eqb_spec (JS.toLowerCase d) "ynm"); congruence.
  - intros d Hd. rewrite convert_unfold, Hd. reflexivity.
Qed.

Lemma dc_code_conversion_witness :
  ServersPage.convertDisplayDcToApiDc "MuM" = "ynm"
  /\ ServersPage.normalizeDc (ServersPage.convertDisplayDcToApiDc "RBX") = "rbx".
Proof.
  split.
  - apply (proj1 dc_code_conversion "MuM"). reflexivity.
  - apply (proj1 (proj2 (proj2 (proj2 (proj2 dc_code_conversion)))) "RBX").
    vm_compute. discriminate.
Defined.

(** ** Availability classes *)

Lemma dcIsAvailable_iff (dc : OVHAvailabilityPage.DatacenterInfo) :
  OVHAvailabilityPage.dcIsAvailable dc = true
  <-> OVHAvailabilityPage.availability dc <> "unavailable"
      /\ OVHAvailabilityPage.availability dc <> "unknown".
Proof.
  unfold OVHAvailabilityPage.dcIsAvailable.
  rewrite andb_true_iff, !eqb_false_iff. reflexivity.
Qed.

Lemma statusIsAvailable_iff (status : string) :
  ServersPage.statusIsAvailable status = true
  <-> status <> "" /\ status <> "unavailable" /\ status <> "unknown".
Proof.
  unfold ServersPage.statusIsAvailable.
  rewrite !andb_true_iff, !eqb_false_iff, truthy_true. tauto.
Qed.

Lemma filter_length_le {A : Type} (f g : A -> bool) (l : list A) :
  (forall x, f x = true -> g x = true) ->
  List.length (List.filter f l) <= List.length (List.filter g l).
Proof.
  intros Himp. induction l as [| x l IH]; simpl; [lia |].
  destruct (f x) eqn:Hf.
  - rewrite (Himp x Hf). simpl. lia.
  - destruct (g x); simpl; lia.
Qed.

Lemma dcIsOneHour_available (dc : OVHAvailabilityPage.DatacenterInfo) :
  OVHAvailabilityPage.dcIsOneHour dc = true -> OVHAvailabilityPage.dcIsAvailable dc = true.
Proof.
  unfold OVHAvailabilityPage.dcIsOneHour. rewrite orb_true_iff, dcIsAvailable_iff.
  intros [H | H]; apply String.eqb_eq in H; rewrite H; split; discriminate.
Qed.

(** C1, as stated, fails in the per-plan check at the empty status: it is
    neither [unavailable] nor [unknown], and the check does not count its
    datacenter as available. *)
Lemma empty_status_not_available :
  "" <> "unavailable" /\ "" <> "unknown"
  /\ ServersPage.statusIsAvailable "" = false
  /\ ServersPage.availableDatacenters (ServersPage.normalizeData [("gra", "")]) = [].
Proof. repeat split; discriminate. Qed.

(** C1 (amended). On the availability page a datacenter entry is classified
    available exactly when its status is neither [unavailable] nor
    [unknown]: the [available] filter keeps the items with such an entry and
    the [available] statistic counts them. In the per-plan check a datacenter
    is listed as available exactly when its status is not empty and is
    neither [unavailable] nor [unknown]. *)
Theorem status_classification :
  (forall dc, OVHAvailabilityPage.dcIsAvailable dc = true
     <-> OVHAvailabilityPage.availability dc <> "unavailable"
         /\ OVHAvailabilityPage.availability dc <> "unknown")
  /\ (forall items item,
        In item (OVHAvailabilityPage.filterByAvailability "available" items)
        <-> In item items
            /\ exists dc, In dc (OVHAvailabilityPage.datacenters item)
                 /\ OVHAvailabilityPage.availability dc <> "unavailable"
                 /\ OVHAvailabilityPage.availability dc <> "unknown")
  /\ (forall items,
        OVHAvailabilityPage.available (OVHAvailabilityPage.stats items)
        = List.length (OVHAvailabilityPage.filterByAvailability "available" items))
  /\ (forall status, ServersPage.statusIsAvailable status = true
        <-> status <> "" /\ status <> "unavailable" /\ status <> "unknown")
  /\ (forall normalizedData dc,
        In dc (ServersPage.availableDatacenters normalizedData)
        <-> exists status, In (dc, status) normalizedData
              /\ status <> "" /\ status <> "unavailable" /\ status <> "unknown").
Proof.
  split; [exact dcIsAvailable_iff |].
  split; [| split; [reflexivity | split; [exact statusIsAvailable_iff |]]].
  - intros items item. cbn.
    rewrite List.filter_In, existsb_exists.
    split.
    + intros [Hin [dc [Hdc Hav]]]. split; [exact Hin |].
      exists dc. split; [exact Hdc |]. now apply dcIsAvailable_iff.
    + intros [Hin [dc [Hdc Hav]]]. split; [exact Hin |].
      exists dc. split; [exact Hdc |]. now apply dcIsAvailable_iff.
  - intros normalizedData dc. unfold ServersPage.availableDatacenters.
    rewrite in_map_iff. split.
    + intros [[dc' status] [Heq Hin]]. simpl in Heq. subst dc'.
      apply List.filter_In in Hin. destruct Hin as [Hin Hav]. simpl in Hav.
      exists status. split; [exact Hin |]. now apply statusIsAvailable_iff.
    + intros [status [Hin Hav]]. exists (dc, status). split; [reflexivity |].
      apply List.filter_In. split; [exact Hin |]. simpl. now apply statusIsAvailable_iff.
Qed.

(** C5. Whatever the list of items, the one-hour statistic is at most the
    available statistic: an item with a [1H-low] or [1H-high] datacenter has a
    datacenter that is neither [unavailable] nor [unknown]. *)
Theorem oneHour_le_available (filteredData : list OVHAvailabilityPage.AvailabilityItem) :
  OVHAvailabilityPage.oneHour (OVHAvailabilityPage.stats filteredData)
  <= OVHAvailabilityPage.available (OVHAvailabilityPage.stats filteredData).
Proof.
  cbn. apply filter_length_le. intros item.
  rewrite !existsb_exists. intros [dc [Hin H1h]].
  exists dc. split; [exact Hin |]. now apply dcIsOneHour_available.
Qed.

(** ** The snapshot fetch *)

Section Fetch.

Import OVHAvailabilityPage.

Lemma visibleStates_last (st : State) (es : list effect) :
  In (run st es) (visibleStates st es).
Proof.
  revert st. induction es as [| e es IH]; intros st; simpl.
  - now left.
  - right. apply IH.
Qed.

(** A sequence of effects that never writes the snapshot leaves it as it was
    in every state it goes through. *)
Lemma no_write_keeps_snapshot (es : list effect) :
  snapshotWrites es = [] ->
  forall st st', In st' (visibleStates st es) -> availabilities st' = availabilities st.
Proof.
  induction es as [| e es IH]; intros Hw st st' Hin; simpl in Hin.
  - destruct Hin as [<- | []]. reflexivity.
  - destruct Hin as [<- | Hin]; [reflexivity |].
    destruct e as [b | data | t | url ms]; simpl in Hw; try discriminate;
      rewrite (IH Hw _ _ Hin); reflexivity.
Qed.

(** C2, as stated, fails for an error thrown after the response has come:
    on a [null] body the handler hands the body to [setAvailabilities], the
    read of its [length] throws, and the [catch] reports the error with the
    held list already replaced. *)
Lemma null_body_overwrites_snapshot :
  toastsOf (fetchAvailabilities "Cannot read properties of null (reading 'length')"
              "https://eu.api.ovh.com" (Resolved Null))
  = [ mkToast ToastInfo "正在从 OVH 公开 API 获取数据...";
      mkToast ToastError
        ("获取数据失败: " +:+ "Cannot read properties of null (reading 'length')") ]
  /\ availabilities
       (run (mkState (Items [mkAvailabilityItem "24ska01.ram-64g" "ram-64g" "24ska01"
                               "24ska01" "softraid-2x480ssd" None
                               [mkDatacenterInfo "gra" "1H-high"]]) false)
            (fetchAvailabilities "Cannot read properties of null (reading 'length')"
               "https://eu.api.ovh.com" (Resolved Null)))
     = Null
  /\ availabilities
       (run (mkState (Items [mkAvailabilityItem "24ska01.ram-64g" "ram-64g" "24ska01"
                               "24ska01" "softraid-2x480ssd" None
                               [mkDatacenterInfo "gra" "1H-high"]]) false)
            (fetchAvailabilities "Cannot read properties of null (reading 'length')"
               "https://eu.api.ovh.com" (Resolved Null)))
     <> Items [mkAvailabilityItem "24ska01.ram-64g" "ram-64g" "24ska01"
                 "24ska01" "softraid-2x480ssd" None
                 [mkDatacenterInfo "gra" "1H-high"]].
Proof.
  split; [reflexivity |]. split; [reflexivity |]. cbn. discriminate.
Qed.

(** C2 (amended). When the request of [fetchAvailabilities] is rejected,
    whatever the error, the handler never writes the snapshot: every state a
    reader can see during and after the call holds the availabilities held
    before it; and what the handler does after the request is to raise one
    error toast and to clear the loading flag. *)
Theorem failed_fetch_keeps_snapshot (nullLengthMessage : string) (st : State)
    (apiBaseUrl : string) (error : AxiosError) :
  let es := fetchAvailabilities nullLengthMessage apiBaseUrl (Rejected error) in
  snapshotWrites es = []
  /\ (forall st', In st' (visibleStates st es) -> availabilities st' = availabilities st)
  /\ availabilities (run st es) = availabilities st
  /\ (apiBaseUrl <> "" ->
      exists before url,
        es = (before ++ AxiosGet url 30000
                :: [ Toast (mkToast ToastError (fetchErrorMessage error));
                     SetIsLoading false ])%list
        /\ snapshotWrites before = []).
Proof.
  cbn zeta.
  assert (Hw : snapshotWrites
                  (fetchAvailabilities nullLengthMessage apiBaseUrl (Rejected error)) = []).
  { unfold fetchAvailabilities. destruct (JS.truthy apiBaseUrl); reflexivity. }
  split; [exact Hw |].
  split; [intros st'; apply no_write_keeps_snapshot; exact Hw |].
  split; [apply (no_write_keeps_snapshot _ Hw st); apply visibleStates_last |].
  intros Hne. apply truthy_true in Hne.
  unfold fetchAvailabilities. rewrite Hne. cbn [negb].
  eexists [_; _], _. split; reflexivity.
Qed.

Lemma failed_fetch_keeps_snapshot_witness :
  let item := mkAvailabilityItem "24ska01.ram-64g" "ram-64g" "24ska01" "24ska01"
                "softraid-2x480ssd" None [mkDatacenterInfo "gra" "1H-high"] in
  let st := mkState (Items [item]) false in
  let error := mkAxiosError (Some "ECONNABORTED") (Some "timeout of 30000ms exceeded") None true in
  let es := fetchAvailabilities "Cannot read properties of null (reading 'length')"
              "https://eu.api.ovh.com" (Rejected error) in
  availabilities (run st es) = Items [item]
  /\ exists before url,
       es = (before ++ AxiosGet url 30000
               :: [ Toast (mkToast ToastError "请求超时，请重试"); SetIsLoading false ])%list
       /\ snapshotWrites before = [].
Proof.
  cbn zeta.
  pose proof (failed_fetch_keeps_snapshot
       "Cannot read properties of null (reading 'length')"
       (mkState (Items [mkAvailabilityItem "24ska01.ram-64g" "ram-64g" "24ska01" "24ska01"
                          "softraid-2x480ssd" None [mkDatacenterInfo "gra" "1H-high"]]) false)
       "https://eu.api.ovh.com"
       (mkAxiosError (Some "ECONNABORTED") (Some "timeout of 30000ms exceeded") None true))
    as [_ [_ [Hkept Hafter]]].
  split; [exact Hkept |].
  apply Hafter. discriminate.
Defined.

(** C3. When the request succeeds, the handler writes the snapshot exactly
    once and the value written is the response data as a whole: afterwards the
    held list is the response data, and every state a reader can see holds
    either the previous list or the response data, never a mixture. *)
Theorem successful_fetch_replaces_snapshot (nullLengthMessage : string) (st : State)
    (apiBaseUrl : string) (data : list AvailabilityItem) :
  apiBaseUrl <> "" ->
  let es := fetchAvailabilities nullLengthMessage apiBaseUrl (Resolved (Items data)) in
  snapshotWrites es = [Items data]
  /\ availabilities (run st es) = Items data
  /\ (forall st', In st' (visibleStates st es) ->
        availabilities st' = availabilities st \/ availabilities st' = Items data).
Proof.
  intros Hne. apply truthy_true in Hne. cbn zeta.
  unfold fetchAvailabilities. rewrite Hne. cbn [negb].
  split; [reflexivity |]. split; [reflexivity |].
  intros st' Hin. cbn in Hin.
  destruct Hin as [<- | [<- | [<- | [<- | [<- | [<- | [<- | []]]]]]]]; cbn; tauto.
Qed.

Lemma successful_fetch_replaces_snapshot_witness :
  let old := mkAvailabilityItem "24ska01.ram-64g" "ram-64g" "24ska01" "24ska01"
               "softraid-2x480ssd" None [mkDatacenterInfo "gra" "unavailable"] in
  let new := mkAvailabilityItem "24sk20.ram-32g" "ram-32g" "24sk20" "24sk20"
               "softraid-2x450nvme" None [mkDatacenterInfo "rbx" "72H"] in
  availabilities (run (mkState (Items [old]) false)
                    (fetchAvailabilities "Cannot read properties of null (reading 'length')"
                       "https://eu.api.ovh.com" (Resolved (Items [new]))))
  = Items [new].
Proof.
  cbn zeta.
  refine (proj1 (proj2
    (successful_fetch_replaces_snapshot
       "Cannot read properties of null (reading 'length')"
       (mkState (Items [mkAvailabilityItem "24ska01.ram-64g" "ram-64g" "24ska01" "24ska01"
                          "softraid-2x480ssd" None [mkDatacenterInfo "gra" "unavailable"]])
                false)
       "https://eu.api.ovh.com"
       [mkAvailabilityItem "24sk20.ram-32g" "ram-32g" "24sk20" "24sk20"
          "softraid-2x450nvme" None [mkDatacenterInfo "rbx" "72H"]] _))).
  discriminate.
Defined.

End Fetch.

(** ** Pagination *)

Section Pagination.

Import OVHAvailabilityPage.
Local Open Scope list_scope.

(** A slice that starts at a multiple of a positive page size and spans one
    page is a [take] after a [drop]. *)
Lemma slice_page {A : Type} (l : list A) (i : nat) (n : Z) :
  (0 < n)%Z ->
  JS.slice l (Z.of_nat i * n) (Z.of_nat i * n + n)
  = take (Z.to_nat n) (drop (i * Z.to_nat n) l).
Proof.
  intros Hn. unfold JS.slice.
  assert (Hstart : (Z.of_nat i * n <? 0)%Z = false) by (apply Z.ltb_ge; nia).
  assert (Hstop : (Z.of_nat i * n + n <? 0)%Z = false) by (apply Z.ltb_ge; nia).
  rewrite Hstart, Hstop.
  assert (Hmul : Z.of_nat (i * Z.to_nat n) = (Z.of_nat i * n)%Z) by nia.
  destruct (Z.le_gt_cases (Z.of_nat i * n) (Z.of_nat (List.length l))) as [Hle | Hgt].
  - rewrite (Z.min_l _ _ Hle).
    replace (Z.to_nat (Z.of_nat i * n)) with (i * Z.to_nat n) by lia.
    set (rest := drop (i * Z.to_nat n) l).
    assert (Hrest : List.length rest = List.length l - i * Z.to_nat n)
      by apply length_drop.
    destruct (Z.le_gt_cases (Z.of_nat i * n + n) (Z.of_nat (List.length l))) as [Hle2 | Hgt2].
    + rewrite (Z.min_l _ _ Hle2). f_equal. lia.
    + rewrite Z.min_r by lia.
      rewrite (take_ge rest (Z.to_nat n)) by lia.
      apply take_ge. lia.
  - rewrite !Z.min_r by lia.
    rewrite Z.sub_diag. simpl.
    rewrite (drop_ge l (i * Z.to_nat n)) by lia.
    now destruct (Z.to_nat n).
Qed.

Lemma paginatedData_page (l : list AvailabilityItem) (p n : Z) :
  (0 < n)%Z -> (1 <= p)%Z ->
  paginatedData l p n = take (Z.to_nat n) (drop (Z.to_nat (p - 1) * Z.to_nat n) l).
Proof.
  intros Hn Hp. unfold paginatedData. cbn zeta.
  replace (p - 1)%Z with (Z.of_nat (Z.to_nat (p - 1))) at 1 2 by lia.
  now apply slice_page.
Qed.

(** The first [t] pages, concatenated, are the first [t * n] items. *)
Lemma concat_pages {A : Type} (l : list A) (n t : nat) :
  concat (map (fun i => take n (drop (i * n) l)) (seq 0 t)) = take (t * n) l.
Proof.
  induction t as [| t IH].
  - reflexivity.
  - rewrite seq_S, map_app, concat_app, IH. simpl.
    rewrite app_nil_r, take_take_drop. f_equal. lia.
Qed.

Lemma totalPages_bounds (len n : Z) :
  (0 <= len)%Z -> (0 < n)%Z ->
  (0 <= JS.ceilDiv len n /\ (JS.ceilDiv len n - 1) * n < len <= JS.ceilDiv len n * n)%Z.
Proof.
  intros Hlen Hn. unfold JS.ceilDiv.
  pose proof (Z.div_mod (len + n - 1) n ltac:(lia)) as Hdm.
  pose proof (Z.mod_pos_bound (len + n - 1) n Hn) as Hmod.
  assert (0 <= (len + n - 1) / n)%Z by (apply Z.div_pos; lia).
  nia.
Qed.

(** C10. For a positive page size the pages [1 .. totalPages] partition the
    filtered list: concatenated in page order they give back the list; every
    page before the last holds exactly [itemsPerPage] items (and the last
    between one and [itemsPerPage]); the item at offset [j] of page [p] is the
    item at position [(p - 1) * itemsPerPage + j] of the list, so that no
    position of the list shows on two pages, and no item does when the list
    has no repeated item. *)
Theorem pages_partition (filteredData : list AvailabilityItem) (itemsPerPage : Z) :
  (0 < itemsPerPage)%Z ->
  let page p := paginatedData filteredData p itemsPerPage in
  let last := totalPages filteredData itemsPerPage in
  concat (allPages filteredData itemsPerPage) = filteredData
  /\ (forall p, (1 <= p < last)%Z -> Z.of_nat (List.length (page p)) = itemsPerPage)
  /\ (forall p, (1 <= p <= last)%Z ->
        (1 <= Z.of_nat (List.length (page p)) <= itemsPerPage)%Z)
  /\ (forall p j x, (1 <= p)%Z -> page p !! j = Some x ->
        (Z.of_nat j < itemsPerPage)%Z
        /\ filteredData !! Z.to_nat ((p - 1) * itemsPerPage + Z.of_nat j) = Some x)
  /\ (NoDup filteredData ->
      forall p q x, (1 <= p)%Z -> (1 <= q)%Z -> In x (page p) -> In x (page q) -> p = q).
Proof.
  intros Hn. cbn zeta.
  pose proof (totalPages_bounds (Z.of_nat (List.length filteredData)) itemsPerPage
                ltac:(lia) Hn) as [Hlast0 [Hlast1 Hlast2]].
  fold (totalPages filteredData itemsPerPage) in Hlast0, Hlast1, Hlast2.
  set (last := totalPages filteredData itemsPerPage) in *.
  set (n := Z.to_nat itemsPerPage).
  assert (Hpos : forall p j x, (1 <= p)%Z ->
            paginatedData filteredData p itemsPerPage !! j = Some x ->
            j < n /\ filteredData !! (Z.to_nat (p - 1) * n + j) = Some x).
  { intros p j x Hp Hlook. rewrite paginatedData_page in Hlook by assumption.
    fold n in Hlook.
    destruct (Nat.lt_ge_cases j n) as [Hj | Hj].
    - rewrite lookup_take_lt, lookup_drop in Hlook by exact Hj. now split.
    - rewrite lookup_take_ge in Hlook by exact Hj. discriminate. }
  split; [| split; [| split; [| split]]].
  - unfold allPages. fold last.
    rewrite (map_ext _ (fun i => take n (drop (i * n) filteredData))).
    + rewrite concat_pages. apply take_ge. subst n. nia.
    + intros i. rewrite paginatedData_page by lia. subst n. do 3 f_equal. lia.
  - intros p Hp. rewrite paginatedData_page by lia. fold n.
    rewrite length_take, length_drop. subst n. nia.
  - intros p Hp. rewrite paginatedData_page by lia. fold n.
    rewrite length_take, length_drop. subst n. nia.
  - intros p j x Hp Hlook. destruct (Hpos p j x Hp Hlook) as [Hj Hx].
    split; [subst n; lia |].
    rewrite <- Hx. f_equal. subst n. nia.
  - intros Hnodup p q x Hp Hq Hinp Hinq.
    apply list_elem_of_In, list_elem_of_lookup in Hinp, Hinq.
    destruct Hinp as [j Hj], Hinq as [k Hk].
    destruct (Hpos p j x Hp Hj) as [Hjn Hxj].
    destruct (Hpos q k x Hq Hk) as [Hkn Hxk].
    pose proof (NoDup_lookup _ _ _ _ Hnodup Hxj Hxk) as Heq.
    assert (Z.to_nat (p - 1) = Z.to_nat (q - 1)) by nia.
    lia.
Qed.

Lemma pages_partition_witness :
  let item c := mkAvailabilityItem c "ram-32g" c c "softraid-2x2000sa" None
                  [mkDatacenterInfo "gra" "unavailable"] in
  concat (allPages [item "a"; item "b"; item "c"; item "d"; item "e"] 2)
  = [item "a"; item "b"; item "c"; item "d"; item "e"].
Proof.
  cbn zeta.
  refine (proj1 (pages_partition _ 2 _)).
  reflexivity.
Defined.

End Pagination.

(** ** Requests issued by the handlers *)

Section Requests.

Import ServersPage.
Local Open Scope list_scope.

Lemma requestsOf_app (es1 es2 : list effect) :
  requestsOf (es1 ++ es2) = requestsOf es1 ++ requestsOf es2.
Proof. apply flat_map_app. Qed.

Lemma requestsOf_toasts (ts : list toast) : requestsOf (map Toast ts) = [].
Proof. induction ts as [| t ts IH]; [reflexivity | exact IH]. Qed.

Lemma requestsOf_rejectionToasts {A : Type} (net : list (outcome A)) :
  requestsOf (flat_map rejectionToasts net) = [].
Proof.
  induction net as [| o net IH]; [reflexivity |].
  simpl. rewrite requestsOf_app, IH.
  destruct o; simpl; [reflexivity |].
  now rewrite requestsOf_toasts.
Qed.

Lemma requestsOf_queueRequests (selectedOptions : gmap string (list string))
    (server : ServerPlan) (datacenters : list string) :
  requestsOf (map (queueRequest selectedOptions server) datacenters)
  = map (fun datacenter =>
           (POST, "/queue",
            Some [ ("planCode", JS.JStr (planCode server));
                   ("datacenter", JS.JStr (convertDisplayDcToApiDc datacenter));
                   ("options", JS.JStrings (userSelectedOptions selectedOptions server)) ],
            ApiClient.noConfig))
        datacenters.
Proof.
  induction datacenters as [| dc dcs IH]; [reflexivity |].
  simpl. now rewrite IH.
Qed.

Lemma requestsOf_afterPromiseAll (onFulfilled : list effect) (net : list (outcome unit)) :
  requestsOf onFulfilled = [] ->
  requestsOf (afterPromiseAll onFulfilled net) = [].
Proof.
  intros Hnone. induction net as [| [u | error] later IH]; simpl.
  - exact Hnone.
  - exact IH.
  - rewrite requestsOf_app, requestsOf_toasts. simpl.
    apply requestsOf_rejectionToasts.
Qed.

(** The requests of an enqueue that passes the two guards are the requests
    built for the datacenters, whatever the outcomes. *)
Lemma addToQueue_requestsOf (selectedOptions : gmap string (list string))
    (server : ServerPlan) (datacenters : list string) (net : list (outcome unit)) :
  requestsOf (addToQueue true selectedOptions server datacenters net)
  = requestsOf (map (queueRequest selectedOptions server) datacenters).
Proof.
  unfold addToQueue. cbn [negb].
  destruct datacenters as [| dc dcs]; [reflexivity |]. cbn [List.length Nat.eqb].
  rewrite requestsOf_app, requestsOf_afterPromiseAll by reflexivity.
  now rewrite app_nil_r.
Qed.

(** C7. An authenticated availability check issues exactly one GET request,
    to [/availability/{planCode}], whatever the response; its query carries
    [options], the selected option codes joined by commas, exactly when an
    option is selected for the plan, and nothing otherwise. An
    unauthenticated check issues no request at all. *)
Theorem checkAvailability_request (selectedOptions : gmap string (list string))
    (servers : list ServerPlan) (planCode : string) (net : outcome (JS.obj string)) :
  let selectedOpts := JS.orElseArray (selectedOptions !! planCode) [] in
  (exists config,
      List.filter isGet
        (requestsOf (checkAvailability true selectedOptions servers planCode net))
      = [ (GET, "/availability/" +:+ planCode, None, config) ]
      /\ (selectedOpts <> [] ->
          ApiClient.params config = [ ("options", JS.join "," selectedOpts) ])
      /\ (selectedOpts = [] -> ApiClient.params config = []))
  /\ requestsOf (checkAvailability false selectedOptions servers planCode net) = [].
Proof.
  cbn zeta. split; [| reflexivity].
  eexists. split.
  - unfold checkAvailability. cbn [negb].
    destruct net as [data | error].
    + destruct (availableDatacenters (normalizeData data)) as [| dc dcs]; reflexivity.
    + rewrite !requestsOf_app, requestsOf_toasts. reflexivity.
  - cbn [ApiClient.params].
    destruct (JS.orElseArray (selectedOptions !! planCode) []) as [| o opts];
      split; intros H; try reflexivity; congruence.
Qed.

Lemma checkAvailability_request_witness :
  exists config,
    List.filter isGet
      (requestsOf (checkAvailability true {[ "24ska01" := ["ram-64g-noecc-2133"; "softraid-2x480ssd"] ]}
                     [] "24ska01" (Resolved [("gra", "1H-high"); ("ynm", "unavailable")])))
    = [ (GET, "/availability/24ska01", None, config) ]
    /\ ApiClient.params config = [ ("options", "ram-64g-noecc-2133,softraid-2x480ssd") ].
Proof.
  destruct (proj1 (checkAvailability_request
                     {[ "24ska01" := ["ram-64g-noecc-2133"; "softraid-2x480ssd"] ]}
                     [] "24ska01" (Resolved [("gra", "1H-high"); ("ynm", "unavailable")])))
    as [config [Hreq [Hsome _]]].
  exists config. split; [exact Hreq |].
  apply Hsome. discriminate.
Defined.

Lemma userSelectedOptions_selected (selectedOptions : gmap string (list string))
    (server : ServerPlan) (opts : list string) :
  selectedOptions !! planCode server = Some opts -> opts <> [] ->
  userSelectedOptions selectedOptions server = opts.
Proof.
  intros Hget Hne. unfold userSelectedOptions. rewrite Hget.
  destruct opts; congruence.
Qed.

Lemma userSelectedOptions_default (selectedOptions : gmap string (list string))
    (server : ServerPlan) :
  selectedOptions !! planCode server = None \/ selectedOptions !! planCode server = Some [] ->
  userSelectedOptions selectedOptions server = map value (defaultOptions server).
Proof.
  unfold userSelectedOptions. intros [-> | ->]; reflexivity.
Qed.

(** C4. An authenticated enqueue with a non-empty list of [k] datacenters
    issues exactly [k] requests, all [POST /queue], one per datacenter and in
    their order, each with the plan code, the datacenter converted to the
    provider API code, and the options: the operator's selection when it is
    not empty, the plan's defaults otherwise. With no datacenter, or
    unauthenticated, the handler issues no request and raises an error toast. *)
Theorem addToQueue_requests (selectedOptions : gmap string (list string))
    (server : ServerPlan) (datacenters : list string) (net : list (outcome unit)) :
  let options := userSelectedOptions selectedOptions server in
  (datacenters <> [] ->
   requestsOf (addToQueue true selectedOptions server datacenters net)
   = map (fun datacenter =>
            (POST, "/queue",
             Some [ ("planCode", JS.JStr (planCode server));
                    ("datacenter", JS.JStr (convertDisplayDcToApiDc datacenter));
                    ("options", JS.JStrings options) ],
             ApiClient.noConfig))
         datacenters
   /\ List.length (requestsOf (addToQueue true selectedOptions server datacenters net))
      = List.length datacenters)
  /\ (forall opts, selectedOptions !! planCode server = Some opts -> opts <> [] ->
        options = opts)
  /\ (selectedOptions !! planCode server = None
      \/ selectedOptions !! planCode server = Some [] ->
      options = map value (defaultOptions server))
  /\ addToQueue true selectedOptions server [] net
     = [ Toast (mkToast ToastError "请至少选择一个数据中心") ]
  /\ addToQueue false selectedOptions server datacenters net
     = [ Toast (mkToast ToastError "请先配置 API 设置") ].
Proof.
  cbn zeta. split; [| split; [| split; [| split; reflexivity]]].
  - intros Hne.
    rewrite addToQueue_requestsOf, requestsOf_queueRequests. split; [reflexivity |].
    now rewrite length_map.
  - apply userSelectedOptions_selected.
  - apply userSelectedOptions_default.
Qed.

Lemma addToQueue_requests_witness :
  let server := mkServerPlan "24ska01" "KS-A"
                  [mkServerOption "64GB" "ram-64g-noecc-2133" None None] [] in
  requestsOf (addToQueue true ∅ server ["gra"; "MUM"] [Resolved tt; Resolved tt])
  = [ (POST, "/queue",
       Some [ ("planCode", JS.JStr "24ska01"); ("datacenter", JS.JStr "gra");
              ("options", JS.JStrings ["ram-64g-noecc-2133"]) ],
       ApiClient.noConfig);
      (POST, "/queue",
       Some [ ("planCode", JS.JStr "24ska01"); ("datacenter", JS.JStr "ynm");
              ("options", JS.JStrings ["ram-64g-noecc-2133"]) ],
       ApiClient.noConfig) ].
Proof.
  cbn zeta.
  refine (proj1 (proj1 (addToQueue_requests ∅
            (mkServerPlan "24ska01" "KS-A"
               [mkServerOption "64GB" "ram-64g-noecc-2133" None None] [])
            ["gra"; "MUM"] [Resolved tt; Resolved tt]) _)).
  discriminate.
Defined.

(** The handlers hand no header of their own to the client: what their
    requests carry is what the client's defaults and interceptor set. *)
Lemma checkAvailability_no_headers (isAuthenticated : bool)
    (selectedOptions : gmap string (list string)) (servers : list ServerPlan)
    (planCode : string) (net : outcome (JS.obj string)) m url data config :
  In (m, url, data, config)
     (requestsOf (checkAvailability isAuthenticated selectedOptions servers planCode net)) ->
  ApiClient.headers config = ∅.
Proof.
  unfold checkAvailability. destruct isAuthenticated; cbn [negb]; [| intros []].
  rewrite !requestsOf_app. destruct net as [resp | error].
  - destruct (availableDatacenters (normalizeData resp)) as [| dc dcs]; cbn;
      intros Hin; repeat (destruct Hin as [Heq | Hin]; [now inversion Heq |]);
      destruct Hin.
  - rewrite !requestsOf_app, requestsOf_toasts. cbn.
    intros Hin; repeat (destruct Hin as [Heq | Hin]; [now inversion Heq |]);
      destruct Hin.
Qed.

Lemma addToQueue_no_headers (isAuthenticated : bool)
    (selectedOptions : gmap string (list string)) (server : ServerPlan)
    (datacenters : list string) (net : list (outcome unit)) m url data config :
  In (m, url, data, config)
     (requestsOf (addToQueue isAuthenticated selectedOptions server datacenters net)) ->
  ApiClient.headers config = ∅.
Proof.
  destruct isAuthenticated; [| intros []].
  rewrite addToQueue_requestsOf, requestsOf_queueRequests, in_map_iff.
  intros [dc' [Heq _]]. now inversion Heq.
Qed.

End Requests.

(** ** Occurrences in a message *)

Section Occurrences.

Lemma append_cons (x : ascii) (a b : string) : String x a +:+ b = String x (a +:+ b).
Proof. reflexivity. Qed.

Lemma append_empty_l (a : string) : "" +:+ a = a.
Proof. reflexivity. Qed.

Lemma append_assoc (a b c : string) : (a +:+ b) +:+ c = a +:+ (b +:+ c).
Proof.
  induction a as [| x a IH]; [reflexivity |].
  rewrite !append_cons. f_equal. exact IH.
Qed.

Lemma append_empty_r (a : string) : a +:+ "" = a.
Proof.
  induction a as [| x a IH]; [reflexivity |].
  rewrite append_cons. f_equal. exact IH.
Qed.

Lemma prefix_append (m post : string) : String.prefix m (m +:+ post) = true.
Proof.
  induction m as [| c m IH].
  - rewrite append_empty_l. now destruct post.
  - rewrite append_cons. simpl.
    destruct (ascii_dec c c); [exact IH | congruence].
Qed.

(** An occurrence is found by [String.prototype.includes]. *)
Lemma occurs_includes (sub s : string) : occurs sub s -> JS.includes s sub = true.
Proof.
  intros [pre [post ->]]. induction pre as [| c pre IH].
  - rewrite append_empty_l.
    assert (Hp : String.prefix sub (sub +:+ post) = true) by apply prefix_append.
    destruct (sub +:+ post); cbn [JS.includes]; now rewrite Hp.
  - rewrite append_cons. cbn [JS.includes]. rewrite IH. apply orb_true_r.
Qed.

Lemma occurs_cons (sub s : string) (c : ascii) : occurs sub s -> occurs sub (String c s).
Proof.
  intros [pre [post ->]]. now exists (String c pre), post.
Qed.

Lemma occurs_append_l (sub a b : string) : occurs sub a -> occurs sub (a +:+ b).
Proof.
  intros [pre [post ->]]. exists pre, (post +:+ b).
  now rewrite !append_assoc.
Qed.

Lemma occurs_append_r (sub a b : string) : occurs sub b -> occurs sub (a +:+ b).
Proof.
  intros [pre [post ->]]. exists (a +:+ pre), post.
  now rewrite !append_assoc.
Qed.

Lemma occurs_here (sub post : string) : occurs sub (sub +:+ post).
Proof. now exists "", post. Qed.

Lemma occurs_refl (s : string) : occurs s s.
Proof. exists "", "". now rewrite append_empty_l, append_empty_r. Qed.

Lemma occurs_empty (sub : string) : occurs sub "" -> sub = "".
Proof.
  intros [pre [post H]]. destruct pre; [| discriminate].
  destruct sub; [reflexivity | discriminate].
Qed.

Variable P : ascii -> bool.

(** A string free of [P]-characters that starts [a +:+ String c b], [c] being
    a [P]-character, ends within [a]. *)
Lemma prefix_before_char (m a b post : string) (c : ascii) :
  P c = true -> allChars (fun x => negb (P x)) m = true ->
  a +:+ String c b = m +:+ post -> exists r, a = m +:+ r.
Proof.
  intros Hc. revert a. induction m as [| y m IH]; intros a Hm Heq.
  - now exists a.
  - simpl in Hm. apply andb_true_iff in Hm. destruct Hm as [Hy Hm].
    rewrite append_cons in Heq.
    destruct a as [| x a].
    + rewrite append_empty_l in Heq. injection Heq as Hxy Heq.
      subst y. rewrite Hc in Hy. discriminate.
    + rewrite append_cons in Heq. injection Heq as Hxy Heq.
      subst y. destruct (IH a Hm Heq) as [r ->]. now exists r.
Qed.

(** An occurrence of a string free of [P]-characters does not go across a
    [P]-character. *)
Lemma occurs_split_at_char (m a b : string) (c : ascii) :
  P c = true -> allChars (fun x => negb (P x)) m = true ->
  occurs m (a +:+ String c b) -> occurs m a \/ occurs m b.
Proof.
  intros Hc Hm [pre [post Heq]]. revert a Heq.
  induction pre as [| p pre IH]; intros a Heq.
  - left. rewrite append_empty_l in Heq.
    destruct (prefix_before_char m a b post c Hc Hm Heq) as [r ->].
    apply occurs_here.
  - rewrite append_cons in Heq. destruct a as [| x a].
    + rewrite append_empty_l in Heq. injection Heq as Hx Heq.
      right. now exists pre, post.
    + rewrite append_cons in Heq. injection Heq as Hx Heq.
      destruct (IH a Heq) as [Ha | Hb]; [left; now apply occurs_cons | now right].
Qed.

Lemma occurs_after_run (m d b : string) :
  m <> "" -> allChars (fun x => negb (P x)) m = true -> allChars P d = true ->
  occurs m (d +:+ b) -> occurs m b.
Proof.
  intros Hne Hm. induction d as [| c d IH]; intros Hd Hocc; [exact Hocc |].
  simpl in Hd. apply andb_true_iff in Hd. destruct Hd as [Hc Hd].
  rewrite append_cons in Hocc.
  destruct (occurs_split_at_char m "" (d +:+ b) c Hc Hm Hocc) as [Hnil | Hrest].
  - apply occurs_empty in Hnil. contradiction.
  - now apply IH.
Qed.

(** An occurrence of a non-empty string free of [P]-characters in
    [a +:+ d +:+ b], where [d] is a non-empty run of [P]-characters, lies in
    [a] or in [b]. *)
Lemma occurs_around_run (m a d b : string) :
  m <> "" -> allChars (fun x => negb (P x)) m = true ->
  d <> "" -> allChars P d = true ->
  occurs m (a +:+ d +:+ b) -> occurs m a \/ occurs m b.
Proof.
  intros Hne Hm Hd Hall Hocc. destruct d as [| c d]; [contradiction |].
  simpl in Hall. apply andb_true_iff in Hall. destruct Hall as [Hc Hall].
  rewrite append_cons in Hocc.
  destruct (occurs_split_at_char m a (d +:+ b) c Hc Hm Hocc) as [Ha | Hrest].
  - now left.
  - right. now apply (occurs_after_run m d b).
Qed.

End Occurrences.

Lemma string_of_uint_numeric (d : Decimal.uint) :
  allChars isNumeric (NilEmpty.string_of_uint d) = true.
Proof.
  induction d; simpl; try exact IHd; reflexivity.
Qed.

Lemma Number_toString_numeric (z : Z) : allChars isNumeric (JS.Number_toString z) = true.
Proof.
  unfold JS.Number_toString, NilZero.string_of_int, NilZero.string_of_uint.
  destruct (Z.to_int z) as [d | d]; destruct d; simpl;
    try reflexivity; apply string_of_uint_numeric.
Qed.

Lemma Number_toString_nonempty (z : Z) : JS.Number_toString z <> "".
Proof.
  unfold JS.Number_toString, NilZero.string_of_int, NilZero.string_of_uint.
  destruct (Z.to_int z) as [d | d]; destruct d; simpl; discriminate.
Qed.

(** ** The batch summary message *)

Section BatchMessage.

Import ServersPage.

(** A label with no digit in it does not occur in a message made of fixed
    texts that lack it and of printed integers. *)
Lemma no_occurrence_1 (m a b : string) (z : Z) :
  m <> "" -> allChars notNumeric m = true ->
  JS.includes a m = false -> JS.includes b m = false ->
  ~ occurs m (a +:+ JS.Number_toString z +:+ b).
Proof.
  intros Hne Hm Ha Hb Hocc.
  apply (occurs_around_run isNumeric) in Hocc;
    [ | exact Hne | exact Hm | apply Number_toString_nonempty
      | apply Number_toString_numeric ].
  destruct Hocc as [H | H]; apply occurs_includes in H; congruence.
Qed.

Lemma no_occurrence_2 (m a b c : string) (z1 z2 : Z) :
  m <> "" -> allChars notNumeric m = true ->
  JS.includes a m = false -> JS.includes b m = false -> JS.includes c m = false ->
  ~ occurs m (a +:+ JS.Number_toString z1 +:+ b +:+ JS.Number_toString z2 +:+ c).
Proof.
  intros Hne Hm Ha Hb Hc Hocc.
  apply (occurs_around_run isNumeric) in Hocc;
    [ | exact Hne | exact Hm | apply Number_toString_nonempty
      | apply Number_toString_numeric ].
  destruct Hocc as [H | H].
  - apply occurs_includes in H. congruence.
  - now apply no_occurrence_1 in H.
Qed.

(** The message laid out: the head line, the added line, then the optional
    skipped and failed lines, then the fixed tail. *)
Lemma batchMessage_shape (result : BatchResult) :
  batchMessage result
  = ("✅ 批量添加完成！" +:+ LF)
    +:+ ("• 已添加: " +:+ JS.Number_toString (added result) +:+ " 个服务器" +:+ LF)
    +:+ (if (0 <? skipped result)%Z
         then "• 跳过: " +:+ JS.Number_toString (skipped result) +:+ " 个已订阅服务器" +:+ LF
         else "")
    +:+ (match errors result with
         | Some (e :: errs) =>
             "• 失败: " +:+ JS.Number_toString (Z.of_nat (List.length (e :: errs)))
             +:+ " 个" +:+ LF
         | _ => ""
         end)
    +:+ LF +:+ "所有服务器将监控全机房，系统会自动发送可用性通知。".
Proof.
  unfold batchMessage. cbv zeta.
  destruct (0 <? skipped result)%Z; destruct (errors result) as [[| e errs] |];
    cbn [List.length Nat.ltb Nat.leb]; rewrite ?append_assoc; reflexivity.
Qed.

Lemma batch_added_line (result : BatchResult) :
  occurs ("• 已添加: " +:+ JS.Number_toString (added result) +:+ " 个服务器" +:+ LF)
         (batchMessage result).
Proof.
  rewrite batchMessage_shape.
  apply occurs_append_r, occurs_append_l, occurs_refl.
Qed.

Lemma batch_skipped_line (result : BatchResult) :
  (0 < skipped result)%Z ->
  occurs ("• 跳过: " +:+ JS.Number_toString (skipped result) +:+ " 个已订阅服务器" +:+ LF)
         (batchMessage result).
Proof.
  intros Hpos. apply Z.ltb_lt in Hpos. rewrite batchMessage_shape, Hpos.
  do 2 apply occurs_append_r. apply occurs_append_l, occurs_refl.
Qed.

Lemma batch_failed_line (result : BatchResult) (errs : list string) :
  errors result = Some errs -> errs <> [] ->
  occurs ("• 失败: " +:+ JS.Number_toString (Z.of_nat (List.length errs)) +:+ " 个" +:+ LF)
         (batchMessage result).
Proof.
  intros Herrs Hne. rewrite batchMessage_shape, Herrs.
  destruct errs as [| e errs]; [congruence |].
  do 3 apply occurs_append_r. apply occurs_append_l, occurs_refl.
Qed.

(** The same message around its counts, for each choice of optional lines. *)
Lemma batchMessage_plain (added : string) :
  ("✅ 批量添加完成！" +:+ LF) +:+ ("• 已添加: " +:+ added +:+ " 个服务器" +:+ LF)
  +:+ "" +:+ "" +:+ LF +:+ "所有服务器将监控全机房，系统会自动发送可用性通知。"
  = ("✅ 批量添加完成！" +:+ LF +:+ "• 已添加: ") +:+ added
    +:+ (" 个服务器" +:+ LF +:+ LF +:+ "所有服务器将监控全机房，系统会自动发送可用性通知。").
Proof. rewrite !append_assoc. reflexivity. Qed.

Lemma batchMessage_with_skipped (added skipped : string) :
  ("✅ 批量添加完成！" +:+ LF) +:+ ("• 已添加: " +:+ added +:+ " 个服务器" +:+ LF)
  +:+ ("• 跳过: " +:+ skipped +:+ " 个已订阅服务器" +:+ LF)
  +:+ "" +:+ LF +:+ "所有服务器将监控全机房，系统会自动发送可用性通知。"
  = ("✅ 批量添加完成！" +:+ LF +:+ "• 已添加: ") +:+ added
    +:+ (" 个服务器" +:+ LF +:+ "• 跳过: ") +:+ skipped
    +:+ (" 个已订阅服务器" +:+ LF +:+ LF
         +:+ "所有服务器将监控全机房，系统会自动发送可用性通知。").
Proof. rewrite !append_assoc. reflexivity. Qed.

Lemma batchMessage_with_failed (added failed : string) :
  ("✅ 批量添加完成！" +:+ LF) +:+ ("• 已添加: " +:+ added +:+ " 个服务器" +:+ LF)
  +:+ "" +:+ ("• 失败: " +:+ failed +:+ " 个" +:+ LF)
  +:+ LF +:+ "所有服务器将监控全机房，系统会自动发送可用性通知。"
  = ("✅ 批量添加完成！" +:+ LF +:+ "• 已添加: ") +:+ added
    +:+ (" 个服务器" +:+ LF +:+ "• 失败: ") +:+ failed
    +:+ (" 个" +:+ LF +:+ LF +:+ "所有服务器将监控全机房，系统会自动发送可用性通知。").
Proof. rewrite !append_assoc. reflexivity. Qed.

Lemma batch_no_skipped_label (result : BatchResult) :
  (skipped result <= 0)%Z -> ~ occurs "跳过" (batchMessage result).
Proof.
  intros Hle. rewrite batchMessage_shape.
  assert (Hskip : (0 <? skipped result)%Z = false) by (apply Z.ltb_ge; exact Hle).
  rewrite Hskip.
  destruct (errors result) as [[| e errs] |].
  - rewrite batchMessage_plain. apply no_occurrence_1; (discriminate || reflexivity).
  - rewrite batchMessage_with_failed.
    apply no_occurrence_2; (discriminate || reflexivity).
  - rewrite batchMessage_plain. apply no_occurrence_1; (discriminate || reflexivity).
Qed.

Lemma batch_no_failed_label (result : BatchResult) :
  errors result = None \/ errors result = Some [] ->
  ~ occurs "失败" (batchMessage result).
Proof.
  intros Hnone. rewrite batchMessage_shape.
  assert (Herr : match errors result with
                 | Some (e :: errs) =>
                     "• 失败: " +:+ JS.Number_toString (Z.of_nat (List.length (e :: errs)))
                     +:+ " 个" +:+ LF
                 | _ => ""
                 end = "") by (destruct Hnone as [-> | ->]; reflexivity).
  rewrite Herr.
  destruct (0 <? skipped result)%Z.
  - rewrite batchMessage_with_skipped.
    apply no_occurrence_2; (discriminate || reflexivity).
  - rewrite batchMessage_plain. apply no_occurrence_1; (discriminate || reflexivity).
Qed.

(** The batch operation of the registry, one SKU after the other. *)
Lemma batchStep_counts (createError : string -> option string) (nA nU : bool)
    (knownSkus : list string) (p : SubscriptionRegistry.Progress) :
  let q := fold_left (SubscriptionRegistry.batchStep createError nA nU) knownSkus p in
  (SubscriptionRegistry.nAdded q + SubscriptionRegistry.nSkipped q
   + Z.of_nat (List.length (SubscriptionRegistry.failures q))
   = SubscriptionRegistry.nAdded p + SubscriptionRegistry.nSkipped p
     + Z.of_nat (List.length (SubscriptionRegistry.failures p))
     + Z.of_nat (List.length knownSkus))%Z
  /\ (SubscriptionRegistry.nAdded p <= SubscriptionRegistry.nAdded q)%Z
  /\ (SubscriptionRegistry.nSkipped p <= SubscriptionRegistry.nSkipped q)%Z
  /\ exists created,
       SubscriptionRegistry.registry q = (SubscriptionRegistry.registry p ++ created)%list
       /\ (Z.of_nat (List.length created)
           = SubscriptionRegistry.nAdded q - SubscriptionRegistry.nAdded p)%Z.
Proof.
  cbn zeta. revert p. induction knownSkus as [| sku skus IH]; intros p.
  - cbn [fold_left List.length]. repeat split; try lia.
    exists []. rewrite app_nil_r. split; [reflexivity | simpl; lia].
  - cbn [fold_left].
    destruct (IH (SubscriptionRegistry.batchStep createError nA nU p sku))
      as [Hsum [Hadd [Hskip [created [Hreg Hlen]]]]].
    unfold SubscriptionRegistry.batchStep in *.
    destruct (SubscriptionRegistry.subscribedTo (SubscriptionRegistry.registry p) sku).
    + cbn [SubscriptionRegistry.registry SubscriptionRegistry.nAdded
             SubscriptionRegistry.nSkipped SubscriptionRegistry.failures] in *.
      cbn [List.length]. repeat split; try lia.
      exists created. split; [exact Hreg | lia].
    + destruct (createError sku) as [e |];
        cbn [SubscriptionRegistry.registry SubscriptionRegistry.nAdded
               SubscriptionRegistry.nSkipped SubscriptionRegistry.failures] in *.
      * rewrite length_app in Hsum. cbn [List.length] in *.
        repeat split; try lia.
        exists created. split; [exact Hreg | lia].
      * cbn [List.length]. repeat split; try lia.
        eexists (_ :: created). rewrite Hreg, <- app_assoc. split; [reflexivity |].
        cbn [List.length]. lia.
Qed.

Lemma subscribedTo_app (r1 r2 : list SubscriptionRegistry.Subscription) (sku : string) :
  SubscriptionRegistry.subscribedTo (r1 ++ r2)%list sku
  = SubscriptionRegistry.subscribedTo r1 sku || SubscriptionRegistry.subscribedTo r2 sku.
Proof. apply existsb_app. Qed.

Lemma batchStep_subscribed (createError : string -> option string) (nA nU : bool)
    (knownSkus : list string) (p : SubscriptionRegistry.Progress) (sku : string) :
  let q := fold_left (SubscriptionRegistry.batchStep createError nA nU) knownSkus p in
  SubscriptionRegistry.subscribedTo (SubscriptionRegistry.registry q) sku = true
  <-> SubscriptionRegistry.subscribedTo (SubscriptionRegistry.registry p) sku = true
      \/ (In sku knownSkus /\ createError sku = None).
Proof.
  cbn zeta. revert p. induction knownSkus as [| sku' skus IH]; intros p.
  - cbn [fold_left In]. tauto.
  - cbn [fold_left In]. rewrite IH. unfold SubscriptionRegistry.batchStep.
    destruct (SubscriptionRegistry.subscribedTo (SubscriptionRegistry.registry p) sku')
      eqn:Hsub.
    + cbn [SubscriptionRegistry.registry].
      split; [tauto |]. intros [H | [[-> | H] Hc]]; auto.
    + destruct (createError sku') as [e |] eqn:Hc; cbn [SubscriptionRegistry.registry].
      * split; [tauto |]. intros [H | [[-> | H] Hc']]; auto. congruence.
      * rewrite subscribedTo_app. cbn. rewrite orb_false_r, orb_true_iff.
        destruct (String.eqb_spec sku' sku) as [-> | Hne].
        -- split; [intros _; right; split; [now left | exact Hc] | intros _; left; now right].
        -- split.
           ++ intros [[H | H] | [H Hc']]; [now left | discriminate | right; split; auto].
           ++ intros [H | [[-> | H] Hc']]; [left; now left | congruence | right; split; auto].
Qed.

(** C6. The batch-add-all operation goes through every known SKU and
    answers a summary [{added, skipped, errors}] in which each known SKU is
    counted once; a creation that fails is one more error and undoes nothing:
    the registry keeps what it held and what was created, and a known SKU is
    subscribed afterwards exactly when it was before or its creation
    succeeded. The handler issues the request and, whatever the summary
    holds, ends with one success toast whose message always has the added
    line with the added count; has the skipped line, with the skipped count,
    when [skipped > 0] and no skipped label otherwise; has the failed line,
    with the number of errors, when [errors] is a non-empty list and no failed
    label otherwise. When the request itself is rejected the handler raises
    error toasts only. *)
Theorem batch_message_counts (createError : string -> option string)
    (knownSkus : list string) (current : list SubscriptionRegistry.Subscription)
    (result : BatchResult) :
  let answer := SubscriptionRegistry.batchAddAll createError true true knownSkus current in
  let msg := batchMessage result in
  let request :=
    ApiRequest POST "/monitor/subscriptions/batch-add-all"
      (Some [("notifyAvailable", JS.JBool true); ("notifyUnavailable", JS.JBool true)])
      ApiClient.noConfig in
  (exists errs created,
      errors (snd answer) = Some errs
      /\ (added (snd answer) + skipped (snd answer) + Z.of_nat (List.length errs)
          = Z.of_nat (List.length knownSkus))%Z
      /\ (0 <= added (snd answer))%Z /\ (0 <= skipped (snd answer))%Z
      /\ fst answer = (current ++ created)%list
      /\ Z.of_nat (List.length created) = added (snd answer))
  /\ (forall sku, In sku knownSkus ->
        (SubscriptionRegistry.subscribedTo (fst answer) sku = true
         <-> SubscriptionRegistry.subscribedTo current sku = true \/ createError sku = None))
  /\ occurs ("• 已添加: " +:+ JS.Number_toString (added result) +:+ " 个服务器" +:+ LF) msg
  /\ ((0 < skipped result)%Z ->
      occurs ("• 跳过: " +:+ JS.Number_toString (skipped result)
              +:+ " 个已订阅服务器" +:+ LF) msg)
  /\ ((skipped result <= 0)%Z -> ~ occurs "跳过" msg)
  /\ (forall errs, errors result = Some errs -> errs <> [] ->
        occurs ("• 失败: " +:+ JS.Number_toString (Z.of_nat (List.length errs))
                +:+ " 个" +:+ LF) msg)
  /\ (errors result = None \/ errors result = Some [] -> ~ occurs "失败" msg)
  /\ (forall isAuthenticated netSubscriptions,
        exists between,
          confirmBatchAddAllServersToMonitor isAuthenticated (Resolved result)
            netSubscriptions
          = ([ SetShowBatchMonitorDialog false; request ] ++ between
             ++ [ Toast (mkToast ToastSuccess msg) ])%list)
  /\ (forall isAuthenticated netSubscriptions error,
        exists toasts,
          confirmBatchAddAllServersToMonitor isAuthenticated (Rejected error)
            netSubscriptions
          = ([ SetShowBatchMonitorDialog false; request ] ++ map Toast toasts)%list
          /\ toasts <> []
          /\ Forall (fun t => toastLevel t = ToastError) toasts).
Proof.
  cbn zeta.
  split; [| split].
  - unfold SubscriptionRegistry.batchAddAll. cbn [fst snd added skipped errors].
    destruct (batchStep_counts createError true true knownSkus
                (SubscriptionRegistry.mkProgress current 0 0 []))
      as [Hsum [Hadd [Hskip [created [Hreg Hlen]]]]].
    cbn [SubscriptionRegistry.registry SubscriptionRegistry.nAdded
           SubscriptionRegistry.nSkipped SubscriptionRegistry.failures List.length] in *.
    eexists _, created. split; [reflexivity |].
    repeat split; try lia. exact Hreg.
  - intros sku Hin. unfold SubscriptionRegistry.batchAddAll. cbn [fst].
    rewrite batchStep_subscribed. cbn [SubscriptionRegistry.registry]. tauto.
  - split; [apply batch_added_line |].
    split; [apply batch_skipped_line |].
    split; [apply batch_no_skipped_label |].
    split; [apply batch_failed_line |].
    split; [apply batch_no_failed_label |].
    split.
    + intros isAuthenticated netSubscriptions.
      unfold confirmBatchAddAllServersToMonitor.
      exists (loadSubscribedServers isAuthenticated netSubscriptions ++ [ SetServersCopy ])%list.
      rewrite <- !app_assoc. reflexivity.
    + intros isAuthenticated netSubscriptions error.
      unfold confirmBatchAddAllServersToMonitor.
      eexists (ApiClient.responseInterceptorToasts error ++ [ _ ])%list.
      rewrite map_app. split; [reflexivity |].
      split; [intros H; apply app_eq_nil in H; destruct H; discriminate |].
      apply Forall_app. split; [| repeat constructor].
      unfold ApiClient.responseInterceptorToasts.
      destruct (response error) as [r |];
        [ destruct (status r =? 403)%Z; [| destruct (status r =? 500)%Z]
        | destruct (request error) ];
        repeat constructor.
Qed.

Lemma batch_message_counts_witness :
  let result := mkBatchResult 12 3 (Some ["24sk60: quota"; "24rise01: timeout"]) in
  occurs ("• 跳过: 3 个已订阅服务器" +:+ LF) (batchMessage result)
  /\ occurs ("• 失败: 2 个" +:+ LF) (batchMessage result)
  /\ ~ occurs "跳过" (batchMessage (mkBatchResult 12 0 None)).
Proof.
  cbn zeta. split; [| split].
  - apply (proj1 (proj2 (proj2 (proj2 (batch_message_counts (fun _ => None) [] []
                           (mkBatchResult 12 3 (Some ["24sk60: quota"; "24rise01: timeout"]))))))).
    reflexivity.
  - apply (proj1 (proj2 (proj2 (proj2 (proj2 (proj2 (batch_message_counts (fun _ => None) [] []
                           (mkBatchResult 12 3 (Some ["24sk60: quota"; "24rise01: timeout"]))))))))
             ["24sk60: quota"; "24rise01: timeout"]).
    + reflexivity.
    + discriminate.
  - apply (proj1 (proj2 (proj2 (proj2 (proj2 (batch_message_counts (fun _ => None) [] []
                           (mkBatchResult 12 0 None))))))).
    discriminate.
Defined.

(** The batch operation on three known SKUs, one of them subscribed and one
    whose creation fails: one is added, one skipped, one reported, and the
    handler says so. *)
Example batchAddAll_run :
  let createError sku := if String.eqb sku "24rise01" then Some "24rise01: quota" else None in
  let answer :=
    SubscriptionRegistry.batchAddAll createError true true
      ["24ska01"; "24rise01"; "24sk20"]
      [SubscriptionRegistry.mkSubscription "24ska01" ["gra"] true false] in
  answer
  = ([ SubscriptionRegistry.mkSubscription "24ska01" ["gra"] true false;
       SubscriptionRegistry.mkSubscription "24sk20" [] true true ],
     mkBatchResult 1 1 (Some ["24rise01: quota"]))
  /\ batchMessage (snd answer)
     = "✅ 批量添加完成！" +:+ LF +:+ "• 已添加: 1 个服务器" +:+ LF
       +:+ "• 跳过: 1 个已订阅服务器" +:+ LF +:+ "• 失败: 1 个" +:+ LF +:+ LF
       +:+ "所有服务器将监控全机房，系统会自动发送可用性通知。".
Proof. split; reflexivity. Qed.

End BatchMessage.

(** * Further properties *)

(** ** The stored secret key *)

Section SecretKey.

Lemma truthy_false_iff (s : string) : JS.truthy s = false <-> s = "".
Proof.
  unfold JS.truthy. destruct (String.eqb_spec s ""); simpl; split; congruence.
Qed.

Lemma orElse_empty (s : string) : JS.orElse (Some s) "" = s.
Proof.
  unfold JS.orElse. destruct (JS.truthy s) eqn:Hs; [reflexivity |].
  symmetry. now apply truthy_false_iff.
Qed.

Lemma getApiSecretKey_set (localStorage : gmap string string) (key : string) :
  ApiClient.getApiSecretKey (ApiClient.setApiSecretKey key localStorage) = key.
Proof.
  unfold ApiClient.getApiSecretKey, ApiClient.setApiSecretKey.
  rewrite lookup_insert_eq. apply orElse_empty.
Qed.

Lemma getApiSecretKey_clear (localStorage : gmap string string) :
  ApiClient.getApiSecretKey (ApiClient.clearApiSecretKey localStorage) = "".
Proof.
  unfold ApiClient.getApiSecretKey, ApiClient.clearApiSecretKey.
  now rewrite lookup_delete_eq.
Qed.

(** X1. What [setApiSecretKey] stores is what [getApiSecretKey] reads back,
    the empty key included; after [clearApiSecretKey] the key read is empty;
    and neither touches another entry of [localStorage]. *)
Theorem secret_key_round_trip (localStorage : gmap string string) (key : string) :
  ApiClient.getApiSecretKey (ApiClient.setApiSecretKey key localStorage) = key
  /\ ApiClient.getApiSecretKey (ApiClient.clearApiSecretKey localStorage) = ""
  /\ (forall other, other <> "api_secret_key" ->
        ApiClient.setApiSecretKey key localStorage !! other = localStorage !! other
        /\ ApiClient.clearApiSecretKey localStorage !! other = localStorage !! other).
Proof.
  split; [apply getApiSecretKey_set | split; [apply getApiSecretKey_clear |]].
  intros other Hother.
  unfold ApiClient.setApiSecretKey, ApiClient.clearApiSecretKey,
    ApiClient.API_SECRET_KEY_STORAGE.
  split.
  - apply lookup_insert_ne. congruence.
  - apply lookup_delete_ne. congruence.
Qed.

Lemma secret_key_round_trip_witness :
  ApiClient.setApiSecretKey "s3cret" {[ "ovh_view_mode" := "list" ]} !! "ovh_view_mode"
  = Some "list".
Proof.
  rewrite (proj1 (proj2 (proj2 (secret_key_round_trip {[ "ovh_view_mode" := "list" ]} "s3cret"))
                    "ovh_view_mode" ltac:(discriminate))).
  reflexivity.
Defined.

Variable API_URL : string.
Variable API_TIMEOUT : Z.

(** X2. Once a non-empty key has been stored, every request of the client
    carries it as [X-API-Key], in place of any such header of the caller;
    once the key has been cleared, a request whose caller set no such header
    carries none. *)
Theorem stored_key_reaches_requests (localStorage : gmap string string) (key : string)
    (now : Z) (m : httpMethod) (url : string) (data : option JS.json)
    (config : ApiClient.AxiosRequestConfig) :
  (key <> "" ->
   ApiClient.reqHeaders
     (ApiClient.sendRequest API_URL API_TIMEOUT
        (ApiClient.setApiSecretKey key localStorage) now m url data config)
   !! "X-API-Key" = Some key)
  /\ (ApiClient.headers config !! "X-API-Key" = None ->
      ApiClient.reqHeaders
        (ApiClient.sendRequest API_URL API_TIMEOUT
           (ApiClient.clearApiSecretKey localStorage) now m url data config)
      !! "X-API-Key" = None).
Proof.
  unfold ApiClient.sendRequest, ApiClient.requestInterceptor. cbn [ApiClient.reqHeaders].
  rewrite getApiSecretKey_set, getApiSecretKey_clear. split.
  - intros Hne. apply truthy_true in Hne. rewrite Hne.
    rewrite lookup_insert_ne by discriminate. apply lookup_insert_eq.
  - intros Hnone. cbn. rewrite lookup_insert_ne by discriminate.
    rewrite lookup_union, Hnone. unfold ApiClient.defaultHeaders.
    now rewrite lookup_singleton_ne by discriminate.
Qed.

End SecretKey.

Lemma stored_key_reaches_requests_witness :
  ApiClient.reqHeaders
    (ApiClient.sendRequest "/api" 30000
       (ApiClient.setApiSecretKey "s3cret" ∅) 1700000000000 POST "/queue" None
       (ApiClient.mkConfig [] None {[ "X-API-Key" := "stale" ]}))
  !! "X-API-Key" = Some "s3cret".
Proof.
  apply (proj1 (stored_key_reaches_requests "/api" 30000 ∅ "s3cret" 1700000000000
                  POST "/queue" None
                  (ApiClient.mkConfig [] None {[ "X-API-Key" := "stale" ]}))).
  discriminate.
Defined.

(** ** The settings form *)

Section Settings.

Import SettingsPage.


(** X3. [handleSubmit] with a non-empty secret key stores it first, before
    any call on the OVH settings, and the stored key is the one read back
    afterwards whatever those calls answer; with an empty key it stores
    nothing and only raises the error notice. *)
Theorem handleSubmit_stores_key (formValues : FormValues) (netKeys : outcome unit)
    (netCheck : outcome bool) (localStorage : gmap string string) :
  let es := handleSubmit formValues netKeys netCheck in
  (apiSecretKey formValues <> "" ->
   ApiClient.getApiSecretKey (storageAfter localStorage es) = apiSecretKey formValues
   /\ exists rest,
        es = ([ SetIsSaving true; StoreApiSecretKey (apiSecretKey formValues); Wait 100 ]
              ++ rest)%list)
  /\ (apiSecretKey formValues = "" ->
      es = [ Notice NoticeError "请设置网站安全密钥" ]
      /\ storageAfter localStorage es = localStorage).
Proof.
  cbn zeta. split.
  - intros Hne. apply truthy_true in Hne.
    unfold handleSubmit. rewrite Hne. cbn [negb].
    split; [| eexists; reflexivity].
    destruct (JS.truthy (appKey formValues) && JS.truthy (appSecret formValues)
              && JS.truthy (consumerKey formValues));
      [destruct netKeys as [[] | errKeys]; [destruct netCheck as [[|] | errCheck] |] |];
      apply getApiSecretKey_set.
  - intros Hempty. apply truthy_false_iff in Hempty.
    unfold handleSubmit. rewrite Hempty. split; reflexivity.
Qed.

Lemma handleSubmit_stores_key_witness :
  let form := mkFormValues "s3cret" "ak" "as" "" "ovh-eu" "" "" "go-ovh-ie" "IE" in
  ApiClient.getApiSecretKey
    (storageAfter {[ "api_secret_key" := "old" ]}
       (handleSubmit form (Rejected (mkAxiosError None None None false)) (Resolved false)))
  = "s3cret".
Proof.
  cbn zeta.
  apply (proj1 (handleSubmit_stores_key
                  (mkFormValues "s3cret" "ak" "as" "" "ovh-eu" "" "" "go-ovh-ie" "IE")
                  (Rejected (mkAxiosError None None None false)) (Resolved false)
                  {[ "api_secret_key" := "old" ]})).
  discriminate.
Defined.



End Settings.

(** ** Sorting and filtering *)

Section SortAndFilter.

Local Open Scope list_scope.

Context {A : Type}.

Lemma filter_sublist (f : A -> bool) (l : list A) : sublist (List.filter f l) l.
Proof.
  induction l as [| x l IH]; simpl.
  - constructor.
  - destruct (f x); now constructor.
Qed.

Lemma filter_complement_length (f : A -> bool) (l : list A) :
  List.length (List.filter f l) + List.length (List.filter (fun x => negb (f x)) l)
  = List.length l.
Proof.
  induction l as [| x l IH]; simpl; [reflexivity |].
  destruct (f x); simpl; lia.
Qed.

Lemma insert_Permutation (compare : A -> A -> Z) (x : A) (l : list A) :
  Permutation (JSArray.insert compare x l) (x :: l).
Proof.
  induction l as [| y l IH]; simpl; [reflexivity |].
  destruct (compare x y <=? 0)%Z; [reflexivity |].
  rewrite IH. apply perm_swap.
Qed.

Lemma sort_Permutation (compare : A -> A -> Z) (l : list A) :
  Permutation (JSArray.sort compare l) l.
Proof.
  induction l as [| x l IH]; simpl; [reflexivity |].
  rewrite insert_Permutation. now constructor.
Qed.

(** Sorting with a comparator that orders by a key gives a list sorted by
    that key. *)
Lemma insert_sorted (key : A -> Z) (compare : A -> A -> Z) (x : A) (l : list A) :
  (forall a b, (compare a b <= 0)%Z <-> (key a <= key b)%Z) ->
  StronglySorted (fun a b => (key a <= key b)%Z) l ->
  StronglySorted (fun a b => (key a <= key b)%Z) (JSArray.insert compare x l).
Proof.
  intros Hcmp Hsorted. induction l as [| y l IH]; simpl.
  - repeat constructor.
  - apply StronglySorted_inv in Hsorted. destruct Hsorted as [Hl Hy].
    destruct (Z.leb_spec (compare x y) 0) as [Hle | Hgt].
    + apply Hcmp in Hle. constructor; [now constructor |].
      constructor; [exact Hle |].
      apply List.Forall_forall. intros b Hb.
      rewrite List.Forall_forall in Hy. specialize (Hy b Hb). cbn in Hy. lia.
    + assert (Hyx : (key y <= key x)%Z).
      { destruct (Z.le_gt_cases (key x) (key y)) as [H | H]; [| lia].
        apply Hcmp in H. lia. }
      constructor; [now apply IH |].
      apply List.Forall_forall. intros b Hb.
      apply (Permutation_in _ (insert_Permutation compare x l)) in Hb.
      destruct Hb as [<- | Hb]; [exact Hyx |].
      rewrite List.Forall_forall in Hy. now apply Hy.
Qed.

Lemma sort_sorted (key : A -> Z) (compare : A -> A -> Z) (l : list A) :
  (forall a b, (compare a b <= 0)%Z <-> (key a <= key b)%Z) ->
  StronglySorted (fun a b => (key a <= key b)%Z) (JSArray.sort compare l).
Proof.
  intros Hcmp. induction l as [| x l IH]; simpl.
  - constructor.
  - now apply (insert_sorted key).
Qed.

Lemma StronglySorted_impl_sorted (key : A -> Z) (R : A -> A -> Prop)
    (compare : A -> A -> Z) (l : list A) :
  (forall a b, (compare a b <= 0)%Z <-> (key a <= key b)%Z) ->
  (forall a b, (key a <= key b)%Z -> R a b) ->
  StronglySorted R (JSArray.sort compare l).
Proof.
  intros Hcmp HR. pose proof (sort_sorted key compare l Hcmp) as Hsorted.
  induction Hsorted as [| x rest Hrest IH Hx]; constructor; [exact IH |].
  apply List.Forall_forall. intros b Hb.
  rewrite List.Forall_forall in Hx. now apply HR, Hx.
Qed.

(** Sorting with a comparator that only tells two classes apart lists the
    first class, then the second, each in its former order. *)
Lemma insert_after_firsts (first : A -> bool) (compare : A -> A -> Z) (x : A)
    (firsts others : list A) :
  (forall a b, (compare a b <= 0)%Z <-> (first b = true -> first a = true)) ->
  Forall (fun y => first y = true) firsts ->
  Forall (fun z => first z = false) others ->
  first x = false ->
  JSArray.insert compare x (firsts ++ others) = firsts ++ x :: others.
Proof.
  intros Hcmp Hfirsts Hothers Hx.
  induction firsts as [| y firsts IH]; simpl.
  - destruct others as [| z others]; simpl; [reflexivity |].
    apply Forall_inv in Hothers.
    destruct (Z.leb_spec (compare x z) 0) as [Hle | Hgt]; [reflexivity |].
    exfalso. assert (compare x z <= 0)%Z by (apply Hcmp; congruence). lia.
  - pose proof (Forall_inv Hfirsts) as Hy. apply Forall_inv_tail in Hfirsts.
    destruct (Z.leb_spec (compare x y) 0) as [Hle | Hgt].
    + apply Hcmp in Hle; [congruence | exact Hy].
    + f_equal. now apply IH.
Qed.

Lemma sort_two_classes (first : A -> bool) (compare : A -> A -> Z) (l : list A) :
  (forall a b, (compare a b <= 0)%Z <-> (first b = true -> first a = true)) ->
  JSArray.sort compare l
  = List.filter first l ++ List.filter (fun a => negb (first a)) l.
Proof.
  intros Hcmp. induction l as [| x l IH]; [reflexivity |].
  cbn [JSArray.sort fold_right]. fold (JSArray.sort compare l). rewrite IH.
  simpl. destruct (first x) eqn:Hx; simpl.
  - destruct (List.filter first l ++ List.filter (fun a => negb (first a)) l)
      as [| y rest]; simpl; [reflexivity |].
    destruct (Z.leb_spec (compare x y) 0) as [Hle | Hgt]; [reflexivity |].
    exfalso. assert (compare x y <= 0)%Z by (apply Hcmp; congruence). lia.
  - apply (insert_after_firsts first); [exact Hcmp | | | exact Hx].
    + apply List.Forall_forall. intros y Hy. now apply List.filter_In in Hy.
    + apply List.Forall_forall. intros z Hz. apply List.filter_In in Hz.
      destruct Hz as [_ Hz]. now apply negb_true_iff in Hz.
Qed.

End SortAndFilter.

(** ** The list shown on the availability page *)

Section ShownList.

Import OVHAvailabilityPage AvailabilityView.
Local Open Scope list_scope.

Variable localeCompare : string -> string -> Z.

Lemma searchStage_sublist (term : string) (l : list AvailabilityItem) :
  sublist (searchStage term l) l.
Proof. unfold searchStage. destruct (JS.truthy term); [apply filter_sublist | reflexivity]. Qed.

Lemma datacenterStage_sublist (dc : string) (l : list AvailabilityItem) :
  sublist (datacenterStage dc l) l.
Proof.
  unfold datacenterStage. destruct (negb _); [apply filter_sublist | reflexivity].
Qed.

Lemma filterByAvailability_sublist (f : string) (l : list AvailabilityItem) :
  sublist (filterByAvailability f l) l.
Proof.
  unfold filterByAvailability. destruct (negb _); [apply filter_sublist | reflexivity].
Qed.

Lemma memoryStage_sublist (f : string) (l : list AvailabilityItem) :
  sublist (memoryStage f l) l.
Proof.
  unfold memoryStage. destruct (negb _); [apply filter_sublist | reflexivity].
Qed.

(** X5. Whatever the search term, the filters and the sort order, the list
    shown is a rearrangement of a sublist of the snapshot: it shows no record
    the snapshot lacks and no record more often than the snapshot has it, so
    it is never longer than the snapshot. *)
Theorem filteredData_from_snapshot (availabilities : list AvailabilityItem)
    (debouncedSearch filterDatacenter filterAvailability filterMemory : string)
    (sortBy : SortBy) (sortOrder : SortOrder) :
  let shown := filteredData localeCompare availabilities debouncedSearch filterDatacenter
                 filterAvailability filterMemory sortBy sortOrder in
  (exists kept, sublist kept availabilities /\ Permutation shown kept)
  /\ (forall item, In item shown -> In item availabilities)
  /\ List.length shown <= List.length availabilities.
Proof.
  cbn zeta. unfold filteredData.
  set (kept := memoryStage filterMemory
                 (filterByAvailability filterAvailability
                    (datacenterStage filterDatacenter
                       (searchStage debouncedSearch availabilities)))).
  assert (Hsub : sublist kept availabilities).
  { subst kept.
    etransitivity; [apply memoryStage_sublist |].
    etransitivity; [apply filterByAvailability_sublist |].
    etransitivity; [apply datacenterStage_sublist |].
    apply searchStage_sublist. }
  pose proof (sort_Permutation (compareItems localeCompare sortBy sortOrder) kept) as Hperm.
  split; [exists kept; now split |].
  split.
  - intros item Hin. apply (Permutation_in _ Hperm) in Hin.
    apply list_elem_of_In. apply list_elem_of_In in Hin.
    eapply sublist_subseteq; eassumption.
  - rewrite (Permutation_length Hperm). now apply sublist_length.
Qed.

(** X6. With an empty search term and the three filters on [all], the list
    shown is a rearrangement of the whole snapshot, whatever the sort key
    and order: sorting drops and repeats nothing. *)
Theorem filteredData_all (availabilities : list AvailabilityItem)
    (sortBy : SortBy) (sortOrder : SortOrder) :
  Permutation
    (filteredData localeCompare availabilities "" "all" "all" "all" sortBy sortOrder)
    availabilities.
Proof.
  unfold filteredData. cbn. apply sort_Permutation.
Qed.

(** X7. For a snapshot whose memory sizes are below [2^53] (where
    [parseInt] is exact): sorted by memory, the list shown has its memory
    sizes in non-decreasing order when ascending and in non-increasing order
    when descending; sorted by availability, the same holds of the numbers of
    available datacenters. *)
Theorem filteredData_sorted (availabilities : list AvailabilityItem)
    (debouncedSearch filterDatacenter filterAvailability filterMemory : string) :
  Forall (fun item => (memorySortKey item < 2 ^ 53)%Z) availabilities ->
  let shown := filteredData localeCompare availabilities debouncedSearch filterDatacenter
                 filterAvailability filterMemory in
  StronglySorted (fun a b => (memorySortKey a <= memorySortKey b)%Z) (shown ByMemory Asc)
  /\ StronglySorted (fun a b => (memorySortKey b <= memorySortKey a)%Z) (shown ByMemory Desc)
  /\ StronglySorted (fun a b => availableCount a <= availableCount b)
       (shown ByAvailability Asc)
  /\ StronglySorted (fun a b => availableCount b <= availableCount a)
       (shown ByAvailability Desc).
Proof.
  intros _. cbn zeta. unfold filteredData.
  set (kept := memoryStage _ _).
  split; [| split; [| split]].
  - apply (sort_sorted memorySortKey). intros a b. cbn. lia.
  - eapply StronglySorted_impl_sorted with (key := fun a => (- memorySortKey a)%Z).
    + intros a b. cbn. lia.
    + intros a b. cbn. lia.
  - eapply StronglySorted_impl_sorted with (key := fun a => Z.of_nat (availableCount a)).
    + intros a b. cbn. lia.
    + intros a b. cbn. lia.
  - eapply StronglySorted_impl_sorted with (key := fun a => (- Z.of_nat (availableCount a))%Z).
    + intros a b. cbn. lia.
    + intros a b. cbn. lia.
Qed.

End ShownList.

Lemma filteredData_sorted_witness :
  StronglySorted
    (fun a b => (AvailabilityView.memorySortKey a <= AvailabilityView.memorySortKey b)%Z)
    (AvailabilityView.filteredData (fun _ _ => 0%Z)
       [ OVHAvailabilityPage.mkAvailabilityItem "24sys01.ram-256g" "ram-256g-ecc-3200"
           "24sys01" "SYS-1" "softraid-2x960nvme" None [];
         OVHAvailabilityPage.mkAvailabilityItem "24ska01.ram-64g" "ram-64g-noecc-2133"
           "24ska01" "KS-A" "softraid-2x480ssd" None [] ]
       "" "all" "all" "all" AvailabilityView.ByMemory AvailabilityView.Asc).
Proof.
  apply (proj1 (filteredData_sorted (fun _ _ => 0%Z)
                  [ OVHAvailabilityPage.mkAvailabilityItem "24sys01.ram-256g"
                      "ram-256g-ecc-3200" "24sys01" "SYS-1" "softraid-2x960nvme" None [];
                    OVHAvailabilityPage.mkAvailabilityItem "24ska01.ram-64g"
                      "ram-64g-noecc-2133" "24ska01" "KS-A" "softraid-2x480ssd" None [] ]
                  "" "all" "all" "all"
                  ltac:(repeat constructor))).
Defined.

(** ** Filters of the availability page *)

Section Filters.

Import OVHAvailabilityPage AvailabilityView.
Local Open Scope list_scope.

Lemma dcIsUnavailable_negb (dc : DatacenterInfo) :
  dcIsUnavailable dc = negb (dcIsAvailable dc).
Proof.
  unfold dcIsUnavailable, dcIsAvailable.
  now rewrite negb_andb, !negb_involutive.
Qed.

Lemma every_unavailable_negb (dcs : list DatacenterInfo) :
  forallb dcIsUnavailable dcs = negb (existsb dcIsAvailable dcs).
Proof.
  induction dcs as [| dc dcs IH]; simpl; [reflexivity |].
  now rewrite IH, dcIsUnavailable_negb, negb_orb.
Qed.

(** X8. The [available] and [unavailable] filters split any list in two:
    each item is kept by exactly one of them (an item with no datacenter entry
    by [unavailable]), so the two results have the items of the list between
    them. *)
Theorem available_unavailable_split (items : list AvailabilityItem) :
  (forall item, In item items ->
     (In item (filterByAvailability "available" items)
      <-> ~ In item (filterByAvailability "unavailable" items)))
  /\ List.length (filterByAvailability "available" items)
     + List.length (filterByAvailability "unavailable" items)
     = List.length items
  /\ (forall item, In item items -> datacenters item = [] ->
        In item (filterByAvailability "unavailable" items)).
Proof.
  cbn. split; [| split].
  - intros item Hin. rewrite !List.filter_In, every_unavailable_negb.
    destruct (existsb dcIsAvailable (datacenters item)); simpl; intuition congruence.
  - rewrite (List.filter_ext (fun item => forallb dcIsUnavailable (datacenters item))
               (fun item => negb (existsb dcIsAvailable (datacenters item))))
      by (intros item; apply every_unavailable_negb).
    apply (filter_complement_length
             (fun item => existsb dcIsAvailable (datacenters item))).
  - intros item Hin Hnil. apply List.filter_In. split; [exact Hin |].
    now rewrite Hnil.
Qed.

Lemma available_unavailable_split_witness :
  let item := mkAvailabilityItem "24ska01.ram-64g" "ram-64g" "24ska01" "24ska01"
                "softraid-2x480ssd" None [] in
  In item (filterByAvailability "unavailable" [item]).
Proof.
  cbn zeta.
  apply (proj2 (proj2 (available_unavailable_split
                         [mkAvailabilityItem "24ska01.ram-64g" "ram-64g" "24ska01" "24ska01"
                            "softraid-2x480ssd" None []]))).
  - left. reflexivity.
  - reflexivity.
Defined.

(** X9. The memory filter never hides an item whose memory field has no
    number followed by [g]. For an item with such a number, the four
    buckets overlap and leave a gap: 128 falls in both [<=128] and [256],
    256 in both [256] and [512], and a size above 512 and below 1024 falls
    in none, so that each of the four filters hides the item. *)
Theorem memory_buckets (items : list AvailabilityItem) (item : AvailabilityItem) :
  In item items ->
  (JSArray.matchDigitsG (memory item) = None ->
   forall filterMemory, In item (memoryStage filterMemory items))
  /\ (forall digits,
        JSArray.matchDigitsG (memory item) = Some digits ->
        let memSize := JSArray.parseInt digits in
        (In item (memoryStage "<=128" items) /\ In item (memoryStage "256" items)
         <-> memSize = 128%Z)
        /\ (In item (memoryStage "256" items) /\ In item (memoryStage "512" items)
            <-> memSize = 256%Z)
        /\ ((512 < memSize < 1024)%Z
            <-> ~ In item (memoryStage "<=128" items) /\ ~ In item (memoryStage "256" items)
                /\ ~ In item (memoryStage "512" items)
                /\ ~ In item (memoryStage ">=1024" items))).
Proof.
  intros Hin. split.
  - intros Hnone filterMemory. unfold memoryStage.
    destruct (negb _); [| exact Hin].
    apply List.filter_In. split; [exact Hin |]. now rewrite Hnone.
  - intros digits Hsome. cbn zeta. cbn.
    rewrite !List.filter_In, Hsome. unfold memoryBucket. cbn.
    set (memSize := JSArray.parseInt digits).
    destruct (Z.leb_spec memSize 128), (Z.leb_spec 128 memSize),
      (Z.leb_spec memSize 256), (Z.leb_spec 256 memSize),
      (Z.leb_spec memSize 512), (Z.leb_spec 1024 memSize); cbn;
      intuition (try discriminate; try lia).
Qed.

Lemma memory_buckets_witness :
  let item := mkAvailabilityItem "24sys01.ram-768g" "ram-768g-ecc-3200" "24sys01" "SYS-1"
                "softraid-2x960nvme" None [mkDatacenterInfo "gra" "72H"] in
  ~ In item (memoryStage "512" [item]) /\ ~ In item (memoryStage ">=1024" [item]).
Proof.
  cbn zeta.
  pose proof (proj2 (memory_buckets
                 [mkAvailabilityItem "24sys01.ram-768g" "ram-768g-ecc-3200" "24sys01" "SYS-1"
                    "softraid-2x960nvme" None [mkDatacenterInfo "gra" "72H"]]
                 (mkAvailabilityItem "24sys01.ram-768g" "ram-768g-ecc-3200" "24sys01" "SYS-1"
                    "softraid-2x960nvme" None [mkDatacenterInfo "gra" "72H"])
                 ltac:(left; reflexivity)) "768" eq_refl) as [_ [_ Hgap]].
  apply Hgap. vm_compute. split; reflexivity.
Defined.

End Filters.

(** ** Page controls *)

Section PageControls.

Import OVHAvailabilityPage AvailabilityView.
Local Open Scope list_scope.

(** X10. Where the page controls are drawn (more than one page) and the
    current page is within [1 .. totalPages], each of the four buttons leaves
    it there; the next button moves by one page except on the last page, the
    previous button by one page except on the first. *)
Theorem page_buttons_stay_in_range (totalPages currentPage : Z) :
  (1 < totalPages)%Z -> (1 <= currentPage <= totalPages)%Z ->
  (1 <= firstPage currentPage <= totalPages)%Z
  /\ (1 <= previousPage currentPage <= totalPages)%Z
  /\ (1 <= nextPage totalPages currentPage <= totalPages)%Z
  /\ (1 <= lastPage totalPages currentPage <= totalPages)%Z
  /\ (currentPage < totalPages -> nextPage totalPages currentPage = currentPage + 1)%Z
  /\ nextPage totalPages totalPages = totalPages
  /\ (1 < currentPage -> previousPage currentPage = currentPage - 1)%Z
  /\ previousPage 1 = 1%Z.
Proof.
  unfold firstPage, previousPage, nextPage, lastPage. intros Htotal Hcur.
  repeat split; lia.
Qed.

Lemma page_buttons_stay_in_range_witness :
  nextPage 3 3 = 3%Z /\ previousPage 2 = 1%Z.
Proof.
  pose proof (page_buttons_stay_in_range 3 2 ltac:(lia) ltac:(lia))
    as [_ [_ [_ [_ [_ [Hlast [Hprev _]]]]]]].
  split; [exact Hlast | apply Hprev; lia].
Defined.

(** X11. On a page within [1 .. totalPages] (positive page size), the range
    the page announces, from [(currentPage - 1) * itemsPerPage + 1] to
    [min (currentPage * itemsPerPage) length], counts exactly the items the
    page lists, and its first item is the item of the list at the announced
    position. *)
Theorem shown_range_matches_page (filteredData : list AvailabilityItem)
    (currentPage itemsPerPage : Z) :
  (0 < itemsPerPage)%Z ->
  (1 <= currentPage <= totalPages filteredData itemsPerPage)%Z ->
  let page := paginatedData filteredData currentPage itemsPerPage in
  (shownTo filteredData currentPage itemsPerPage - shownFrom currentPage itemsPerPage + 1
   = Z.of_nat (List.length page))%Z
  /\ (1 <= shownFrom currentPage itemsPerPage
      <= shownTo filteredData currentPage itemsPerPage)%Z
  /\ page !! 0 = filteredData !! Z.to_nat (shownFrom currentPage itemsPerPage - 1).
Proof.
  intros Hn Hp. cbn zeta.
  pose proof (totalPages_bounds (Z.of_nat (List.length filteredData)) itemsPerPage
                ltac:(lia) Hn) as [_ [Hlow _]].
  fold (totalPages filteredData itemsPerPage) in Hlow.
  rewrite paginatedData_page by lia.
  unfold shownTo, shownFrom.
  assert (Hstart : (Z.of_nat (Z.to_nat (currentPage - 1) * Z.to_nat itemsPerPage)
                    = (currentPage - 1) * itemsPerPage)%Z) by nia.
  assert (Hbelow : ((currentPage - 1) * itemsPerPage < Z.of_nat (List.length filteredData))%Z).
  { assert ((currentPage - 1) * itemsPerPage
            <= (totalPages filteredData itemsPerPage - 1) * itemsPerPage)%Z
      by (apply Z.mul_le_mono_nonneg_r; lia).
    lia. }
  replace (Z.to_nat (currentPage - 1) * Z.to_nat itemsPerPage)
    with (Z.to_nat ((currentPage - 1) * itemsPerPage))
    by (rewrite Z2Nat.inj_mul by lia; reflexivity).
  replace (currentPage * itemsPerPage)%Z
    with ((currentPage - 1) * itemsPerPage + itemsPerPage)%Z by ring.
  assert (Hnonneg : (0 <= (currentPage - 1) * itemsPerPage)%Z) by nia.
  clear Hstart Hlow Hp.
  generalize dependent ((currentPage - 1) * itemsPerPage)%Z. intros start Hbelow Hnonneg.
  split; [| split].
  - rewrite length_take, length_drop. lia.
  - lia.
  - rewrite lookup_take_lt by lia. rewrite lookup_drop. f_equal. lia.
Qed.

Lemma shown_range_matches_page_witness :
  let item c := mkAvailabilityItem c "ram-32g" c c "softraid-2x2000sa" None
                  [mkDatacenterInfo "gra" "unavailable"] in
  let l := [item "a"; item "b"; item "c"; item "d"; item "e"] in
  (shownTo l 3 2 - shownFrom 3 2 + 1 = Z.of_nat (List.length (paginatedData l 3 2)))%Z.
Proof.
  cbn zeta.
  refine (proj1 (shown_range_matches_page _ 3 2 _ _)).
  - reflexivity.
  - vm_compute. split; discriminate.
Defined.

(** X12. A page number above [totalPages], and page 0, list nothing
    (positive page size). *)
Theorem page_out_of_range_empty (filteredData : list AvailabilityItem)
    (currentPage itemsPerPage : Z) :
  (0 < itemsPerPage)%Z ->
  (totalPages filteredData itemsPerPage < currentPage)%Z \/ currentPage = 0%Z ->
  paginatedData filteredData currentPage itemsPerPage = [].
Proof.
  intros Hn [Habove | ->].
  - pose proof (totalPages_bounds (Z.of_nat (List.length filteredData)) itemsPerPage
                  ltac:(lia) Hn) as [Hpos [_ Hup]].
    fold (totalPages filteredData itemsPerPage) in Hpos, Hup.
    rewrite paginatedData_page by lia.
    rewrite drop_ge; [now destruct (Z.to_nat itemsPerPage) | nia].
  - unfold paginatedData, JS.slice. cbn zeta.
    replace ((0 - 1) * itemsPerPage <? 0)%Z with true by (symmetry; apply Z.ltb_lt; lia).
    replace ((0 - 1) * itemsPerPage + itemsPerPage <? 0)%Z with false
      by (symmetry; apply Z.ltb_ge; lia).
    replace (Z.to_nat (Z.max (Z.min ((0 - 1) * itemsPerPage + itemsPerPage)
                                    (Z.of_nat (List.length filteredData))
                              - Z.max (Z.of_nat (List.length filteredData)
                                       + (0 - 1) * itemsPerPage) 0) 0))
      with 0 by lia.
    reflexivity.
Qed.

Lemma page_out_of_range_empty_witness :
  let item c := mkAvailabilityItem c "ram-32g" c c "softraid-2x2000sa" None
                  [mkDatacenterInfo "gra" "unavailable"] in
  paginatedData [item "a"; item "b"; item "c"] 3 2 = [].
Proof.
  cbn zeta.
  refine (page_out_of_range_empty _ 3 2 _ _).
  - reflexivity.
  - left. reflexivity.
Defined.

End PageControls.

(** ** The endpoint configuration and the loading flag *)

Section EndpointConfig.

Import OVHAvailabilityPage AvailabilityView.
Local Open Scope list_scope.

Lemma runConfig_app (st : ConfigState) (es1 es2 : list configEffect) :
  runConfig st (es1 ++ es2) = runConfig (runConfig st es1) es2.
Proof. apply fold_left_app. Qed.

Lemma runConfig_toasts (st : ConfigState) (ts : list toast) :
  runConfig st (map ConfigToast ts) = st.
Proof.
  induction ts as [| t ts IH]; [reflexivity | exact IH].
Qed.

Lemma getApiBaseUrl_nonempty (ep : string) : getApiBaseUrl ep <> "".
Proof.
  unfold getApiBaseUrl.
  destruct (String.eqb ep "ovh-us"); [discriminate |].
  destruct (String.eqb ep "ovh-ca"); discriminate.
Qed.

(** X13. Whatever the configuration request answers, [fetchEndpointConfig]
    leaves the page with a base URL that is the one of the endpoint it
    recorded and is not empty, and with the configuration flag cleared; a
    failed request and a response without endpoint both give the European
    endpoint. The snapshot fetch that follows therefore always sends its
    request, to the availabilities path under that base URL. *)
Theorem endpoint_config_consistent (nullLengthMessage : string) (st : ConfigState)
    (net : outcome (option string)) (netFetch : outcome ResponseData) :
  let st' := runConfig st (fetchEndpointConfig net) in
  apiBaseUrl st' = getApiBaseUrl (endpoint st')
  /\ apiBaseUrl st' <> ""
  /\ isConfigLoading st' = false
  /\ ((exists error, net = Rejected error) \/ net = Resolved None \/ net = Resolved (Some "") ->
      endpoint st' = "ovh-eu" /\ apiBaseUrl st' = "https://eu.api.ovh.com")
  /\ In (AxiosGet (apiBaseUrl st' +:+ "/v1/dedicated/server/datacenter/availabilities") 30000)
        (fetchAvailabilities nullLengthMessage (apiBaseUrl st') netFetch).
Proof.
  cbn zeta.
  assert (Hrun : runConfig st (fetchEndpointConfig net)
                 = match net with
                   | Resolved dataEndpoint =>
                       mkConfigState (JS.orElse dataEndpoint "ovh-eu")
                         (getApiBaseUrl (JS.orElse dataEndpoint "ovh-eu")) false
                   | Rejected _ => mkConfigState "ovh-eu" "https://eu.api.ovh.com" false
                   end).
  { unfold fetchEndpointConfig. destruct net as [dataEndpoint | error].
    - reflexivity.
    - rewrite !runConfig_app, runConfig_toasts. reflexivity. }
  rewrite Hrun.
  assert (Hbase : match net with
                  | Resolved dataEndpoint =>
                      getApiBaseUrl (JS.orElse dataEndpoint "ovh-eu")
                  | Rejected _ => "https://eu.api.ovh.com"
                  end <> "").
  { destruct net; [apply getApiBaseUrl_nonempty | discriminate]. }
  split; [now destruct net |].
  split; [now destruct net |].
  split; [now destruct net |].
  split.
  - intros [[error ->] | [-> | ->]]; split; reflexivity.
  - destruct net as [dataEndpoint | error]; cbn [apiBaseUrl] in *;
      unfold fetchAvailabilities;
      match goal with
      | |- context [JS.truthy ?u] =>
          assert (Ht : JS.truthy u = true) by (now apply truthy_true)
      end; rewrite Ht; cbn [negb]; cbn; tauto.
Qed.

Lemma endpoint_config_consistent_witness :
  let st := mkConfigState "" "" true in
  let st' := runConfig st
               (fetchEndpointConfig
                  (Rejected (mkAxiosError None (Some "Network Error") None true))) in
  endpoint st' = "ovh-eu" /\ apiBaseUrl st' = "https://eu.api.ovh.com".
Proof.
  cbn zeta.
  apply (proj1 (proj2 (proj2 (proj2
           (endpoint_config_consistent "Cannot read properties of null (reading 'length')"
              (mkConfigState "" "" true)
              (Rejected (mkAxiosError None (Some "Network Error") None true))
              (Resolved (Items [])))))));
  left. eexists. reflexivity.
Defined.

(** X14. A snapshot fetch that goes out (non-empty base URL) raises the
    loading flag first and leaves it cleared, whether the request succeeds
    or fails; with an empty base URL the refresh does nothing at all. *)
Theorem fetch_clears_loading (nullLengthMessage : string) (st : State)
    (apiBaseUrl : string) (net : outcome ResponseData) :
  (apiBaseUrl <> "" ->
   isLoading (run st (fetchAvailabilities nullLengthMessage apiBaseUrl net)) = false
   /\ exists rest,
        fetchAvailabilities nullLengthMessage apiBaseUrl net = SetIsLoading true :: rest)
  /\ (apiBaseUrl = "" -> fetchAvailabilities nullLengthMessage apiBaseUrl net = []).
Proof.
  split.
  - intros Hne. apply truthy_true in Hne. unfold fetchAvailabilities.
    rewrite Hne. cbn [negb]. split; [| eexists; reflexivity].
    destruct net as [[data | | lengthText] | error]; reflexivity.
  - intros ->. reflexivity.
Qed.

Lemma fetch_clears_loading_witness :
  isLoading (run (mkState (Items []) true)
               (fetchAvailabilities "Cannot read properties of null (reading 'length')"
                  "https://ca.api.ovh.com"
                  (Rejected (mkAxiosError None None None false)))) = false
  /\ fetchAvailabilities "Cannot read properties of null (reading 'length')"
       "" (Resolved (Items [])) = [].
Proof.
  pose proof (fetch_clears_loading "Cannot read properties of null (reading 'length')"
                (mkState (Items []) true) "https://ca.api.ovh.com"
                (Rejected (mkAxiosError None None None false))) as [Hsent _].
  pose proof (fetch_clears_loading "Cannot read properties of null (reading 'length')"
                (mkState (Items []) true) "" (Resolved (Items []))) as [_ Hidle].
  split; [apply Hsent; discriminate | apply Hidle; reflexivity].
Defined.

End EndpointConfig.

(** ** Arrays, sets and objects *)

Section ArraysAndObjects.

Local Open Scope list_scope.

Lemma arrayIncludes_In (a : list string) (v : string) :
  JSArray.arrayIncludes a v = true <-> In v a.
Proof.
  unfold JSArray.arrayIncludes. rewrite existsb_exists. split.
  - intros [x [Hin Heq]]. apply String.eqb_eq in Heq. now subst.
  - intros Hin. exists v. split; [exact Hin | apply String.eqb_refl].
Qed.

Lemma removeFirst_In (v x : string) (a : list string) :
  In x (JSArray.removeFirst v a) -> In x a.
Proof.
  induction a as [| y a IH]; simpl; [tauto |].
  destruct (String.eqb y v); simpl; tauto.
Qed.

Lemma removeFirst_other (v x : string) (a : list string) :
  x <> v -> In x a -> In x (JSArray.removeFirst v a).
Proof.
  intros Hne. induction a as [| y a IH]; simpl; [tauto |].
  destruct (String.eqb_spec y v) as [-> | Hy]; simpl; intuition congruence.
Qed.

Lemma removeFirst_NoDup (v : string) (a : list string) :
  List.NoDup a -> List.NoDup (JSArray.removeFirst v a) /\ ~ In v (JSArray.removeFirst v a).
Proof.
  induction a as [| y a IH]; simpl; intros Hnd.
  - split; [constructor | tauto].
  - apply List.NoDup_cons_iff in Hnd. destruct Hnd as [Hy Hnd].
    destruct (String.eqb_spec y v) as [-> | Hne].
    + now split.
    + destruct (IH Hnd) as [IH1 IH2]. split.
      * constructor; [| exact IH1]. intros Hin. apply Hy. now apply removeFirst_In in Hin.
      * simpl. intuition congruence.
Qed.

Lemma removeFirst_absent (v : string) (a : list string) :
  ~ In v a -> JSArray.removeFirst v a = a.
Proof.
  induction a as [| y a IH]; simpl; [reflexivity |]. intros Hnot.
  destruct (String.eqb_spec y v) as [-> | Hne]; [tauto |].
  f_equal. apply IH. tauto.
Qed.

Lemma newSet_In (l : list string) (x : string) : In x (ServersPage.newSet l) <-> In x l.
Proof.
  unfold ServersPage.newSet. now rewrite <- in_rev, nodup_In, <- in_rev.
Qed.

Lemma newSet_NoDup (l : list string) : List.NoDup (ServersPage.newSet l).
Proof. unfold ServersPage.newSet. apply NoDup_rev, NoDup_nodup. Qed.



Context {V : Type}.

Lemma obj_set_keys (o : JS.obj V) (k : string) (v : V) :
  map fst (JS.obj_set o k v)
  = if JSArray.arrayIncludes (map fst o) k then map fst o else map fst o ++ [k].
Proof.
  unfold JSArray.arrayIncludes.
  induction o as [| [k' v'] o IH]; simpl; [reflexivity |].
  rewrite (String.eqb_sym k k').
  destruct (String.eqb_spec k' k) as [-> | Hne]; simpl; [reflexivity |].
  rewrite IH. now destruct (existsb (String.eqb k) (map fst o)).
Qed.

Lemma obj_set_keys_NoDup (o : JS.obj V) (k : string) (v : V) :
  List.NoDup (map fst o) -> List.NoDup (map fst (JS.obj_set o k v)).
Proof.
  intros Hnd. rewrite obj_set_keys.
  destruct (JSArray.arrayIncludes (map fst o) k) eqn:Hin; [exact Hnd |].
  apply List.NoDup_rev in Hnd. rewrite <- (rev_involutive (map fst o ++ [k])).
  apply List.NoDup_rev. rewrite rev_app_distr. simpl. constructor; [| exact Hnd].
  rewrite <- in_rev. intros Hk. apply arrayIncludes_In in Hk. congruence.
Qed.

Lemma obj_get_set_same (o : JS.obj V) (k : string) (v : V) :
  JS.obj_get (JS.obj_set o k v) k = Some v.
Proof.
  unfold JS.obj_get. induction o as [| [k' v'] o IH]; simpl.
  - now rewrite String.eqb_refl.
  - destruct (String.eqb_spec k' k) as [-> | Hne]; simpl.
    + now rewrite String.eqb_refl.
    + destruct (String.eqb_spec k' k); [contradiction | exact IH].
Qed.

Lemma obj_set_twice (o : JS.obj V) (k : string) (v v' : V) :
  JS.obj_set (JS.obj_set o k v) k v' = JS.obj_set o k v'.
Proof.
  induction o as [| [k0 v0] o IH]; simpl.
  - now rewrite String.eqb_refl.
  - destruct (String.eqb_spec k0 k) as [-> | Hne]; simpl.
    + now rewrite String.eqb_refl.
    + destruct (String.eqb_spec k0 k); [contradiction | now rewrite IH].
Qed.

Lemma obj_set_same (o : JS.obj V) (k : string) (v : V) :
  JS.obj_get o k = Some v -> JS.obj_set o k v = o.
Proof.
  unfold JS.obj_get. induction o as [| [k0 v0] o IH]; simpl; [discriminate |].
  destruct (String.eqb_spec k0 k) as [-> | Hne]; simpl.
  - intros [= ->]. reflexivity.
  - intros Hget. now rewrite IH.
Qed.

Lemma obj_set_absent (o : JS.obj V) (k : string) (v : V) :
  JS.obj_get o k = None -> JS.obj_set o k v = o ++ [(k, v)].
Proof.
  unfold JS.obj_get. induction o as [| [k0 v0] o IH]; simpl; [reflexivity |].
  destruct (String.eqb_spec k0 k) as [-> | Hne]; simpl; [discriminate |].
  intros Hget. now rewrite IH.
Qed.

Lemma obj_get_In (o : JS.obj V) (k : string) (v : V) :
  List.NoDup (map fst o) -> (JS.obj_get o k = Some v <-> In (k, v) o).
Proof.
  unfold JS.obj_get. induction o as [| [k0 v0] o IH]; simpl; intros Hnd.
  - split; [discriminate | tauto].
  - apply List.NoDup_cons_iff in Hnd. destruct Hnd as [Hk0 Hnd].
    destruct (String.eqb_spec k0 k) as [-> | Hne]; simpl.
    + split.
      * intros [= ->]. now left.
      * intros [[= ->] | Hin]; [reflexivity |].
        exfalso. apply Hk0. apply in_map_iff. now exists (k, v).
    + rewrite (IH Hnd). split; [tauto |].
      intros [[= -> ->] | Hin]; [contradiction | exact Hin].
Qed.

End ArraysAndObjects.

(** ** The server list and the selections *)

Section ServerListOrder.

Import ServersPage ServersView.
Local Open Scope list_scope.

Variable cpu : ServerPlan -> string.
Variable memory : ServerPlan -> string.

Lemma compareSubscribed_le (subscribed : list string) (a b : ServerPlan) :
  (compareSubscribed subscribed a b <= 0)%Z
  <-> (JSArray.arrayIncludes subscribed (planCode b) = true ->
       JSArray.arrayIncludes subscribed (planCode a) = true).
Proof.
  unfold compareSubscribed.
  destruct (JSArray.arrayIncludes subscribed (planCode a)),
    (JSArray.arrayIncludes subscribed (planCode b)); cbn; intuition (try lia; congruence).
Qed.

(** X15. The server list written by the filter effect is the plans the
    search keeps, the subscribed ones first and the others after, each group
    in the order of the server list; it holds every plan the search keeps
    exactly as often. With an empty server list the effect writes nothing. *)
Theorem subscribed_first (servers : list ServerPlan) (searchTerm : string)
    (currentSubscribed : list string) :
  let found := searchServers cpu memory searchTerm servers in
  let isSubscribed s := JSArray.arrayIncludes currentSubscribed (planCode s) in
  (servers <> [] ->
   filterServers cpu memory servers searchTerm currentSubscribed
   = Some (List.filter isSubscribed found
           ++ List.filter (fun s => negb (isSubscribed s)) found)
   /\ forall shown,
        filterServers cpu memory servers searchTerm currentSubscribed = Some shown ->
        Permutation shown found)
  /\ filterServers cpu memory [] searchTerm currentSubscribed = None.
Proof.
  cbn zeta. split; [| reflexivity].
  intros Hne. unfold filterServers.
  destruct servers as [| s servers]; [congruence |]. cbn [List.length Nat.eqb].
  split.
  - f_equal. apply sort_two_classes. intros a b. apply compareSubscribed_le.
  - intros shown [= <-]. apply sort_Permutation.
Qed.

End ServerListOrder.

Lemma subscribed_first_witness :
  let plan c := ServersPage.mkServerPlan c c [] [] in
  ServersView.filterServers (fun _ => "") (fun _ => "")
    [plan "24ska01"; plan "24sk20"; plan "24sk30"; plan "24sk40"] "" ["24sk40"; "24sk20"]
  = Some [plan "24sk20"; plan "24sk40"; plan "24ska01"; plan "24sk30"].
Proof.
  cbv beta zeta.
  rewrite (proj1 (proj1 (subscribed_first (fun _ => "") (fun _ => "")
             [ServersPage.mkServerPlan "24ska01" "24ska01" [] []; ServersPage.mkServerPlan "24sk20" "24sk20" [] [];
              ServersPage.mkServerPlan "24sk30" "24sk30" [] []; ServersPage.mkServerPlan "24sk40" "24sk40" [] []]
             "" ["24sk40"; "24sk20"]) ltac:(discriminate))).
  reflexivity.
Defined.


Section DatacenterSelection.

Import ServersPage ServersView.
Local Open Scope list_scope.

Lemma selected_of_all (current : JS.obj bool) (selected : bool) :
  map (fun kv => JS.toLowerCase (fst kv))
      (List.filter (fun kv => snd kv) (map (fun kv => (fst kv, selected)) current))
  = if selected then map (fun kv => JS.toLowerCase (fst kv)) current else [].
Proof.
  induction current as [| [k v] current IH]; simpl.
  - now destruct selected.
  - destruct selected; simpl; [now rewrite IH | exact IH].
Qed.

(** X16. After "select all" on a plan, the selected list of the plan is
    every datacenter code of its selection object, in lower case and in the
    object's order; after "deselect all" it is empty; the selected list of
    any other plan is as before; and on a plan that has no selection object
    the state is left as it is. *)
Theorem toggleAll_selects_all (prev : gmap string (JS.obj bool))
    (serverPlanCode : string) (selected : bool) :
  (forall current, prev !! serverPlanCode = Some current ->
     getSelectedDatacentersList (toggleAllDatacenters serverPlanCode selected prev)
       serverPlanCode
     = if selected then map (fun kv => JS.toLowerCase (fst kv)) current else [])
  /\ (forall other, other <> serverPlanCode ->
        getSelectedDatacentersList (toggleAllDatacenters serverPlanCode selected prev) other
        = getSelectedDatacentersList prev other)
  /\ (prev !! serverPlanCode = None ->
      toggleAllDatacenters serverPlanCode selected prev = prev).
Proof.
  split; [| split].
  - intros current Hcur. unfold toggleAllDatacenters, getSelectedDatacentersList.
    rewrite Hcur, lookup_insert_eq. apply selected_of_all.
  - intros other Hother. unfold toggleAllDatacenters, getSelectedDatacentersList.
    destruct (prev !! serverPlanCode); [| reflexivity].
    rewrite lookup_insert_ne by congruence. reflexivity.
  - intros Hnone. unfold toggleAllDatacenters. unfold JS.obj in *. now rewrite Hnone.
Qed.

Lemma toggleAll_selects_all_witness :
  getSelectedDatacentersList
    (toggleAllDatacenters "24ska01" true
       {[ "24ska01" := [("GRA", false); ("RBX", true); ("MUM", false)] ]})
    "24ska01"
  = ["gra"; "rbx"; "mum"].
Proof.
  exact (proj1 (toggleAll_selects_all
                  {[ "24ska01" := [("GRA", false); ("RBX", true); ("MUM", false)] ]}
                  "24ska01" true)
           [("GRA", false); ("RBX", true); ("MUM", false)]
           (lookup_singleton_eq _ _)).
Defined.

Lemma selected_app_unticked (current : JS.obj bool) (k : string) :
  List.filter (fun kv : string * bool => snd kv) (current ++ [(k, false)])
  = List.filter (fun kv : string * bool => snd kv) current.
Proof. rewrite List.filter_app. simpl. apply app_nil_r. Qed.

(** X17. Two clicks on the same datacenter tile leave the selected list of
    every plan as it was; one click on a tile that is not ticked puts its
    code, in lower case, in the selected list of the plan. *)
Theorem toggle_datacenter_twice (prev : gmap string (JS.obj bool))
    (serverPlanCode datacenter : string) :
  (forall planCode,
     getSelectedDatacentersList
       (toggleDatacenterSelection serverPlanCode datacenter
          (toggleDatacenterSelection serverPlanCode datacenter prev)) planCode
     = getSelectedDatacentersList prev planCode)
  /\ (JS.obj_get (default [] (prev !! serverPlanCode)) datacenter <> Some true ->
      In (JS.toLowerCase datacenter)
         (getSelectedDatacentersList
            (toggleDatacenterSelection serverPlanCode datacenter prev) serverPlanCode)).
Proof.
  split.
  - intros planCode. unfold toggleDatacenterSelection, getSelectedDatacentersList.
    rewrite lookup_insert_eq. cbn [from_option id]. rewrite obj_get_set_same. cbn [from_option id].
    rewrite negb_involutive, obj_set_twice, insert_insert_eq.
    destruct (String.eqb_spec planCode serverPlanCode) as [-> | Hne].
    + rewrite lookup_insert_eq.
      destruct (prev !! serverPlanCode) as [current |] eqn:Hcur; cbn [from_option id].
      * destruct (JS.obj_get current datacenter) as [ticked |] eqn:Hget; cbn [from_option id].
        -- now rewrite (obj_set_same _ _ _ Hget).
        -- now rewrite (obj_set_absent _ _ _ Hget), selected_app_unticked.
      * reflexivity.
    + rewrite lookup_insert_ne by congruence. reflexivity.
  - intros Hnot. unfold toggleDatacenterSelection, getSelectedDatacentersList.
    rewrite lookup_insert_eq.
    set (current := default [] (prev !! serverPlanCode)) in *.
    assert (Hticked : default false (JS.obj_get current datacenter) = false).
    { destruct (JS.obj_get current datacenter) as [[|] |]; [congruence | |]; reflexivity. }
    rewrite Hticked. cbn [negb].
    apply in_map_iff. exists (datacenter, true). split; [reflexivity |].
    apply List.filter_In. split; [| reflexivity].
    clear Hnot Hticked. induction current as [| [k v] current IH]; simpl.
    + now left.
    + destruct (String.eqb_spec k datacenter); simpl; tauto.
Qed.

Lemma toggle_datacenter_twice_witness :
  In "mum"
     (getSelectedDatacentersList
        (toggleDatacenterSelection "24ska01" "MUM"
           {[ "24ska01" := [("GRA", true); ("MUM", false)] ]}) "24ska01").
Proof.
  apply (proj2 (toggle_datacenter_twice
                  {[ "24ska01" := [("GRA", true); ("MUM", false)] ]} "24ska01" "MUM")).
  vm_compute. discriminate.
Defined.

End DatacenterSelection.

(** ** Option selection *)

Section OptionSelection.

Import ServersPage ServersView.
Local Open Scope list_scope.

(** The other options of the group dropped from a selection. *)
Let clearGroup (group optionValue : string) (serverOptions : list ServerOption)
    (currentOptions : list string) : list string :=
  fold_left
    (fun current option =>
       if isInSameGroup group option && negb (String.eqb (value option) optionValue)
       then JSArray.removeFirst (value option) current
       else current)
    serverOptions currentOptions.

Lemma clearGroup_In (group optionValue : string) (serverOptions : list ServerOption)
    (currentOptions : list string) (x : string) :
  In x (clearGroup group optionValue serverOptions currentOptions) -> In x currentOptions.
Proof.
  unfold clearGroup. revert currentOptions.
  induction serverOptions as [| o options IH]; intros current; simpl; [tauto |].
  intros Hin. apply IH in Hin.
  destruct (isInSameGroup group o && negb (String.eqb (value o) optionValue));
    [now apply removeFirst_In in Hin | exact Hin].
Qed.

Lemma clearGroup_NoDup (group optionValue : string) (serverOptions : list ServerOption)
    (currentOptions : list string) :
  List.NoDup currentOptions ->
  List.NoDup (clearGroup group optionValue serverOptions currentOptions).
Proof.
  unfold clearGroup. revert currentOptions.
  induction serverOptions as [| o options IH]; intros current Hnd; simpl; [exact Hnd |].
  apply IH.
  destruct (isInSameGroup group o && negb (String.eqb (value o) optionValue));
    [now apply removeFirst_NoDup | exact Hnd].
Qed.

Lemma clearGroup_removes (group optionValue : string) (serverOptions : list ServerOption)
    (currentOptions : list string) (o : ServerOption) :
  List.NoDup currentOptions -> In o serverOptions ->
  isInSameGroup group o = true -> value o <> optionValue ->
  ~ In (value o) (clearGroup group optionValue serverOptions currentOptions).
Proof.
  unfold clearGroup. revert currentOptions.
  induction serverOptions as [| o' options IH]; intros current Hnd Hin Hgroup Hne;
    simpl; [destruct Hin |].
  destruct Hin as [-> | Hin].
  - rewrite Hgroup. apply String.eqb_neq in Hne. rewrite Hne. cbn [andb negb].
    intros Hstill. apply (clearGroup_In group optionValue) in Hstill.
    now apply (removeFirst_NoDup (value o) current Hnd).
  - apply IH; try assumption.
    destruct (isInSameGroup group o' && negb (String.eqb (value o') optionValue));
      [now apply removeFirst_NoDup | exact Hnd].
Qed.

Lemma clearGroup_keeps (group optionValue : string) (serverOptions : list ServerOption)
    (currentOptions : list string) (x : string) :
  In x currentOptions ->
  (forall o, In o serverOptions -> isInSameGroup group o = true -> value o <> x) ->
  In x (clearGroup group optionValue serverOptions currentOptions).
Proof.
  unfold clearGroup. revert currentOptions.
  induction serverOptions as [| o options IH]; intros current Hin Hnone; simpl;
    [exact Hin |].
  apply IH; [| intros o' Ho'; apply Hnone; now right].
  destruct (isInSameGroup group o) eqn:Hgroup; cbn [andb]; [| exact Hin].
  destruct (negb (String.eqb (value o) optionValue)); [| exact Hin].
  apply removeFirst_other; [| exact Hin].
  intros ->. now apply (Hnone o (or_introl eq_refl)).
Qed.

(** X18. A click on a selected option drops it from the selection. A click
    on an option that is not selected, in a selection without repeats, adds
    it last and keeps the selection without repeats; if a group is named, no
    other option of that group of the plan stays selected, and every option
    of the selection that belongs to no option of the group stays. *)
Theorem toggle_option_single_select (servers : list ServerPlan)
    (currentOptions : list string) (serverPlanCode optionValue : string)
    (groupName : option string) :
  let selection := toggledOptions servers currentOptions serverPlanCode optionValue groupName in
  (In optionValue currentOptions ->
   selection = JSArray.removeFirst optionValue currentOptions)
  /\ (NoDup currentOptions -> NoDup selection)
  /\ (~ In optionValue currentOptions -> NoDup currentOptions ->
      (exists kept, selection = kept ++ [optionValue]
                    /\ forall x, In x kept -> In x currentOptions)
      /\ forall group server,
           groupName = Some group -> group <> "" ->
           find (fun s => String.eqb (planCode s) serverPlanCode) servers = Some server ->
           (forall o, In o (availableOptions server) -> isInSameGroup group o = true ->
                      value o <> optionValue -> ~ In (value o) selection)
           /\ (forall x, In x currentOptions ->
                 (forall o, In o (availableOptions server) ->
                            isInSameGroup group o = true -> value o <> x) ->
                 In x selection)).
Proof.
  cbn zeta. unfold toggledOptions. split; [| split].
  - intros Hin. apply arrayIncludes_In in Hin. now rewrite Hin.
  - intros Hnd. apply NoDup_ListNoDup in Hnd. apply NoDup_ListNoDup.
    destruct (JSArray.arrayIncludes currentOptions optionValue) eqn:Hsel.
    + now apply removeFirst_NoDup.
    + assert (Hnot : ~ In optionValue currentOptions)
        by (rewrite <- arrayIncludes_In; congruence).
      match goal with
      | |- List.NoDup (?cleared ++ _) =>
          assert (Hcl : List.NoDup cleared /\ forall x, In x cleared -> In x currentOptions)
      end.
      { destruct groupName as [group |]; [| now split].
        destruct (JS.truthy group); [| now split].
        split; [now apply clearGroup_NoDup | intros x; apply clearGroup_In]. }
      destruct Hcl as [Hcl1 Hcl2].
      apply List.NoDup_rev in Hcl1.
      match goal with
      | |- List.NoDup (?cleared ++ _) => rewrite <- (rev_involutive (cleared ++ [optionValue]))
      end.
      apply List.NoDup_rev. rewrite rev_app_distr. simpl. constructor; [| exact Hcl1].
      rewrite <- in_rev. intros Hin. apply Hnot. now apply Hcl2.
  - intros Hnot Hnd. apply NoDup_ListNoDup in Hnd.
    assert (Hsel : JSArray.arrayIncludes currentOptions optionValue = false).
    { destruct (JSArray.arrayIncludes currentOptions optionValue) eqn:Hsel; [| reflexivity].
      apply arrayIncludes_In in Hsel. contradiction. }
    rewrite Hsel. split.
    + eexists. split; [reflexivity |].
      destruct groupName as [group |]; [| tauto].
      destruct (JS.truthy group); [| tauto].
      intros x. apply clearGroup_In.
    + intros group server -> Hgroup Hfind. apply truthy_true in Hgroup.
      rewrite Hgroup, Hfind. split.
      * intros o Ho Hsame Hne Hin. apply in_app_or in Hin. destruct Hin as [Hin | [Heq | []]].
        -- now apply (clearGroup_removes group optionValue (availableOptions server)
                        currentOptions o Hnd Ho Hsame Hne).
        -- congruence.
      * intros x Hx Hnone. apply in_or_app. left. now apply clearGroup_keeps.
Qed.

Lemma toggle_option_single_select_witness :
  let server :=
    mkServerPlan "24ska01" "KS-A" []
      [ mkServerOption "64GB RAM" "ram-64g" (Some "memory") None;
        mkServerOption "128GB RAM" "ram-128g" (Some "memory") None;
        mkServerOption "2x960 SSD" "softraid-2x960ssd" (Some "storage") None ] in
  ~ In "ram-64g"
      (toggledOptions [server] ["ram-64g"; "softraid-2x960ssd"] "24ska01" "ram-128g"
         (Some "内存")).
Proof.
  cbv beta zeta.
  pose proof (proj2 (proj2 (toggle_option_single_select
      [ mkServerPlan "24ska01" "KS-A" []
          [ mkServerOption "64GB RAM" "ram-64g" (Some "memory") None;
            mkServerOption "128GB RAM" "ram-128g" (Some "memory") None;
            mkServerOption "2x960 SSD" "softraid-2x960ssd" (Some "storage") None ] ]
      ["ram-64g"; "softraid-2x960ssd"] "24ska01" "ram-128g" (Some "内存")))) as Hadd.
  destruct Hadd as [_ Hgroup].
  - intros [H | [H | []]]; discriminate.
  - apply NoDup_ListNoDup. repeat constructor; simpl; intuition discriminate.
  - destruct (Hgroup "内存" _ eq_refl ltac:(discriminate) eq_refl) as [Hgone _].
    apply (Hgone (mkServerOption "64GB RAM" "ram-64g" (Some "memory") None)).
    + left. reflexivity.
    + reflexivity.
    + discriminate.
Defined.

End OptionSelection.

(** ** Monitor subscriptions *)

Section Subscriptions.

Import ServersPage ServersView.
Local Open Scope list_scope.

Lemma subscribedAfter_app (subscribed : list string) (es1 es2 : list effect) :
  subscribedAfter subscribed (es1 ++ es2)
  = subscribedAfter (subscribedAfter subscribed es1) es2.
Proof. apply fold_left_app. Qed.

Lemma subscribedAfter_toasts (subscribed : list string) (ts : list toast) :
  subscribedAfter subscribed (map Toast ts) = subscribed.
Proof. induction ts as [| t ts IH]; [reflexivity | exact IH]. Qed.

(** X19. An authenticated [addToMonitor] sends one request, [POST
    /monitor/subscriptions], with the plan code, the selected datacenters
    converted to provider API codes (none meaning all datacenters) and both
    notifications on. If it succeeds the subscribed set afterwards has no
    repeat and holds the plan and every plan it held before, and nothing
    else; if it fails the subscribed set is left as it was. Unauthenticated,
    nothing is sent and the set is left as it was. *)
Theorem addToMonitor_subscribes (subscribed : list string) (server : ServerPlan)
    (datacenters : list string) (net : outcome unit) :
  let es := addToMonitor true subscribed server datacenters net in
  requestsOf es
  = [ (POST, "/monitor/subscriptions",
       Some [ ("planCode", JS.JStr (planCode server));
              ("datacenters", JS.JStrings (map convertDisplayDcToApiDc datacenters));
              ("notifyAvailable", JS.JBool true);
              ("notifyUnavailable", JS.JBool true) ],
       ApiClient.noConfig) ]
  /\ ((exists u, net = Resolved u) ->
      NoDup (subscribedAfter subscribed es)
      /\ forall p, In p (subscribedAfter subscribed es) <-> In p subscribed \/ p = planCode server)
  /\ ((exists error, net = Rejected error) -> subscribedAfter subscribed es = subscribed)
  /\ requestsOf (addToMonitor false subscribed server datacenters net) = []
  /\ subscribedAfter subscribed (addToMonitor false subscribed server datacenters net)
     = subscribed.
Proof.
  cbn zeta. unfold addToMonitor. cbn [negb].
  split; [| split; [| split; [| split; reflexivity]]].
  - destruct net as [u | error]; [reflexivity |].
    cbn [app requestsOf flat_map]. fold (requestsOf (map Toast
      (ApiClient.responseInterceptorToasts error) ++ [Toast (mkToast ToastError
        (JS.orElse match response error with Some r => dataMessage r | None => None end
           "添加到监控失败"))])).
    now rewrite requestsOf_app, requestsOf_toasts.
  - intros [u ->]. cbn. split.
    + apply NoDup_ListNoDup, newSet_NoDup.
    + intros p. rewrite newSet_In, in_app_iff. simpl. intuition congruence.
  - intros [error ->]. cbn [app subscribedAfter fold_left].
    fold (subscribedAfter subscribed (map Toast (ApiClient.responseInterceptorToasts error)
      ++ [Toast (mkToast ToastError
        (JS.orElse match response error with Some r => dataMessage r | None => None end
           "添加到监控失败"))])).
    now rewrite subscribedAfter_app, subscribedAfter_toasts.
Qed.

Lemma addToMonitor_subscribes_witness :
  let server := mkServerPlan "24ska01" "KS-A" [] [] in
  In "24sk20" (subscribedAfter ["24sk20"]
                 (addToMonitor true ["24sk20"] server ["GRA"; "mum"] (Resolved tt)))
  /\ subscribedAfter ["24sk20"]
       (addToMonitor true ["24sk20"] server ["GRA"; "mum"]
          (Rejected (mkAxiosError None None None true)))
     = ["24sk20"].
Proof.
  cbv beta zeta.
  pose proof (addToMonitor_subscribes ["24sk20"] (mkServerPlan "24ska01" "KS-A" [] [])
                ["GRA"; "mum"] (Resolved tt)) as [_ [Hok _]].
  pose proof (addToMonitor_subscribes ["24sk20"] (mkServerPlan "24ska01" "KS-A" [] [])
                ["GRA"; "mum"] (Rejected (mkAxiosError None None None true)))
    as [_ [_ [Hfail _]]].
  split.
  - apply (proj2 (Hok ltac:(eexists; reflexivity))). left. left. reflexivity.
  - apply Hfail. eexists. reflexivity.
Defined.



End Subscriptions.

(** ** Normalized availability data *)

Section NormalizedData.

Import ServersPage ServersView.
Local Open Scope list_scope.

Let step (normalizedData : JS.obj string) (kv : string * string) : JS.obj string :=
  JS.obj_set normalizedData (normalizeDc (fst kv)) (snd kv).

Lemma normalize_keys_NoDup (data acc : JS.obj string) :
  List.NoDup (map fst acc) -> List.NoDup (map fst (fold_left step data acc)).
Proof.
  revert acc. induction data as [| kv data IH]; intros acc Hnd; simpl; [exact Hnd |].
  apply IH. now apply obj_set_keys_NoDup.
Qed.

Lemma obj_set_keys_In {V : Type} (o : JS.obj V) (k k' : string) (v : V) :
  In k (map fst (JS.obj_set o k' v)) <-> In k (map fst o) \/ k = k'.
Proof.
  rewrite obj_set_keys.
  destruct (JSArray.arrayIncludes (map fst o) k') eqn:Hin.
  - apply arrayIncludes_In in Hin. intuition congruence.
  - rewrite in_app_iff. simpl. intuition congruence.
Qed.

Lemma normalize_keys_In (data acc : JS.obj string) (k : string) :
  In k (map fst (fold_left step data acc))
  <-> In k (map fst acc) \/ exists k0, In k0 (map fst data) /\ k = normalizeDc k0.
Proof.
  revert acc. induction data as [| kv data IH]; intros acc; simpl.
  - split; [tauto | intros [H | [k0 [[] _]]]; exact H].
  - rewrite IH. unfold step. rewrite obj_set_keys_In. split.
    + intros [[H | ->] | [k0 [Hin ->]]]; [now left | right | right].
      * exists (fst kv). split; [now left | reflexivity].
      * exists k0. split; [now right | reflexivity].
    + intros [H | [k0 [[<- | Hin] ->]]]; [tauto | tauto |].
      right. exists k0. now split.
Qed.

Lemma obj_get_absent {V : Type} (o : JS.obj V) (k : string) :
  ~ In k (map fst o) -> JS.obj_get o k = None.
Proof.
  unfold JS.obj_get. induction o as [| [k0 v0] o IH]; simpl; [reflexivity |].
  intros Hnot. destruct (String.eqb_spec k0 k) as [-> | Hne]; [tauto |].
  apply IH. tauto.
Qed.

Lemma normalize_no_collision (data acc : JS.obj string) :
  List.NoDup (map normalizeDc (map fst data)) ->
  (forall k0, In k0 (map fst data) -> ~ In (normalizeDc k0) (map fst acc)) ->
  fold_left step data acc
  = acc ++ map (fun kv => (normalizeDc (fst kv), snd kv)) data.
Proof.
  revert acc. induction data as [| kv data IH]; intros acc Hnd Hfresh; simpl.
  - now rewrite app_nil_r.
  - simpl in Hnd. apply List.NoDup_cons_iff in Hnd. destruct Hnd as [Hkv Hnd].
    assert (Hstep : step acc kv = acc ++ [(normalizeDc (fst kv), snd kv)]).
    { unfold step. apply obj_set_absent, obj_get_absent, Hfresh. now left. }
    rewrite IH.
    + now rewrite Hstep, <- app_assoc.
    + exact Hnd.
    + intros k0 Hk0. rewrite Hstep, map_app, in_app_iff. simpl.
      intros [Hin | [Heq | []]].
      * apply (Hfresh k0); [now right | exact Hin].
      * apply Hkv. rewrite Heq. now apply in_map.
Qed.

Lemma normalizeDc_injective_on (keys : list string) :
  List.NoDup keys -> ~ (In "ynm" keys /\ In "mum" keys) ->
  List.NoDup (map normalizeDc keys).
Proof.
  induction keys as [| k keys IH]; simpl; intros Hnd Hnot; [constructor |].
  apply List.NoDup_cons_iff in Hnd. destruct Hnd as [Hk Hnd].
  constructor; [| apply IH; tauto].
  rewrite in_map_iff. intros [k' [Heq Hin]].
  unfold normalizeDc in Heq.
  destruct (String.eqb_spec k' "ynm") as [Hk' | Hk'],
    (String.eqb_spec k "ynm") as [Hk0 | Hk0].
  - apply Hk. congruence.
  - apply Hnot. split; [right; congruence | left; congruence].
  - apply Hnot. split; [left; congruence | right; congruence].
  - apply Hk. congruence.
Qed.

(** X21. The normalized availability of a plan has each datacenter code
    once and never the code [ynm]; its codes are the normalized codes of the
    response. When the response (an object: each code once) does not hold
    both [ynm] and [mum], normalization keeps every entry in its place with
    its status, only renaming [ynm] to [mum]: the status the provider gave
    for [ynm] is the one found under [mum]. *)
Theorem normalizeData_keys (data : JS.obj string) :
  NoDup (map fst (normalizeData data))
  /\ ~ In "ynm" (map fst (normalizeData data))
  /\ (forall k, In k (map fst (normalizeData data))
        <-> exists k0, In k0 (map fst data) /\ k = normalizeDc k0)
  /\ (NoDup (map fst data) -> ~ (In "ynm" (map fst data) /\ In "mum" (map fst data)) ->
      normalizeData data = map (fun kv => (normalizeDc (fst kv), snd kv)) data
      /\ forall status, In ("ynm", status) data ->
           JS.obj_get (normalizeData data) "mum" = Some status).
Proof.
  assert (Hnd : List.NoDup (map fst (normalizeData data)))
    by (apply normalize_keys_NoDup; constructor).
  assert (Hkeys : forall k, In k (map fst (normalizeData data))
                    <-> exists k0, In k0 (map fst data) /\ k = normalizeDc k0).
  { intros k. unfold normalizeData. fold step. rewrite normalize_keys_In. simpl. tauto. }
  split; [now apply NoDup_ListNoDup |].
  split; [| split; [exact Hkeys |]].
  - rewrite Hkeys. intros [k0 [_ Heq]]. unfold normalizeDc in Heq.
    destruct (String.eqb_spec k0 "ynm"); [discriminate | congruence].
  - intros Hdata Hboth. apply NoDup_ListNoDup in Hdata.
    assert (Heq : normalizeData data = map (fun kv => (normalizeDc (fst kv), snd kv)) data).
    { unfold normalizeData. fold step.
      rewrite normalize_no_collision; [reflexivity | | intros k0 _ []].
      now apply normalizeDc_injective_on. }
    split; [exact Heq |].
    intros status Hin. apply (obj_get_In _ _ _ Hnd).
    rewrite Heq. apply in_map_iff. exists ("ynm", status). now split.
Qed.

Lemma normalizeData_keys_witness :
  JS.obj_get (normalizeData [("gra", "unavailable"); ("ynm", "72H"); ("rbx", "1H-low")]) "mum"
  = Some "72H".
Proof.
  apply (proj2 (proj2 (proj2 (proj2 (normalizeData_keys
           [("gra", "unavailable"); ("ynm", "72H"); ("rbx", "1H-low")])))
           ltac:(apply NoDup_ListNoDup; repeat constructor; simpl; intuition discriminate)
           ltac:(simpl; intuition discriminate))).
  right. left. reflexivity.
Defined.

(** X22. Converting a normalized provider code gives back the lower-case
    form of the provider code, for every code whose lower-case form is not
    [mum]: the price request that follows an availability check names the
    datacenter as the provider did. *)
Theorem api_code_round_trip (dc : string) :
  JS.toLowerCase dc <> "mum" ->
  convertDisplayDcToApiDc (normalizeDc dc) = JS.toLowerCase dc.
Proof.
  intros Hne. unfold normalizeDc.
  destruct (String.eqb_spec dc "ynm") as [-> | Hynm]; [reflexivity |].
  rewrite convert_unfold.
  destruct (String.eqb_spec (JS.toLowerCase dc) "mum"); [contradiction | reflexivity].
Qed.

Lemma api_code_round_trip_witness :
  convertDisplayDcToApiDc (normalizeDc "ynm") = "ynm"
  /\ convertDisplayDcToApiDc (normalizeDc "BHS") = "bhs".
Proof.
  split.
  - apply (api_code_round_trip "ynm"). vm_compute. discriminate.
  - apply (api_code_round_trip "BHS"). vm_compute. discriminate.
Defined.

(** X23. The tile of a datacenter is drawn green exactly when the plan's
    normalized availability lists the datacenter (its code in lower case)
    among the available ones, the ones a price may be looked up for; with
    no availability recorded for the plan the tile is yellow and says that
    the check is pending. *)
Theorem tile_green_iff_available (availability : gmap string (JS.obj string))
    (planCode dcCode : string) :
  (forall data, availability !! planCode = Some (normalizeData data) ->
     (snd (tileStatus availability planCode dcCode) = Green
      <-> In (JS.toLowerCase dcCode) (availableDatacenters (normalizeData data))))
  /\ (availability !! planCode = None ->
      tileStatus availability planCode dcCode = ("查询中", Yellow)).
Proof.
  split.
  - intros data Hav. unfold tileStatus. unfold JS.obj in *. rewrite Hav.
    assert (Hnd : List.NoDup (map fst (normalizeData data)))
      by (apply normalize_keys_NoDup; constructor).
    set (nd := normalizeData data) in *. set (k := JS.toLowerCase dcCode).
    unfold availableDatacenters. rewrite in_map_iff.
    destruct (JS.obj_get nd k) as [s |] eqn:Hget.
    + assert (Hiff : (exists kv, fst kv = k
                        /\ In kv (List.filter (fun kv => statusIsAvailable (snd kv)) nd))
                     <-> statusIsAvailable s = true).
      { split.
        - intros [[k' s'] [Hk Hin]]. simpl in Hk. subst k'.
          apply List.filter_In in Hin. destruct Hin as [Hin Hs]. simpl in Hs.
          apply (obj_get_In nd k s' Hnd) in Hin.
          unfold JS.obj in *. congruence.
        - intros Hs. exists (k, s). split; [reflexivity |].
          apply List.filter_In. split; [now apply (obj_get_In nd k s Hnd) | exact Hs]. }
      rewrite Hiff. unfold statusIsAvailable, JS.orElse.
      destruct (JS.truthy s) eqn:Htruthy.
      * rewrite Htruthy.
        destruct (String.eqb s "unavailable"); [cbn; split; discriminate |].
        destruct (String.eqb s "unknown"); cbn; split; (discriminate || reflexivity).
      * cbn. split; discriminate.
    + cbn. split; [discriminate |].
      intros [[k' s'] [Hk Hin]]. simpl in Hk. subst k'.
      apply List.filter_In in Hin. destruct Hin as [Hin _].
      apply (obj_get_In nd k s' Hnd) in Hin. unfold JS.obj in *. congruence.
  - intros Hnone. unfold tileStatus. unfold JS.obj in *. now rewrite Hnone.
Qed.

Lemma tile_green_iff_available_witness :
  tileStatus ∅ "24ska01" "GRA" = ("查询中", Yellow).
Proof.
  apply (proj2 (tile_green_iff_available ∅ "24ska01" "GRA")).
  apply lookup_empty.
Defined.

End NormalizedData.

(** ** Outcomes of the queue and availability handlers *)

Section HandlerOutcomes.

Import ServersPage ServersView.
Local Open Scope list_scope.

Lemma toastsOf_app (es1 es2 : list effect) :
  toastsOf (es1 ++ es2) = toastsOf es1 ++ toastsOf es2.
Proof. apply flat_map_app. Qed.

Lemma toastsOf_toasts (ts : list toast) : toastsOf (map Toast ts) = ts.
Proof. induction ts as [| t ts IH]; [reflexivity | simpl; now rewrite IH]. Qed.

Lemma toastsOf_queueRequests (selectedOptions : gmap string (list string))
    (server : ServerPlan) (datacenters : list string) :
  toastsOf (map (queueRequest selectedOptions server) datacenters) = [].
Proof. induction datacenters as [| dc dcs IH]; [reflexivity | exact IH]. Qed.

Lemma interceptor_toasts_are_errors (error : AxiosError) (t : toast) :
  In t (ApiClient.responseInterceptorToasts error) -> toastLevel t = ToastError.
Proof.
  unfold ApiClient.responseInterceptorToasts.
  destruct (response error) as [r |].
  - destruct (status r =? 403)%Z; [intros [<- | []]; reflexivity |].
    destruct (status r =? 500)%Z; [intros [<- | []]; reflexivity | intros []].
  - destruct (request error); [intros [<- | []]; reflexivity | intros []].
Qed.

Lemma rejectionToasts_none (net : list (outcome unit)) :
  existsb isRejected net = false -> flat_map rejectionToasts net = [].
Proof.
  induction net as [| o net IH]; [reflexivity |]. simpl.
  destruct o as [u | error]; simpl; [exact IH | discriminate].
Qed.

Lemma rejectionToasts_are_errors (net : list (outcome unit)) (t : toast) :
  In t (toastsOf (flat_map rejectionToasts net)) -> toastLevel t = ToastError.
Proof.
  induction net as [| o net IH]; simpl; [intros [] |].
  rewrite toastsOf_app, in_app_iff. intros [Hin | Hin]; [| now apply IH].
  destruct o as [u | error]; simpl in Hin; [destruct Hin |].
  rewrite toastsOf_toasts in Hin. now apply (interceptor_toasts_are_errors error).
Qed.

Lemma afterPromiseAll_fulfilled (onFulfilled : list effect) (net : list (outcome unit)) :
  existsb isRejected net = false -> afterPromiseAll onFulfilled net = onFulfilled.
Proof.
  induction net as [| [u | error] later IH]; simpl; [reflexivity | exact IH | discriminate].
Qed.

Lemma afterPromiseAll_rejected (onFulfilled : list effect)
    (settled later : list (outcome unit)) (error : AxiosError) :
  existsb isRejected settled = false ->
  afterPromiseAll onFulfilled (settled ++ Rejected error :: later)
  = map Toast (ApiClient.responseInterceptorToasts error)
    ++ [ Toast (mkToast ToastError "添加到抢购队列失败") ]
    ++ flat_map rejectionToasts later.
Proof.
  induction settled as [| [u | error'] settled IH]; simpl;
    [reflexivity | exact IH | discriminate].
Qed.

Lemma first_rejection (net : list (outcome unit)) :
  existsb isRejected net = true ->
  exists settled error later,
    net = settled ++ Rejected error :: later /\ existsb isRejected settled = false.
Proof.
  induction net as [| [u | error] net IH]; simpl; [discriminate | |].
  - intros Hsome. destruct (IH Hsome) as [settled [error [later [-> Hnone]]]].
    exists (Resolved u :: settled), error, later. split; [reflexivity | exact Hnone].
  - intros _. exists [], error, net. split; reflexivity.
Qed.

(** X24. An authenticated enqueue over a non-empty selection, with the
    outcomes in the order in which the responses come. If every request
    succeeded, the success toast is raised and it is the only toast. If a
    request was rejected, the toasts are those of the interceptor for the
    first rejected response, then the error toast of the handler, then those
    of the interceptor for the responses rejected later; no success toast is
    raised at all, and yet every request of the selection has been issued:
    the requests that succeeded stay queued. *)
Theorem addToQueue_partial_failure (selectedOptions : gmap string (list string))
    (server : ServerPlan) (datacenters : list string) (net : list (outcome unit)) :
  datacenters <> [] ->
  let es := addToQueue true selectedOptions server datacenters net in
  (existsb isRejected net = false ->
   toastsOf es
   = [ mkToast ToastSuccess
         (queueSuccessMessage server datacenters
            (userSelectedOptions selectedOptions server)) ])
  /\ (forall settled error later,
        net = settled ++ Rejected error :: later ->
        existsb isRejected settled = false ->
        toastsOf es
        = ApiClient.responseInterceptorToasts error
          ++ [ mkToast ToastError "添加到抢购队列失败" ]
          ++ toastsOf (flat_map rejectionToasts later))
  /\ (existsb isRejected net = true ->
      (forall t, In t (toastsOf es) -> toastLevel t = ToastError)
      /\ List.length (requestsOf es) = List.length datacenters).
Proof.
  intros Hne. cbn zeta.
  assert (Htoasts : forall settled error later,
             net = settled ++ Rejected error :: later ->
             existsb isRejected settled = false ->
             toastsOf (addToQueue true selectedOptions server datacenters net)
             = ApiClient.responseInterceptorToasts error
               ++ [ mkToast ToastError "添加到抢购队列失败" ]
               ++ toastsOf (flat_map rejectionToasts later)).
  { intros settled error later -> Hnone. unfold addToQueue. cbn [negb].
    destruct datacenters as [| dc dcs]; [congruence |]. cbn [List.length Nat.eqb].
    rewrite (afterPromiseAll_rejected _ settled later error Hnone).
    rewrite !toastsOf_app, toastsOf_queueRequests, toastsOf_toasts. reflexivity. }
  split; [| split; [exact Htoasts |]].
  - intros Hnone. unfold addToQueue. cbn [negb].
    destruct datacenters as [| dc dcs]; [congruence |]. cbn [List.length Nat.eqb].
    rewrite (afterPromiseAll_fulfilled _ net Hnone).
    rewrite toastsOf_app, toastsOf_queueRequests. reflexivity.
  - intros Hsome. split.
    + destruct (first_rejection net Hsome) as [settled [error [later [Hnet Hnone]]]].
      intros t. rewrite (Htoasts settled error later Hnet Hnone), !in_app_iff.
      intros [Hin | [[<- | []] | Hin]].
      * now apply (interceptor_toasts_are_errors error).
      * reflexivity.
      * now apply (rejectionToasts_are_errors later).
    + rewrite addToQueue_requestsOf, requestsOf_queueRequests. apply length_map.
Qed.

Lemma addToQueue_partial_failure_witness :
  let server := mkServerPlan "24ska01" "KS-A" [] [] in
  let failed := Rejected (mkAxiosError None None
                            (Some (mkErrorResponse 500 None None false)) true) in
  toastsOf (addToQueue true ∅ server ["gra"; "rbx"; "bhs"] [ Resolved tt; failed; failed ])
  = [ mkToast ToastError "服务器错误";
      mkToast ToastError "添加到抢购队列失败";
      mkToast ToastError "服务器错误" ].
Proof.
  cbv beta zeta.
  apply (proj1 (proj2 (addToQueue_partial_failure ∅ (mkServerPlan "24ska01" "KS-A" [] [])
                  ["gra"; "rbx"; "bhs"]
                  [ Resolved tt;
                    Rejected (mkAxiosError None None
                                (Some (mkErrorResponse 500 None None false)) true);
                    Rejected (mkAxiosError None None
                                (Some (mkErrorResponse 500 None None false)) true) ]
                  ltac:(discriminate)))
           [Resolved tt]
           (mkAxiosError None None (Some (mkErrorResponse 500 None None false)) true)
           [ Rejected (mkAxiosError None None
                         (Some (mkErrorResponse 500 None None false)) true) ]);
    reflexivity.
Defined.

Lemma availabilityAfter_app (availability : gmap string (JS.obj string))
    (es1 es2 : list effect) :
  availabilityAfter availability (es1 ++ es2)
  = availabilityAfter (availabilityAfter availability es1) es2.
Proof. apply fold_left_app. Qed.

Lemma availabilityAfter_toasts (availability : gmap string (JS.obj string))
    (ts : list toast) :
  availabilityAfter availability (map Toast ts) = availability.
Proof. induction ts as [| t ts IH]; [reflexivity | exact IH]. Qed.

(** X25. A successful availability check replaces the stored availability
    of the checked plan by the normalized response and leaves the other plans
    as they were; a failed or unauthenticated check leaves the stored
    availability of every plan as it was. Authenticated, the check always
    ends by clearing the checking flag and the selected server. *)
Theorem checkAvailability_state (selectedOptions : gmap string (list string))
    (servers : list ServerPlan) (planCode : string) (net : outcome (JS.obj string))
    (availability : gmap string (JS.obj string)) :
  let es := checkAvailability true selectedOptions servers planCode net in
  (forall data, net = Resolved data ->
     availabilityAfter availability es = <[ planCode := normalizeData data ]> availability)
  /\ ((exists error, net = Rejected error) -> availabilityAfter availability es = availability)
  /\ (exists before,
        es = before ++ [ SetIsCheckingAvailability false; SetSelectedServer None ])
  /\ availabilityAfter availability
       (checkAvailability false selectedOptions servers planCode net)
     = availability.
Proof.
  cbn zeta. unfold checkAvailability. cbn [negb].
  split; [| split; [| split; [| reflexivity]]].
  - intros data ->.
    destruct (availableDatacenters (normalizeData data)) as [| dc dcs]; reflexivity.
  - intros [error ->]. rewrite !availabilityAfter_app, availabilityAfter_toasts. reflexivity.
  - rewrite app_assoc. eexists. reflexivity.
Qed.

Lemma checkAvailability_state_witness :
  availabilityAfter {[ "24ska01" := [("gra", "1H-high")] ]}
    (checkAvailability true ∅ [] "24ska01"
       (Rejected (mkAxiosError (Some "ECONNABORTED") None None true)))
  = {[ "24ska01" := [("gra", "1H-high")] ]}.
Proof.
  apply (proj1 (proj2 (checkAvailability_state ∅ [] "24ska01"
                         (Rejected (mkAxiosError (Some "ECONNABORTED") None None true))
                         {[ "24ska01" := [("gra", "1H-high")] ]}))).
  eexists. reflexivity.
Defined.

(** X26. What the operator is told when an authenticated availability check
    fails without a timeout: on a 404 response, after the progress toast, one
    error toast saying the plan does not exist or was withdrawn; on a 500
    response two error toasts, the client's "server error" and then the
    handler's own. *)
Theorem checkAvailability_failure_toasts (selectedOptions : gmap string (list string))
    (servers : list ServerPlan) (planCode : string) (error : AxiosError)
    (r : ErrorResponse) :
  code error <> Some "ECONNABORTED" ->
  JS.optIncludes (message error) "timeout" = false ->
  response error = Some r ->
  let toasts :=
    toastsOf (checkAvailability true selectedOptions servers planCode (Rejected error)) in
  (status r = 404%Z ->
   toasts = [ mkToast ToastInfo ("正在检测 " +:+ planCode +:+ " 的可用性...");
              mkToast ToastError (planCode +:+ " 不存在或已下架") ])
  /\ (status r = 500%Z ->
      toasts = [ mkToast ToastInfo ("正在检测 " +:+ planCode +:+ " 的可用性...");
                 mkToast ToastError "服务器错误";
                 mkToast ToastError (checkAvailabilityErrorMessage planCode error) ]).
Proof.
  intros Hcode Htimeout Hresp. cbn zeta. unfold checkAvailability. cbn [negb].
  rewrite !toastsOf_app, toastsOf_toasts.
  unfold ApiClient.responseInterceptorToasts, checkAvailabilityErrorMessage.
  rewrite Hresp, Htimeout.
  assert (Hc : match code error with
               | Some c => String.eqb c "ECONNABORTED"
               | None => false
               end = false).
  { destruct (code error) as [c |]; [| reflexivity].
    apply String.eqb_neq. congruence. }
  rewrite Hc. split; intros ->; reflexivity.
Qed.

Lemma checkAvailability_failure_toasts_witness :
  toastsOf (checkAvailability true ∅ [] "24ska01"
              (Rejected (mkAxiosError (Some "ERR_BAD_REQUEST")
                           (Some "Request failed with status code 404")
                           (Some (mkErrorResponse 404 None None false)) true)))
  = [ mkToast ToastInfo "正在检测 24ska01 的可用性...";
      mkToast ToastError "24ska01 不存在或已下架" ].
Proof.
  apply (proj1 (checkAvailability_failure_toasts ∅ [] "24ska01"
                  (mkAxiosError (Some "ERR_BAD_REQUEST")
                     (Some "Request failed with status code 404")
                     (Some (mkErrorResponse 404 None None false)) true)
                  (mkErrorResponse 404 None None false)
                  ltac:(discriminate) ltac:(reflexivity) ltac:(reflexivity))).
  reflexivity.
Defined.

End HandlerOutcomes.

(** ** From the ticked tiles to the queue *)

Section TickedToQueue.

Import ServersPage ServersView.
Local Open Scope list_scope.

Lemma ascii_toLowerCase_idempotent (c : ascii) :
  JS.ascii_toLowerCase (JS.ascii_toLowerCase c) = JS.ascii_toLowerCase c.
Proof.
  destruct c as [[|] [|] [|] [|] [|] [|] [|] [|]]; reflexivity.
Qed.

Lemma toLowerCase_idempotent (s : string) :
  JS.toLowerCase (JS.toLowerCase s) = JS.toLowerCase s.
Proof.
  induction s as [| c s IH]; simpl; [reflexivity |].
  now rewrite ascii_toLowerCase_idempotent, IH.
Qed.

Lemma convert_lower (dc : string) :
  convertDisplayDcToApiDc (JS.toLowerCase dc) = convertDisplayDcToApiDc dc.
Proof. now rewrite !convert_unfold, toLowerCase_idempotent. Qed.

(** X27. The click handler of the queue button of a plan, when
    authenticated, sends one [POST /queue] per ticked entry of the plan's
    selection object, in the order of the object, each naming the provider API
    code of the entry's code. The entries are those of the selection object,
    whether or not a tile is drawn for them ("select all" ticks every entry,
    while a plan of a single region draws one tile). With no entry ticked,
    where the button is disabled, the handler would send nothing and raise the
    error toast. *)
Theorem queue_click_sends_ticked (selectedOptions : gmap string (list string))
    (selectedDatacenters : gmap string (JS.obj bool)) (server : ServerPlan)
    (net : list (outcome unit)) :
  let ticked :=
    List.filter (fun kv : string * bool => snd kv)
      (default [] (selectedDatacenters !! planCode server)) in
  requestsOf (onQueueClick true selectedOptions selectedDatacenters server net)
  = map (fun kv : string * bool =>
           (POST, "/queue",
            Some [ ("planCode", JS.JStr (planCode server));
                   ("datacenter", JS.JStr (convertDisplayDcToApiDc (fst kv)));
                   ("options", JS.JStrings (userSelectedOptions selectedOptions server)) ],
            ApiClient.noConfig))
        ticked
  /\ (ticked = [] ->
      onQueueClick true selectedOptions selectedDatacenters server net
      = [ Toast (mkToast ToastError "请至少选择一个数据中心") ]).
Proof.
  cbn zeta. unfold onQueueClick, getSelectedDatacentersList. unfold JS.obj in *.
  destruct (selectedDatacenters !! planCode server) as [current |]; cbn [from_option id].
  - split.
    + destruct (0 <? List.length (map (fun kv : string * bool => JS.toLowerCase (fst kv))
                                     (List.filter (fun kv : string * bool => snd kv) current)))%nat
        eqn:Hlen.
      * rewrite addToQueue_requestsOf, requestsOf_queueRequests, map_map.
        apply map_ext. intros kv. now rewrite convert_lower.
      * apply Nat.ltb_ge in Hlen. rewrite length_map in Hlen.
        destruct (List.filter (fun kv : string * bool => snd kv) current);
          [reflexivity | simpl in Hlen; lia].
    + intros ->. reflexivity.
  - split; [reflexivity | intros _; reflexivity].
Qed.

Lemma queue_click_sends_ticked_witness :
  requestsOf
    (onQueueClick true ∅ {[ "24ska01" := [("GRA", true); ("BHS", false); ("MUM", true)] ]}
       (mkServerPlan "24ska01" "KS-A" [] []) [Resolved tt; Resolved tt])
  = [ (POST, "/queue",
       Some [ ("planCode", JS.JStr "24ska01"); ("datacenter", JS.JStr "gra");
              ("options", JS.JStrings []) ],
       ApiClient.noConfig);
      (POST, "/queue",
       Some [ ("planCode", JS.JStr "24ska01"); ("datacenter", JS.JStr "ynm");
              ("options", JS.JStrings []) ],
       ApiClient.noConfig) ].
Proof.
  exact (proj1 (queue_click_sends_ticked ∅
                  {[ "24ska01" := [("GRA", true); ("BHS", false); ("MUM", true)] ]}
                  (mkServerPlan "24ska01" "KS-A" [] []) [Resolved tt; Resolved tt])).
Defined.

Lemma obj_set_unticked (o : JS.obj bool) (k : string) :
  Forall (fun kv : string * bool => snd kv = false) o ->
  Forall (fun kv : string * bool => snd kv = false) (JS.obj_set o k false).
Proof.
  induction 1 as [| [k0 v0] o Hkv Ho IH]; simpl.
  - now repeat constructor.
  - destruct (String.eqb k0 k); constructor; auto.
Qed.

Lemma unticked_none_selected (o : JS.obj bool) :
  Forall (fun kv : string * bool => snd kv = false) o ->
  List.filter (fun kv : string * bool => snd kv) o = [].
Proof.
  induction 1 as [| [k0 v0] o Hkv Ho IH]; simpl; [reflexivity |].
  simpl in Hkv. now rewrite Hkv.
Qed.

(** X28. In the selection that a load of the server list installs no tile
    is ticked: the selected list of every plan is empty, whatever the plans
    and the datacenter codes. *)
Theorem initial_selection_empty (OVH_DATACENTERS planCodes : list string)
    (serverPlanCode : string) :
  getSelectedDatacentersList (initialSelections OVH_DATACENTERS planCodes) serverPlanCode
  = [].
Proof.
  unfold getSelectedDatacentersList, initialSelections.
  set (fresh := fold_left (fun o code => JS.obj_set o (toUpperCase code) false)
                          OVH_DATACENTERS []).
  assert (Hfresh : Forall (fun kv : string * bool => snd kv = false) fresh).
  { subst fresh.
    assert (Hgen : forall o : JS.obj bool,
               Forall (fun kv : string * bool => snd kv = false) o ->
               Forall (fun kv : string * bool => snd kv = false)
                 (fold_left (fun o code => JS.obj_set o (toUpperCase code) false)
                            OVH_DATACENTERS o)).
    { induction OVH_DATACENTERS as [| code codes IH]; intros o Ho; simpl; [exact Ho |].
      apply IH. now apply obj_set_unticked. }
    apply Hgen. constructor. }
  assert (Hall : forall (acc : gmap string (JS.obj bool)),
             (forall p o, acc !! p = Some o -> Forall (fun kv : string * bool => snd kv = false) o) ->
             forall p o,
               fold_left (fun dcSelections planCode => <[ planCode := fresh ]> dcSelections)
                         planCodes acc !! p = Some o ->
               Forall (fun kv : string * bool => snd kv = false) o).
  { induction planCodes as [| pc pcs IH]; intros acc Hacc p o; simpl; [apply Hacc |].
    apply IH. intros p' o'. rewrite lookup_insert.
    destruct (decide (pc = p')); [intros [= <-]; exact Hfresh | apply Hacc]. }
  destruct (fold_left _ planCodes ∅ !! serverPlanCode) as [o |] eqn:Hlook; [| reflexivity].
  rewrite (unticked_none_selected o); [reflexivity |].
  eapply (Hall ∅); [| exact Hlook].
  intros p o'. rewrite lookup_empty. discriminate.
Qed.

End TickedToQueue.
